(** * The per-vcpu Xen personality of MicroV (bfvmm/src/xen/xen.cpp)

    A shallow embedding of the identity allocator, the time conversion
    functions, the wallclock and runstate publisher, the singleshot timer
    and the hypercall dispatcher, followed by the properties proved about
    them.

    Conventions.
    - A [uintN_t] is a [Z] in [0, 2^N); every operation that can leave that
      range is followed by its wrap-around ([u64], [u32]).
    - A member function of [class xen] is a computation [M A]: it takes the
      object and returns an [outcome]: a normal return with the new object,
      a C++ exception in flight, a failed [expects]/[ensures], or undefined
      behaviour (null dereference, division by zero, oversized shift,
      index out of an array).
    - What the file calls but does not define (the sub-handlers behind
      [m_xenmem], [m_xenver], [m_evtchn], [m_gnttab], [m_physdev],
      [m_sysctl], [m_domctl], the domain's console) is a field of [env].
    - [::x64::read_tsc::get()] is an input: the functions that read the TSC
      take the value read as an argument.
    - The shared-info page, the user time-info mirror and the runstate area
      are taken not to overlap, and the guest not to write to them while a
      function runs. *)

From stdpp Require Import base numbers list.

Open Scope Z_scope.

(** ** Fixed-width integers *)

Definition u64 (x : Z) : Z := x mod 2 ^ 64.
Definition u32 (x : Z) : Z := x mod 2 ^ 32.

(** [x << n] and [x >> n] on [uint64_t]; a shift count of 64 or more is
    undefined in C++. *)
Definition shl64 (x n : Z) : option Z :=
  if (0 <=? n) && (n <? 64) then Some (u64 (Z.shiftl x n)) else None.

Definition shr64 (x n : Z) : option Z :=
  if (0 <=? n) && (n <? 64) then Some (Z.shiftr x n) else None.

(** [x / y] on [uint64_t]; division by zero is undefined. *)
Definition div64 (x y : Z) : option Z :=
  if y =? 0 then None else Some (x / y).

(** ** Constants *)

(** [#define XEN_MAJOR 4UL] and [#define XEN_MINOR 13UL] *)
Definition XEN_MAJOR : Z := 4.
Definition XEN_MINOR : Z := 13.

(** [static constexpr auto xen_leaf_base = 0x40000100] *)
Definition xen_leaf_base : Z := 0x40000100.
Definition xen_leaf (i : Z) : Z := xen_leaf_base + i.

(** Modelled from the spec: the numeric values of the Xen ABI constants
    below, which xen.cpp takes from the headers it includes (public/xen.h,
    public/vcpu.h, public/errno.h, public/platform.h, public/hvm/hvm_op.h,
    public/hvm/params.h, public/memory.h, public/version.h,
    public/event_channel.h, public/grant_table.h, public/physdev.h,
    public/xsm/flask_op.h); the spec requires them to match Xen's published
    numbering. *)

Definition XEN_LEGACY_MAX_VCPUS : Z := 32.

Definition EACCES : Z := 13.
Definition EINVAL : Z := 22.
Definition ENOSYS : Z := 38.
Definition ETIME  : Z := 62.

Definition __HYPERVISOR_platform_op      : Z := 7.
Definition __HYPERVISOR_memory_op        : Z := 12.
Definition __HYPERVISOR_xen_version      : Z := 17.
Definition __HYPERVISOR_console_io       : Z := 18.
Definition __HYPERVISOR_grant_table_op   : Z := 20.
Definition __HYPERVISOR_vm_assist        : Z := 21.
Definition __HYPERVISOR_vcpu_op          : Z := 24.
Definition __HYPERVISOR_xsm_op           : Z := 27.
Definition __HYPERVISOR_event_channel_op : Z := 32.
Definition __HYPERVISOR_physdev_op       : Z := 33.
Definition __HYPERVISOR_hvm_op           : Z := 34.
Definition __HYPERVISOR_sysctl           : Z := 35.
Definition __HYPERVISOR_domctl           : Z := 36.

Definition CONSOLEIO_write : Z := 0.
Definition CONSOLEIO_read  : Z := 1.

Definition XENMEM_decrease_reservation     : Z := 1.
Definition XENMEM_add_to_physmap           : Z := 7.
Definition XENMEM_memory_map               : Z := 9.
Definition XENMEM_get_sharing_freed_pages  : Z := 18.
Definition XENMEM_get_sharing_shared_pages : Z := 19.

Definition XENVER_version             : Z := 0.
Definition XENVER_extraversion        : Z := 1.
Definition XENVER_compile_info        : Z := 2.
Definition XENVER_capabilities        : Z := 3.
Definition XENVER_changeset           : Z := 4.
Definition XENVER_platform_parameters : Z := 5.
Definition XENVER_get_features        : Z := 6.
Definition XENVER_pagesize            : Z := 7.
Definition XENVER_guest_handle        : Z := 8.
Definition XENVER_commandline         : Z := 9.
Definition XENVER_build_id            : Z := 10.

Definition EVTCHNOP_bind_interdomain : Z := 0.
Definition EVTCHNOP_bind_virq        : Z := 1.
Definition EVTCHNOP_close            : Z := 3.
Definition EVTCHNOP_send             : Z := 4.
Definition EVTCHNOP_alloc_unbound    : Z := 6.
Definition EVTCHNOP_bind_vcpu        : Z := 8.
Definition EVTCHNOP_init_control     : Z := 11.
Definition EVTCHNOP_expand_array     : Z := 12.
Definition EVTCHNOP_set_priority     : Z := 13.

Definition GNTTABOP_query_size  : Z := 6.
Definition GNTTABOP_set_version : Z := 8.

Definition PHYSDEVOP_pci_device_add : Z := 25.

Definition HVMOP_set_param       : Z := 0.
Definition HVMOP_get_param       : Z := 1.
Definition HVMOP_pagetable_dying : Z := 9.

Definition HVM_PARAM_CALLBACK_IRQ           : Z := 0.
Definition HVM_PARAM_CALLBACK_IRQ_TYPE_MASK : Z := 0xFF00000000000000.
Definition HVM_PARAM_CALLBACK_TYPE_VECTOR   : Z := 2.

Definition XENPF_INTERFACE_VERSION : Z := 0x03000001.
Definition XENPF_get_cpuinfo       : Z := 55.
Definition XENPF_settime64         : Z := 62.
Definition XEN_PCPU_FLAGS_ONLINE   : Z := 1.

Definition XEN_FLASK_INTERFACE_VERSION : Z := 1.
Definition FLASK_SID_TO_CONTEXT        : Z := 5.

Definition VCPUOP_register_runstate_memory_area  : Z := 5.
Definition VCPUOP_stop_periodic_timer            : Z := 7.
Definition VCPUOP_set_singleshot_timer           : Z := 8.
Definition VCPUOP_stop_singleshot_timer          : Z := 9.
Definition VCPUOP_register_vcpu_time_memory_area : Z := 13.

Definition VCPU_SSHOTTMR_future : Z := 1.

Definition VMASST_CMD_enable                : Z := 0.
Definition VMASST_TYPE_runstate_update_flag : Z := 5.

Definition RUNSTATE_running  : Z := 0.
Definition RUNSTATE_runnable : Z := 1.
Definition RUNSTATE_blocked  : Z := 2.
Definition RUNSTATE_offline  : Z := 3.

Definition XEN_RUNSTATE_UPDATE : Z := 2 ^ 63.

(** ** Time conversion *)

(** [static constexpr uint64_t s_to_ns(uint64_t sec)] *)
Definition s_to_ns (sec : Z) : Z := u64 (sec * 1000000000).

(** [return ((ticks << shft) * mult) >> 32;] *)
Definition tsc_to_ns (ticks shft mult : Z) : option Z :=
  t ← shl64 ticks shft;
  shr64 (u64 (t * mult)) 32.

(** [return ((ns << 32) / mult) >> shft;] *)
Definition ns_to_tsc (ns shft mult : Z) : option Z :=
  n ← shl64 ns 32;
  q ← div64 n mult;
  shr64 q shft.

(** [return tsc >> pet_shift;] *)
Definition tsc_to_pet (tsc pet_shift : Z) : option Z :=
  shr64 tsc pet_shift.

(** The macro [do_div(n, base)]: the new value of [n] (the quotient) and the
    remainder the macro evaluates to; [__base] is [base] narrowed to
    [uint32_t]. *)
Definition do_div (n base : Z) : option (Z * Z) :=
  let __base := u32 base in
  if __base =? 0 then None
  else Some (u64 n / __base, u32 (u64 n mod __base)).

(** ** Guest-visible structures *)

(** [struct vcpu_time_info]; [tsc_shift] is an [int8_t]. *)
Record vcpu_time_info := mk_vti {
  version : Z;
  tsc_timestamp : Z;
  system_time : Z;
  tsc_to_system_mul : Z;
  tsc_shift : Z;
  flags : Z
}.

(** [struct shared_info], the fields xen.cpp touches; [vcpu_info] holds the
    [time] member of each [vcpu_info[i]]. *)
Record shared_info := mk_shinfo {
  vcpu_info : list vcpu_time_info;
  wc_version : Z;
  wc_sec : Z;
  wc_nsec : Z;
  wc_sec_hi : Z
}.

(** [uint64_t time[4]] of [struct vcpu_runstate_info]. *)
Record runstate_times := mk_times {
  t_running : Z;
  t_runnable : Z;
  t_blocked : Z;
  t_offline : Z
}.

(** [struct vcpu_runstate_info]; [state] is an [int]. *)
Record vcpu_runstate_info := mk_runstate {
  state : Z;
  state_entry_time : Z;
  time : runstate_times
}.

(** [time[i]]: [None] when [i] is outside the array. *)
Definition time_get (t : runstate_times) (i : Z) : option Z :=
  match i with
  | 0 => Some (t_running t)
  | 1 => Some (t_runnable t)
  | 2 => Some (t_blocked t)
  | 3 => Some (t_offline t)
  | _ => None
  end.

(** [time[i] = v], for [i] inside the array. *)
Definition time_set (t : runstate_times) (i v : Z) : runstate_times :=
  match i with
  | 0 => mk_times v (t_runnable t) (t_blocked t) (t_offline t)
  | 1 => mk_times (t_running t) v (t_blocked t) (t_offline t)
  | 2 => mk_times (t_running t) (t_runnable t) v (t_offline t)
  | 3 => mk_times (t_running t) (t_runnable t) (t_blocked t) v
  | _ => t
  end.

Definition time_sum (t : runstate_times) : Z :=
  t_running t + t_runnable t + t_blocked t + t_offline t.

(** Arguments of hypercalls, as [map_arg<T>] finds them in guest memory. *)
Record xen_hvm_param := mk_hvm_param { hp_index : Z; hp_value : Z }.

Record xenpf_settime64 := mk_settime64 {
  secs : Z;
  nsecs : Z;
  mbz : Z;
  st_system_time : Z
}.

Record xenpf_pcpuinfo := mk_pcpuinfo {
  max_present : Z;
  pi_flags : Z;
  apic_id : Z;
  acpi_id : Z
}.

(** [xen_platform_op_t]; the union [u] is kept as its two readings. *)
Record xen_platform_op := mk_platform_op {
  cmd : Z;
  interface_version : Z;
  u_pcpu_info : xenpf_pcpuinfo;
  u_settime64 : xenpf_settime64
}.

Record xen_flask_op := mk_flask_op { fl_cmd : Z; fl_interface_version : Z }.

Record vcpu_set_singleshot_timer := mk_sshot {
  timeout_abs_ns : Z;
  ss_flags : Z
}.

(** Guest memory as the typed views [map_arg] and [map_gva_4k] give of it;
    [None] (or [false]) at an address that cannot be mapped, where the
    mapping call throws. *)
Record guest_memory := mk_gmem {
  gm_hvm_param : Z -> option xen_hvm_param;
  gm_platform_op : Z -> option xen_platform_op;
  gm_flask_op : Z -> option xen_flask_op;
  gm_sshot : Z -> option vcpu_set_singleshot_timer;
  gm_time_area : Z -> option Z;
  gm_runstate_area : Z -> option Z;
  gm_vti : Z -> option vcpu_time_info;
  gm_runstate : Z -> option vcpu_runstate_info;
  gm_sysctl : Z -> bool;
  gm_domctl : Z -> bool;
  gm_chars : Z -> Z -> bool
}.

(** ** The vcpu and the [xen] object *)

(** The registers and the VMX preemption timer of the [xen_vcpu] behind
    [m_vcpu]; [advance()] moves [rip] past the exiting instruction. *)
Record xen_vcpu := mk_vcpu {
  rax : Z;
  rbx : Z;
  rcx : Z;
  rdx : Z;
  rsi : Z;
  rdi : Z;
  rip : Z;
  exit_instruction_length : Z;
  preemption_timer : Z;
  preemption_timer_enabled : bool
}.

(** What guest-visible memory holds when a [wmb()] is executed. *)
Record guest_view := mk_view {
  view_shinfo : option shared_info;
  view_user_vti : option vcpu_time_info;
  view_runstate : option vcpu_runstate_info
}.

(** [class xen]. The three [unique_map] members are [None] while null and
    hold the mapped structure once mapped. [initdom] is what
    [m_dom->initdom()] returns, [gmem] the guest memory reached through
    [m_vcpu], and [barriers] a ghost log with one entry per [wmb()]. *)
Record xen := mk_xen {
  m_vcpu : xen_vcpu;
  initdom : bool;
  domid : Z;
  vcpuid : Z;
  apicid : Z;
  acpiid : Z;
  m_shinfo : option shared_info;
  m_user_vti : option vcpu_time_info;
  m_runstate : option vcpu_runstate_info;
  m_runstate_assist : bool;
  m_pet_enabled : bool;
  m_pet_hdlrs_added : bool;
  m_pet_shift : Z;
  m_tsc_at_exit : Z;
  gmem : guest_memory;
  barriers : list guest_view
}.

Definition with_vcpu (f : xen_vcpu -> xen_vcpu) (x : xen) : xen :=
  mk_xen (f (m_vcpu x)) (initdom x) (domid x) (vcpuid x) (apicid x)
    (acpiid x) (m_shinfo x) (m_user_vti x) (m_runstate x)
    (m_runstate_assist x) (m_pet_enabled x) (m_pet_hdlrs_added x)
    (m_pet_shift x) (m_tsc_at_exit x) (gmem x) (barriers x).

Definition with_ids (d v a c : Z) (x : xen) : xen :=
  mk_xen (m_vcpu x) (initdom x) d v a c (m_shinfo x) (m_user_vti x)
    (m_runstate x) (m_runstate_assist x) (m_pet_enabled x)
    (m_pet_hdlrs_added x) (m_pet_shift x) (m_tsc_at_exit x) (gmem x)
    (barriers x).

Definition with_shinfo (s : option shared_info) (x : xen) : xen :=
  mk_xen (m_vcpu x) (initdom x) (domid x) (vcpuid x) (apicid x) (acpiid x)
    s (m_user_vti x) (m_runstate x) (m_runstate_assist x) (m_pet_enabled x)
    (m_pet_hdlrs_added x) (m_pet_shift x) (m_tsc_at_exit x) (gmem x)
    (barriers x).

Definition with_user_vti (u : option vcpu_time_info) (x : xen) : xen :=
  mk_xen (m_vcpu x) (initdom x) (domid x) (vcpuid x) (apicid x) (acpiid x)
    (m_shinfo x) u (m_runstate x) (m_runstate_assist x) (m_pet_enabled x)
    (m_pet_hdlrs_added x) (m_pet_shift x) (m_tsc_at_exit x) (gmem x)
    (barriers x).

Definition with_runstate (r : option vcpu_runstate_info) (x : xen) : xen :=
  mk_xen (m_vcpu x) (initdom x) (domid x) (vcpuid x) (apicid x) (acpiid x)
    (m_shinfo x) (m_user_vti x) r (m_runstate_assist x) (m_pet_enabled x)
    (m_pet_hdlrs_added x) (m_pet_shift x) (m_tsc_at_exit x) (gmem x)
    (barriers x).

Definition with_runstate_assist (b : bool) (x : xen) : xen :=
  mk_xen (m_vcpu x) (initdom x) (domid x) (vcpuid x) (apicid x) (acpiid x)
    (m_shinfo x) (m_user_vti x) (m_runstate x) b (m_pet_enabled x)
    (m_pet_hdlrs_added x) (m_pet_shift x) (m_tsc_at_exit x) (gmem x)
    (barriers x).

Definition with_pet_enabled (b : bool) (x : xen) : xen :=
  mk_xen (m_vcpu x) (initdom x) (domid x) (vcpuid x) (apicid x) (acpiid x)
    (m_shinfo x) (m_user_vti x) (m_runstate x) (m_runstate_assist x) b
    (m_pet_hdlrs_added x) (m_pet_shift x) (m_tsc_at_exit x) (gmem x)
    (barriers x).

Definition with_pet_hdlrs_added (b : bool) (x : xen) : xen :=
  mk_xen (m_vcpu x) (initdom x) (domid x) (vcpuid x) (apicid x) (acpiid x)
    (m_shinfo x) (m_user_vti x) (m_runstate x) (m_runstate_assist x)
    (m_pet_enabled x) b (m_pet_shift x) (m_tsc_at_exit x) (gmem x)
    (barriers x).

Definition with_gmem (g : guest_memory) (x : xen) : xen :=
  mk_xen (m_vcpu x) (initdom x) (domid x) (vcpuid x) (apicid x) (acpiid x)
    (m_shinfo x) (m_user_vti x) (m_runstate x) (m_runstate_assist x)
    (m_pet_enabled x) (m_pet_hdlrs_added x) (m_pet_shift x)
    (m_tsc_at_exit x) g (barriers x).

Definition with_barriers (l : list guest_view) (x : xen) : xen :=
  mk_xen (m_vcpu x) (initdom x) (domid x) (vcpuid x) (apicid x) (acpiid x)
    (m_shinfo x) (m_user_vti x) (m_runstate x) (m_runstate_assist x)
    (m_pet_enabled x) (m_pet_hdlrs_added x) (m_pet_shift x)
    (m_tsc_at_exit x) (gmem x) l.

Definition vcpu_set_rax (v : Z) (c : xen_vcpu) : xen_vcpu :=
  mk_vcpu v (rbx c) (rcx c) (rdx c) (rsi c) (rdi c) (rip c)
    (exit_instruction_length c) (preemption_timer c)
    (preemption_timer_enabled c).

Definition vcpu_set_rbx (v : Z) (c : xen_vcpu) : xen_vcpu :=
  mk_vcpu (rax c) v (rcx c) (rdx c) (rsi c) (rdi c) (rip c)
    (exit_instruction_length c) (preemption_timer c)
    (preemption_timer_enabled c).

Definition vcpu_set_rcx (v : Z) (c : xen_vcpu) : xen_vcpu :=
  mk_vcpu (rax c) (rbx c) v (rdx c) (rsi c) (rdi c) (rip c)
    (exit_instruction_length c) (preemption_timer c)
    (preemption_timer_enabled c).

Definition vcpu_set_rdx (v : Z) (c : xen_vcpu) : xen_vcpu :=
  mk_vcpu (rax c) (rbx c) (rcx c) v (rsi c) (rdi c) (rip c)
    (exit_instruction_length c) (preemption_timer c)
    (preemption_timer_enabled c).

Definition vcpu_advance (c : xen_vcpu) : xen_vcpu :=
  mk_vcpu (rax c) (rbx c) (rcx c) (rdx c) (rsi c) (rdi c)
    (u64 (rip c + exit_instruction_length c))
    (exit_instruction_length c) (preemption_timer c)
    (preemption_timer_enabled c).

Definition vcpu_set_preemption_timer (v : Z) (c : xen_vcpu) : xen_vcpu :=
  mk_vcpu (rax c) (rbx c) (rcx c) (rdx c) (rsi c) (rdi c) (rip c)
    (exit_instruction_length c) v (preemption_timer_enabled c).

Definition vcpu_enable_preemption_timer (b : bool) (c : xen_vcpu)
  : xen_vcpu :=
  mk_vcpu (rax c) (rbx c) (rcx c) (rdx c) (rsi c) (rdi c) (rip c)
    (exit_instruction_length c) (preemption_timer c) b.

(** ** Outcomes and the computation monad *)

Inductive outcome (A : Type) : Type :=
  | Ret (a : A) (x : xen)   (* normal return *)
  | Throw (x : xen)         (* a C++ exception leaves the function *)
  | Violation (x : xen)     (* a failed expects() or ensures() *)
  | Undefined.              (* undefined behaviour *)

Arguments Ret {A} a x.
Arguments Throw {A} x.
Arguments Violation {A} x.
Arguments Undefined {A}.

Definition M (A : Type) : Type := xen -> outcome A.

Definition M_bind {A B : Type} (f : A -> M B) (m : M A) : M B :=
  fun x =>
    match m x with
    | Ret a x' => f a x'
    | Throw x' => Throw x'
    | Violation x' => Violation x'
    | Undefined => Undefined
    end.

#[global] Instance M_mret : MRet M := fun A a x => Ret a x.
#[global] Instance M_mbind : MBind M := fun A B f m => M_bind f m.

Definition get : M xen := fun x => Ret x x.
Definition modify (f : xen -> xen) : M unit := fun x => Ret tt (f x).
Definition throw {A : Type} : M A := fun x => Throw x.
Definition undefined {A : Type} : M A := fun _ => Undefined.

(** [expects(c)] and [ensures(c)] of bfgsl.h, taken as checked. *)
Definition expects (c : bool) : M unit :=
  fun x => if c then Ret tt x else Violation x.
Definition ensures (c : bool) : M unit := expects c.

(** A value whose computation is undefined when it is [None]. *)
Definition defined {A : Type} (o : option A) : M A :=
  match o with Some a => mret a | None => undefined end.

(** [m_vcpu->map_arg<T>(addr)]: throws when the address cannot be mapped. *)
Definition map_arg {T : Type} (view : guest_memory -> Z -> option T)
    (addr : Z) : M T :=
  fun x => match view (gmem x) addr with
           | Some t => Ret t x
           | None => Throw x
           end.

(** A mapping whose contents the file only passes on. *)
Definition map_opaque (ok : guest_memory -> bool) : M unit :=
  fun x => if ok (gmem x) then Ret tt x else Throw x.

(** [wmb()]: in this sequential model it records what the guest can see. *)
Definition wmb : M unit :=
  modify (fun x =>
    with_barriers
      (barriers x ++ [mk_view (m_shinfo x) (m_user_vti x) (m_runstate x)]) x).

Definition set_rax (v : Z) : M unit := modify (with_vcpu (vcpu_set_rax v)).

(** ** Collaborators *)

Inductive xenmem_fn :=
  | xenmem_memory_map | xenmem_add_to_physmap | xenmem_decrease_reservation
  | xenmem_get_sharing_freed_pages | xenmem_get_sharing_shared_pages.

Inductive xenver_fn :=
  | xenver_version | xenver_extraversion | xenver_compile_info
  | xenver_capabilities | xenver_changeset | xenver_platform_parameters
  | xenver_get_features | xenver_pagesize | xenver_guest_handle
  | xenver_commandline | xenver_build_id.

Inductive evtchn_fn :=
  | evtchn_init_control | evtchn_set_priority | evtchn_alloc_unbound
  | evtchn_expand_array | evtchn_bind_virq | evtchn_send
  | evtchn_bind_interdomain | evtchn_close | evtchn_bind_vcpu.

Inductive gnttab_fn := gnttab_query_size | gnttab_set_version.

Inductive physdev_fn := physdev_pci_device_add.

(** The objects xen.cpp calls into. [contract_is_exception] says whether a
    failed [expects] is an exception that [catch (...)] catches (GSL built
    to throw on contract violation) or ends the program. *)
Record env := mk_env {
  contract_is_exception : bool;
  m_xenmem : xenmem_fn -> M bool;
  m_xenver : xenver_fn -> M bool;
  m_evtchn : evtchn_fn -> M bool;
  m_gnttab : gnttab_fn -> M bool;
  m_physdev : physdev_fn -> M bool;
  m_sysctl_handle : Z -> M bool;
  m_domctl_handle : Z -> M bool;
  evtchn_set_callback_via : Z -> M unit;
  hvc_rx_get : Z -> Z -> M Z;
  hvc_tx_put : Z -> Z -> M Z
}.

(** [try { body } catchall ({ return false; })] *)
Definition try_catchall (E : env) (body : M bool) : M bool :=
  fun x =>
    match body x with
    | Throw x' => Ret false x'
    | Violation x' =>
        if contract_is_exception E then Ret false x' else Violation x'
    | r => r
    end.

(** ** Identity allocation *)

Definition with_domid (d : Z) (x : xen) : xen :=
  with_ids d (vcpuid x) (apicid x) (acpiid x) x.
Definition with_vcpuid (v : Z) (x : xen) : xen :=
  with_ids (domid x) v (apicid x) (acpiid x) x.
Definition with_apicid (a : Z) (x : xen) : xen :=
  with_ids (domid x) (vcpuid x) a (acpiid x) x.
Definition with_acpiid (c : Z) (x : xen) : xen :=
  with_ids (domid x) (vcpuid x) (apicid x) c x.

(** [static void make_xen_ids(xen_domain *dom, xen *xen)]. The static
    [uint32_t xen_domid] is passed in and its new value returned; the lock
    has no counterpart in a sequential model. *)
Definition make_xen_ids (xen_domid : Z) : M Z :=
  x ← get;
  if initdom x then
    modify (with_domid 0);;
    modify (with_vcpuid 0);;
    modify (with_apicid 0);;
    modify (with_acpiid 0);;
    mret xen_domid
  else
    let xen_domid' := u32 (xen_domid + 1) in
    modify (with_domid xen_domid');;
    modify (with_vcpuid 0);;
    modify (with_apicid 0);;
    modify (with_acpiid 0);;
    x' ← get;
    ensures (vcpuid x' <? XEN_LEGACY_MAX_VCPUS);;
    mret xen_domid'.

(** The object as [xen::xen] finds it before its body runs. *)
Definition xen_new (v : xen_vcpu) (dom_initdom : bool) (g : guest_memory)
  : xen :=
  mk_xen v dom_initdom 0 0 0 0 None None None false false false 0 0 g [].

(** [xen::xen(vcpu, dom)], as far as the ids go: the body starts with
    [make_xen_ids(dom, this)]. *)
Definition xen_ctor (v : xen_vcpu) (dom_initdom : bool) (g : guest_memory)
    (xen_domid : Z) : outcome Z :=
  make_xen_ids xen_domid (xen_new v dom_initdom g).

(** Constructing one [xen] per entry of [doms] ([true] for the initial
    domain), in order, from the counter value [xen_domid]. *)
Fixpoint construct_all (v : xen_vcpu) (g : guest_memory) (doms : list bool)
    (xen_domid : Z) : option (list xen) :=
  match doms with
  | [] => Some []
  | d :: ds =>
      match xen_ctor v d g xen_domid with
      | Ret c x => xs ← construct_all v g ds c; Some (x :: xs)
      | _ => None
      end
  end.

(** ** CPUID leaf base+1 *)

(** [static bool xen_leaf1(base_vcpu *vcpu)] *)
Definition xen_leaf1 (vcpu : xen_vcpu) : bool * xen_vcpu :=
  let vcpu := vcpu_set_rax 0x00040D00 vcpu in
  let vcpu := vcpu_set_rbx 0 vcpu in
  let vcpu := vcpu_set_rcx 0 vcpu in
  let vcpu := vcpu_set_rdx 0 vcpu in
  let vcpu := vcpu_advance vcpu in
  (true, vcpu).

(** ** Accessors to the mapped areas *)

Definition sh_set_vcpu_info (l : list vcpu_time_info) (s : shared_info)
  : shared_info :=
  mk_shinfo l (wc_version s) (wc_sec s) (wc_nsec s) (wc_sec_hi s).
Definition sh_set_wc_version (v : Z) (s : shared_info) : shared_info :=
  mk_shinfo (vcpu_info s) v (wc_sec s) (wc_nsec s) (wc_sec_hi s).
Definition sh_set_wc_sec (v : Z) (s : shared_info) : shared_info :=
  mk_shinfo (vcpu_info s) (wc_version s) v (wc_nsec s) (wc_sec_hi s).
Definition sh_set_wc_nsec (v : Z) (s : shared_info) : shared_info :=
  mk_shinfo (vcpu_info s) (wc_version s) (wc_sec s) v (wc_sec_hi s).
Definition sh_set_wc_sec_hi (v : Z) (s : shared_info) : shared_info :=
  mk_shinfo (vcpu_info s) (wc_version s) (wc_sec s) (wc_nsec s) v.

Definition vti_set_version (v : Z) (t : vcpu_time_info) : vcpu_time_info :=
  mk_vti v (tsc_timestamp t) (system_time t) (tsc_to_system_mul t)
    (tsc_shift t) (flags t).
Definition vti_set_tsc_timestamp (v : Z) (t : vcpu_time_info)
  : vcpu_time_info :=
  mk_vti (version t) v (system_time t) (tsc_to_system_mul t) (tsc_shift t)
    (flags t).
Definition vti_set_system_time (v : Z) (t : vcpu_time_info)
  : vcpu_time_info :=
  mk_vti (version t) (tsc_timestamp t) v (tsc_to_system_mul t) (tsc_shift t)
    (flags t).

(** [version++] on the [uint32_t] version of a time info. *)
Definition vti_version_inc (t : vcpu_time_info) : vcpu_time_info :=
  vti_set_version (u32 (version t + 1)) t.

Definition rs_set_state (v : Z) (r : vcpu_runstate_info)
  : vcpu_runstate_info :=
  mk_runstate v (state_entry_time r) (time r).
Definition rs_set_state_entry_time (v : Z) (r : vcpu_runstate_info)
  : vcpu_runstate_info :=
  mk_runstate (state r) v (time r).
Definition rs_set_time (i v : Z) (r : vcpu_runstate_info)
  : vcpu_runstate_info :=
  mk_runstate (state r) (state_entry_time r) (time_set (time r) i v).

(** A write through [m_shinfo->]: undefined while [m_shinfo] is null. *)
Definition upd_shinfo (f : shared_info -> shared_info) : M unit :=
  fun x =>
    match m_shinfo x with
    | Some sh => Ret tt (with_shinfo (Some (f sh)) x)
    | None => Undefined
    end.

(** [struct vcpu_time_info *xen::vcpu_time()], read through:
    [m_shinfo->vcpu_info[this->vcpuid].time]. *)
Definition vcpu_time : M vcpu_time_info :=
  fun x =>
    match m_shinfo x with
    | Some sh =>
        match vcpu_info sh !! Z.to_nat (vcpuid x) with
        | Some t => Ret t x
        | None => Undefined
        end
    | None => Undefined
    end.

(** A write through the pointer [vcpu_time()] returns. *)
Definition upd_vcpu_time (f : vcpu_time_info -> vcpu_time_info) : M unit :=
  t ← vcpu_time;
  x ← get;
  upd_shinfo (fun sh =>
    sh_set_vcpu_info (<[Z.to_nat (vcpuid x) := f t]> (vcpu_info sh)) sh).

(** Writes through [m_user_vti] and [m_runstate]. *)
Definition upd_user_vti (f : vcpu_time_info -> vcpu_time_info) : M unit :=
  fun x =>
    match m_user_vti x with
    | Some t => Ret tt (with_user_vti (Some (f t)) x)
    | None => Undefined
    end.

Definition upd_runstate (f : vcpu_runstate_info -> vcpu_runstate_info)
  : M unit :=
  fun x =>
    match m_runstate x with
    | Some r => Ret tt (with_runstate (Some (f r)) x)
    | None => Undefined
    end.

(** ** Wallclock *)

(** [void xen::update_wallclock(const struct xenpf_settime64 *time)] *)
Definition update_wallclock (time : xenpf_settime64) : M unit :=
  upd_shinfo (fun sh => sh_set_wc_version (u32 (wc_version sh + 1)) sh);;
  wmb;;
  let x := u64 (u64 (s_to_ns (secs time) + nsecs time) - st_system_time time) in
  '(x, y) ← defined (do_div x 1000000000);
  upd_shinfo (sh_set_wc_sec (u32 x));;
  upd_shinfo (sh_set_wc_sec_hi (u32 (Z.shiftr x 32)));;
  upd_shinfo (sh_set_wc_nsec (u32 y));;
  wmb;;
  upd_shinfo (fun sh => sh_set_wc_version (u32 (wc_version sh + 1)) sh).

(** ** Singleshot timer *)

(** [void xen::stop_timer()] *)
Definition stop_timer : M unit :=
  modify (with_vcpu (vcpu_enable_preemption_timer false));;
  modify (with_pet_enabled false).

(** The tail of [set_timer] after [pet] is known. *)
Definition program_timer (pet : Z) : M Z :=
  modify (with_vcpu (vcpu_set_preemption_timer pet));;
  modify (with_vcpu (vcpu_enable_preemption_timer true));;
  modify (with_pet_enabled true);;
  mret 0.

(** [int xen::set_timer()] *)
Definition set_timer : M Z :=
  x ← get;
  sst ← map_arg gm_sshot (rdx (m_vcpu x));
  vti ← vcpu_time;
  if timeout_abs_ns sst <=? system_time vti then
    if negb (Z.land (ss_flags sst) VCPU_SSHOTTMR_future =? 0) then
      mret (- ETIME)
    else
      program_timer 0
  else
    let ns := u64 (timeout_abs_ns sst - system_time vti) in
    tsc ← defined (ns_to_tsc ns (u64 (tsc_shift vti))
                     (u64 (tsc_to_system_mul vti)));
    pet ← defined (tsc_to_pet tsc (m_pet_shift x));
    program_timer pet.

(** ** Runstate *)

(** The three parts of [update_runstate], under the comments that head
    them in the source. *)

(** [/* Update kernel time info */]; [next] is the value
    [::x64::read_tsc::get()] returns. *)
Definition update_kernel_time (next : Z) : M unit :=
  kvti ← vcpu_time;
  let mult := u64 (tsc_to_system_mul kvti) in
  let shft := u64 (tsc_shift kvti) in
  let prev := tsc_timestamp kvti in
  upd_vcpu_time vti_version_inc;;
  wmb;;
  d ← defined (tsc_to_ns (u64 (next - prev)) shft mult);
  upd_vcpu_time (fun t => vti_set_system_time (u64 (system_time t + d)) t);;
  upd_vcpu_time (vti_set_tsc_timestamp next);;
  wmb;;
  upd_vcpu_time vti_version_inc.

(** [/* Update userspace time info */] *)
Definition update_user_time (next : Z) : M unit :=
  upd_user_vti vti_version_inc;;
  wmb;;
  kvti ← vcpu_time;
  upd_user_vti (vti_set_system_time (system_time kvti));;
  upd_user_vti (vti_set_tsc_timestamp next);;
  wmb;;
  upd_user_vti vti_version_inc.

(** [/* Update runstate info */] *)
Definition update_runstate_area (new_state : Z) : M unit :=
  x ← get;
  rs ← defined (m_runstate x);
  kvti ← vcpu_time;
  let old_state := state rs in
  let old_entry := state_entry_time rs in
  acc ← defined (time_get (time rs) old_state);
  upd_runstate
    (rs_set_time old_state (u64 (acc + u64 (system_time kvti - old_entry))));;
  upd_runstate (rs_set_state new_state);;
  if m_runstate_assist x then
    upd_runstate (rs_set_state_entry_time XEN_RUNSTATE_UPDATE);;
    wmb;;
    upd_runstate (fun r =>
      rs_set_state_entry_time
        (Z.lor (state_entry_time r) (system_time kvti)) r);;
    wmb;;
    upd_runstate (fun r =>
      rs_set_state_entry_time
        (Z.land (state_entry_time r) (u64 (Z.lnot XEN_RUNSTATE_UPDATE))) r);;
    wmb
  else
    upd_runstate (rs_set_state_entry_time (system_time kvti)).

(** [void xen::update_runstate(int new_state)], with its three early
    returns. *)
Definition update_runstate (new_state next : Z) : M unit :=
  x ← get;
  if negb (bool_decide (is_Some (m_shinfo x))) then mret tt else
  update_kernel_time next;;
  x ← get;
  if negb (bool_decide (is_Some (m_user_vti x))) then mret tt else
  update_user_time next;;
  x ← get;
  if negb (bool_decide (is_Some (m_runstate x))) then mret tt else
  update_runstate_area new_state.

(** ** Hypercall handlers *)

(** [bool xen::handle_physdev_op()] *)
Definition handle_physdev_op (E : env) : M bool :=
  try_catchall E (
    x ← get;
    let op := rdi (m_vcpu x) in
    if op =? PHYSDEVOP_pci_device_add then m_physdev E physdev_pci_device_add
    else mret false).

(** [bool xen::handle_console_io()] *)
Definition handle_console_io (E : env) : M bool :=
  x ← get;
  expects (initdom x);;
  let len := rsi (m_vcpu x) in
  let buf := rdx (m_vcpu x) in
  map_opaque (fun g => gm_chars g buf len);;
  let op := rdi (m_vcpu x) in
  if op =? CONSOLEIO_read then
    n ← hvc_rx_get E buf len;
    set_rax n;;
    mret true
  else if op =? CONSOLEIO_write then
    n ← hvc_tx_put E buf len;
    set_rax n;;
    mret true
  else mret false.

(** [bool xen::handle_memory_op()] *)
Definition handle_memory_op (E : env) : M bool :=
  try_catchall E (
    x ← get;
    let op := rdi (m_vcpu x) in
    if op =? XENMEM_memory_map then m_xenmem E xenmem_memory_map
    else if op =? XENMEM_add_to_physmap then m_xenmem E xenmem_add_to_physmap
    else if op =? XENMEM_decrease_reservation then
      m_xenmem E xenmem_decrease_reservation
    else if op =? XENMEM_get_sharing_freed_pages then
      m_xenmem E xenmem_get_sharing_freed_pages
    else if op =? XENMEM_get_sharing_shared_pages then
      m_xenmem E xenmem_get_sharing_shared_pages
    else mret false).

(** [bool xen::handle_xen_version()] *)
Definition handle_xen_version (E : env) : M bool :=
  try_catchall E (
    x ← get;
    let op := rdi (m_vcpu x) in
    if op =? XENVER_version then m_xenver E xenver_version
    else if op =? XENVER_extraversion then m_xenver E xenver_extraversion
    else if op =? XENVER_compile_info then m_xenver E xenver_compile_info
    else if op =? XENVER_capabilities then m_xenver E xenver_capabilities
    else if op =? XENVER_changeset then m_xenver E xenver_changeset
    else if op =? XENVER_platform_parameters then
      m_xenver E xenver_platform_parameters
    else if op =? XENVER_get_features then m_xenver E xenver_get_features
    else if op =? XENVER_pagesize then m_xenver E xenver_pagesize
    else if op =? XENVER_guest_handle then m_xenver E xenver_guest_handle
    else if op =? XENVER_commandline then m_xenver E xenver_commandline
    else if op =? XENVER_build_id then m_xenver E xenver_build_id
    else mret false).

(** [static bool valid_cb_via(uint64_t via)] *)
Definition valid_cb_via (via : Z) : bool :=
  let type := Z.shiftr (Z.land via HVM_PARAM_CALLBACK_IRQ_TYPE_MASK) 56 in
  if negb (type =? HVM_PARAM_CALLBACK_TYPE_VECTOR) then false
  else
    let vector := Z.land via 0xFF in
    if (vector <? 0x20) || (0xFF <? vector) then false else true.

(** [bool xen::handle_hvm_op()] *)
Definition handle_hvm_op (E : env) : M bool :=
  x ← get;
  let op := rdi (m_vcpu x) in
  if op =? HVMOP_set_param then
    try_catchall E (
      arg ← map_arg gm_hvm_param (rsi (m_vcpu x));
      if hp_index arg =? HVM_PARAM_CALLBACK_IRQ then
        (if valid_cb_via (hp_value arg) then
           evtchn_set_callback_via E (Z.land (hp_value arg) 0xFF);;
           set_rax 0
         else
           set_rax (u64 (- EINVAL)));;
        mret true
      else mret false)
  else if op =? HVMOP_get_param then
    expects (negb (initdom x));;
    set_rax (u64 (- ENOSYS));;
    mret true
  else if op =? HVMOP_pagetable_dying then
    set_rax (u64 (- ENOSYS));;
    mret true
  else mret false.

(** [bool xen::handle_event_channel_op()] *)
Definition handle_event_channel_op (E : env) : M bool :=
  try_catchall E (
    x ← get;
    let op := rdi (m_vcpu x) in
    if op =? EVTCHNOP_init_control then m_evtchn E evtchn_init_control
    else if op =? EVTCHNOP_set_priority then m_evtchn E evtchn_set_priority
    else if op =? EVTCHNOP_alloc_unbound then m_evtchn E evtchn_alloc_unbound
    else if op =? EVTCHNOP_expand_array then m_evtchn E evtchn_expand_array
    else if op =? EVTCHNOP_bind_virq then m_evtchn E evtchn_bind_virq
    else if op =? EVTCHNOP_send then m_evtchn E evtchn_send
    else if op =? EVTCHNOP_bind_interdomain then
      m_evtchn E evtchn_bind_interdomain
    else if op =? EVTCHNOP_close then m_evtchn E evtchn_close
    else if op =? EVTCHNOP_bind_vcpu then m_evtchn E evtchn_bind_vcpu
    else mret false).

(** [bool xen::handle_sysctl()] *)
Definition handle_sysctl (E : env) : M bool :=
  x ← get;
  let ctl := rdi (m_vcpu x) in
  map_opaque (fun g => gm_sysctl g ctl);;
  m_sysctl_handle E ctl.

(** [bool xen::handle_domctl()] *)
Definition handle_domctl (E : env) : M bool :=
  x ← get;
  let ctl := rdi (m_vcpu x) in
  map_opaque (fun g => gm_domctl g ctl);;
  m_domctl_handle E ctl.

(** [bool xen::handle_grant_table_op()] *)
Definition handle_grant_table_op (E : env) : M bool :=
  try_catchall E (
    x ← get;
    let op := rdi (m_vcpu x) in
    if op =? GNTTABOP_query_size then m_gnttab E gnttab_query_size
    else if op =? GNTTABOP_set_version then m_gnttab E gnttab_set_version
    else mret false).

(** The store of [info->max_present], [info->flags], [info->apic_id] and
    [info->acpi_id] into the platform op mapped at [addr]. *)
Definition store_pcpuinfo (addr : Z) (info : xenpf_pcpuinfo) (x : xen)
  : xen :=
  let g := gmem x in
  with_gmem
    (mk_gmem (gm_hvm_param g)
       (fun a =>
          if a =? addr then
            match gm_platform_op g a with
            | Some p =>
                Some (mk_platform_op (cmd p) (interface_version p) info
                        (u_settime64 p))
            | None => None
            end
          else gm_platform_op g a)
       (gm_flask_op g) (gm_sshot g) (gm_time_area g) (gm_runstate_area g)
       (gm_vti g) (gm_runstate g) (gm_sysctl g) (gm_domctl g) (gm_chars g))
    x.

(** [bool xen::handle_platform_op()] *)
Definition handle_platform_op : M bool :=
  x ← get;
  let addr := rdi (m_vcpu x) in
  xpf ← map_arg gm_platform_op addr;
  if negb (interface_version xpf =? XENPF_INTERFACE_VERSION) then
    set_rax (u64 (- EACCES));;
    mret true
  else if cmd xpf =? XENPF_get_cpuinfo then
    expects (initdom x);;
    modify (store_pcpuinfo addr
              (mk_pcpuinfo 1 XEN_PCPU_FLAGS_ONLINE (apicid x) (acpiid x)));;
    set_rax 0;;
    mret true
  else if cmd xpf =? XENPF_settime64 then
    let time := u_settime64 xpf in
    (if negb (mbz time =? 0) then
       set_rax (u64 (- EINVAL))
     else
       update_wallclock time;;
       set_rax 0);;
    mret true
  else mret false.

(** [bool xen::handle_xsm_op()] *)
Definition handle_xsm_op : M bool :=
  x ← get;
  expects (initdom x);;
  flop ← map_arg gm_flask_op (rdi (m_vcpu x));
  if negb (fl_interface_version flop =? XEN_FLASK_INTERFACE_VERSION) then
    set_rax (u64 (- EACCES));;
    mret true
  else
    set_rax (u64 (- EACCES));;
    mret true.

(** [bool xen::handle_vcpu_op()]. The handlers the singleshot case installs
    on the vcpu are outside this file; their installation is the flag
    [m_pet_hdlrs_added]. *)
Definition handle_vcpu_op : M bool :=
  x ← get;
  expects (rsi (m_vcpu x) =? vcpuid x);;
  let op := rdi (m_vcpu x) in
  if op =? VCPUOP_stop_periodic_timer then
    set_rax 0;;
    mret true
  else if op =? VCPUOP_stop_singleshot_timer then
    stop_timer;;
    set_rax 0;;
    mret true
  else if op =? VCPUOP_set_singleshot_timer then
    r ← set_timer;
    set_rax (u64 r);;
    x' ← get;
    (if negb (m_pet_hdlrs_added x') then modify (with_pet_hdlrs_added true)
     else mret tt);;
    mret true
  else if op =? VCPUOP_register_vcpu_time_memory_area then
    expects (bool_decide (is_Some (m_shinfo x)));;
    tma ← map_arg gm_time_area (rdx (m_vcpu x));
    uvti ← map_arg gm_vti tma;
    modify (with_user_vti (Some uvti));;
    kvti ← vcpu_time;
    upd_user_vti (fun _ => kvti);;
    set_rax 0;;
    mret true
  else if op =? VCPUOP_register_runstate_memory_area then
    rma ← map_arg gm_runstate_area (rdx (m_vcpu x));
    rs ← map_arg gm_runstate rma;
    modify (with_runstate (Some rs));;
    upd_runstate (rs_set_state RUNSTATE_running);;
    kvti ← vcpu_time;
    upd_runstate (rs_set_state_entry_time (system_time kvti));;
    upd_runstate (fun r => rs_set_time RUNSTATE_running (state_entry_time r) r);;
    set_rax 0;;
    mret true
  else mret false.

(** [bool xen::handle_vm_assist()] *)
Definition handle_vm_assist : M bool :=
  x ← get;
  if negb (rdi (m_vcpu x) =? VMASST_CMD_enable) then mret false
  else if rsi (m_vcpu x) =? VMASST_TYPE_runstate_update_flag then
    modify (with_runstate_assist true);;
    set_rax 0;;
    mret true
  else mret false.

(** [bool xen::hypercall(xen_vcpu *vcpu)]; the [printf] that precedes the
    [switch] changes nothing and is left out. *)
Definition hypercall (E : env) : M bool :=
  x ← get;
  let nr := rax (m_vcpu x) in
  if nr =? __HYPERVISOR_memory_op then handle_memory_op E
  else if nr =? __HYPERVISOR_xen_version then handle_xen_version E
  else if nr =? __HYPERVISOR_hvm_op then handle_hvm_op E
  else if nr =? __HYPERVISOR_event_channel_op then handle_event_channel_op E
  else if nr =? __HYPERVISOR_grant_table_op then handle_grant_table_op E
  else if nr =? __HYPERVISOR_platform_op then handle_platform_op
  else if nr =? __HYPERVISOR_console_io then handle_console_io E
  else if nr =? __HYPERVISOR_sysctl then handle_sysctl E
  else if nr =? __HYPERVISOR_domctl then handle_domctl E
  else if nr =? __HYPERVISOR_xsm_op then handle_xsm_op
  else if nr =? __HYPERVISOR_physdev_op then handle_physdev_op E
  else if nr =? __HYPERVISOR_vcpu_op then handle_vcpu_op
  else if nr =? __HYPERVISOR_vm_assist then handle_vm_assist
  else mret false.

(** ** Derived notions used in the statements *)

(** There and back: ticks to nanoseconds to ticks. *)
Definition roundtrip (ticks shft mult : Z) : option Z :=
  ns ← tsc_to_ns ticks shft mult;
  ns_to_tsc ns shft mult.

(** What the truncations of [>> 32], [/ mult] and [>> shft] can lose. *)
Definition truncation_bound (shft mult : Z) : Z :=
  2 ^ 32 / (mult * 2 ^ shft) + 1.

(** The round trip stays within the truncation bound on every input. *)
Definition roundtrip_within_truncation : Prop :=
  forall ticks shft mult,
    0 <= ticks < 2 ^ 64 -> 0 <= shft < 32 -> 0 < mult < 2 ^ 64 ->
    exists r, roundtrip ticks shft mult = Some r /\
              Z.abs (ticks - r) <= truncation_bound shft mult.

(** The domain ids handed to the objects of non-initial domains. *)
Definition guest_domids (xs : list xen) : list Z :=
  domid <$> filter (fun x => initdom x = false) xs.

(** The ids [n] successive non-initial constructions are said to get. *)
Definition first_domids (n : nat) : list Z := Z.of_nat <$> seq 1 n.

(** A sequence of [update_runstate] calls, each with the state it enters
    and the TSC value it reads. *)
Fixpoint run_updates (calls : list (Z * Z)) : M unit :=
  match calls with
  | [] => mret tt
  | (new_state, next) :: rest =>
      update_runstate new_state next;; run_updates rest
  end.

(** The time the runstate area accounts for when the clock shows [now]:
    the four accumulators and the time spent in the current state. *)
Definition accounted (rs : vcpu_runstate_info) (now : Z) : Z :=
  time_sum (time rs) + (now - state_entry_time rs).

(** The reading of the clock, when there is one. *)
Definition clock (x : xen) : option Z :=
  sh ← m_shinfo x;
  t ← vcpu_info sh !! Z.to_nat (vcpuid x);
  Some (system_time t).

(** The object once [set_timer] has programmed [pet] ticks. *)
Definition armed (pet : Z) (x : xen) : xen :=
  with_pet_enabled true
    (with_vcpu (vcpu_enable_preemption_timer true)
       (with_vcpu (vcpu_set_preemption_timer pet) x)).

(** The wallclock to publish: [secs * 1e9 + nsecs - system_time] as an
    unsigned 64-bit value. *)
Definition wallclock_delta (time : xenpf_settime64) : Z :=
  u64 (secs time * 1000000000 + nsecs time - st_system_time time).

(** Two objects agree on the member [p]. *)
Definition same_on {T : Type} (p : xen -> T) (x x' : xen) : Prop :=
  p x' = p x.

(** Every normal return of [m] leaves the object related by [R] to the one
    it started from. *)
Definition preserves {A : Type} (R : xen -> xen -> Prop) (m : M A) : Prop :=
  forall x a x', m x = Ret a x' -> R x x'.

(** The accumulators of [rs] add up to its entry time plus [c], up to the
    bit that the update marker occupies. *)
Definition runstate_balanced (c : Z) (rs : vcpu_runstate_info) : Prop :=
  (time_sum (time rs) - state_entry_time rs - c) mod 2 ^ 63 = 0.

(** What the runnable, blocked and offline accumulators of [rs] hold. *)
Definition idle_times (rs : vcpu_runstate_info) : Z :=
  t_runnable (time rs) + t_blocked (time rs) + t_offline (time rs).

(** The value of [xen_domid] after one more object of a non-initial domain
    is constructed, and after [n] of them from a zero counter. *)
Definition guest_counter_step (v : xen_vcpu) (g : guest_memory) (c : Z) : Z :=
  match xen_ctor v false g c with
  | Ret c' _ => c'
  | _ => c
  end.

Definition counter_after (v : xen_vcpu) (g : guest_memory) (n : N) : Z :=
  N.iter n (guest_counter_step v g) 0.

(** The clock of [x] can be read and advanced: the time info of its vcpu
    is mapped and its shift count is one [<<] accepts. *)
Definition clock_ok (x : xen) : Prop :=
  exists kvti, vcpu_time x = Ret kvti x /\ u64 (tsc_shift kvti) < 64.

(** The state recorded in the runstate area of [x], if any, is one of the
    four runstates. *)
Definition runstate_ok (x : xen) : Prop :=
  forall rs, m_runstate x = Some rs -> 0 <= state rs <= 3.

(** ** Sample collaborators, memories and objects *)

Definition vcpu0 : xen_vcpu := mk_vcpu 0 0 0 0 0 0 0 0 0 false.

Definition gmem0 : guest_memory :=
  mk_gmem (fun _ => None) (fun _ => None) (fun _ => None) (fun _ => None)
    (fun _ => None) (fun _ => None) (fun _ => None) (fun _ => None)
    (fun _ => false) (fun _ => false) (fun _ _ => false).

(** Collaborators that always succeed. *)
Definition env_ok : env :=
  mk_env false (fun _ => mret true) (fun _ => mret true)
    (fun _ => mret true) (fun _ => mret true) (fun _ => mret true)
    (fun _ => mret true) (fun _ => mret true) (fun _ => mret tt)
    (fun _ _ => mret 0) (fun _ _ => mret 0).

(** Collaborators that always throw. *)
Definition env_throwing : env :=
  mk_env false (fun _ => throw) (fun _ => throw) (fun _ => throw)
    (fun _ => throw) (fun _ => throw) (fun _ => throw) (fun _ => throw)
    (fun _ => throw) (fun _ _ => throw) (fun _ _ => throw).

(** A hypercall with number [nr] and arguments [a1], [a2], [a3] in [rdi],
    [rsi], [rdx]. *)
Definition vcpu_call (nr a1 a2 a3 : Z) : xen_vcpu :=
  mk_vcpu nr 0 0 a3 a2 a1 0 3 0 false.

(** A sysctl whose argument pointer maps nowhere, from a guest domain. *)
Definition x_sysctl_unmapped : xen :=
  xen_new (vcpu_call __HYPERVISOR_sysctl 0xdead0000 0 0) false gmem0.

(** [XENMEM_add_to_physmap] from a guest domain. *)
Definition x_add_to_physmap : xen :=
  xen_new (vcpu_call __HYPERVISOR_memory_op XENMEM_add_to_physmap 0 0)
    false gmem0.

(** [HVMOP_get_param] from a guest domain and from the initial domain. *)
Definition x_get_param (dom_initdom : bool) : xen :=
  xen_new (vcpu_call __HYPERVISOR_hvm_op HVMOP_get_param 0 0)
    dom_initdom gmem0.

(** A [XENPF_get_cpuinfo] at 0x5000 with the right interface version. *)
Definition gmem_cpuinfo : guest_memory :=
  mk_gmem (fun _ => None)
    (fun a =>
       if a =? 0x5000 then
         Some (mk_platform_op XENPF_get_cpuinfo XENPF_INTERFACE_VERSION
                 (mk_pcpuinfo 0 0 0 0) (mk_settime64 0 0 0 0))
       else None)
    (fun _ => None) (fun _ => None) (fun _ => None) (fun _ => None)
    (fun _ => None) (fun _ => None) (fun _ => false) (fun _ => false)
    (fun _ _ => false).

Definition x_get_cpuinfo : xen :=
  xen_new (vcpu_call __HYPERVISOR_platform_op 0x5000 0 0) false gmem_cpuinfo.

(** A clock at 1000 ns with one nanosecond per TSC tick
    ([tsc_shift = 1], [tsc_to_system_mul = 2^31]), last stamped at TSC 0. *)
Definition vti_1000 : vcpu_time_info := mk_vti 0 0 1000 (2 ^ 31) 1 0.

Definition shinfo_1000 : shared_info := mk_shinfo [vti_1000] 6 0 0 0.

(** Singleshot timer requests at 0x1000 (deadline 500, future-only),
    0x2000 (deadline 500) and 0x3000 (deadline 5000). *)
Definition gmem_timer : guest_memory :=
  mk_gmem (fun _ => None) (fun _ => None) (fun _ => None)
    (fun a =>
       if a =? 0x1000 then Some (mk_sshot 500 VCPU_SSHOTTMR_future)
       else if a =? 0x2000 then Some (mk_sshot 500 0)
       else if a =? 0x3000 then Some (mk_sshot 5000 0)
       else None)
    (fun _ => None) (fun _ => None) (fun _ => None) (fun _ => None)
    (fun _ => false) (fun _ => false) (fun _ _ => false).

Definition x_timer (request : Z) : xen :=
  mk_xen (vcpu_call __HYPERVISOR_vcpu_op VCPUOP_set_singleshot_timer 0 request)
    false 1 0 0 0 (Some shinfo_1000) None None false false false 5 0
    gmem_timer [].

(** A zeroed runstate area at 0x7000, named by the request at 0x6000. *)
Definition gmem_runstate : guest_memory :=
  mk_gmem (fun _ => None) (fun _ => None) (fun _ => None) (fun _ => None)
    (fun _ => None)
    (fun a => if a =? 0x6000 then Some 0x7000 else None)
    (fun _ => None)
    (fun a =>
       if a =? 0x7000 then Some (mk_runstate 0 0 (mk_times 0 0 0 0))
       else None)
    (fun _ => false) (fun _ => false) (fun _ _ => false).

(** A guest about to register its runstate area, with or without a user
    time-info mirror registered before. *)
Definition x_register_runstate (mirror : option vcpu_time_info) : xen :=
  mk_xen
    (vcpu_call __HYPERVISOR_vcpu_op VCPUOP_register_runstate_memory_area 0
       0x6000)
    false 1 0 0 0 (Some shinfo_1000) mirror None false false false 5 0
    gmem_runstate [].

(** The same guest once the area is registered, and after it blocked at
    TSC 50 and ran again at TSC 80. *)
Definition x_registered : xen :=
  match handle_vcpu_op (x_register_runstate (Some vti_1000)) with
  | Ret _ x => x
  | _ => x_register_runstate (Some vti_1000)
  end.

Definition calls_sample : list (Z * Z) :=
  [(RUNSTATE_blocked, 50); (RUNSTATE_running, 80)].

Definition x_updated : xen :=
  match run_updates calls_sample x_registered with
  | Ret _ x => x
  | _ => x_registered
  end.

(** A wallclock update: 1700000000 s and 5 ns, at system time 2000000007. *)
Definition settime_sample : xenpf_settime64 :=
  mk_settime64 1700000000 5 0 2000000007.

Definition x_wallclock : xen :=
  mk_xen vcpu0 true 0 0 0 0 (Some shinfo_1000) None None false false false
    5 0 gmem0 [].

(** ** The hypercall page, the remaining CPUID leaves and the stolen ticks *)

(** [static constexpr auto self_ipi_msr = 0x83F] and
    [static constexpr auto hcall_page_msr = 0xC0000500] *)
Definition self_ipi_msr : Z := 0x83F.
Definition hcall_page_msr : Z := 0xC0000500.

(** Modelled from the spec: the feature bits of leaf base+4 and the
    signature words of leaf base+0, from public/arch-x86/cpuid.h. *)
Definition XEN_HVM_CPUID_APIC_ACCESS_VIRT : Z := 1.
Definition XEN_HVM_CPUID_X2APIC_VIRT      : Z := 2.
Definition XEN_HVM_CPUID_IOMMU_MAPPINGS   : Z := 4.
Definition XEN_HVM_CPUID_VCPU_ID_PRESENT  : Z := 8.
Definition XEN_HVM_CPUID_DOMID_PRESENT    : Z := 16.
Definition XEN_CPUID_SIGNATURE_EBX : Z := 0x566e6558.
Definition XEN_CPUID_SIGNATURE_ECX : Z := 0x65584d4d.
Definition XEN_CPUID_SIGNATURE_EDX : Z := 0x4d4d566e.

(** [static bool xen_leaf0(base_vcpu *vcpu)] *)
Definition xen_leaf0 (vcpu : xen_vcpu) : bool * xen_vcpu :=
  let vcpu := vcpu_set_rax (xen_leaf 5) vcpu in
  let vcpu := vcpu_set_rbx XEN_CPUID_SIGNATURE_EBX vcpu in
  let vcpu := vcpu_set_rcx XEN_CPUID_SIGNATURE_ECX vcpu in
  let vcpu := vcpu_set_rdx XEN_CPUID_SIGNATURE_EDX vcpu in
  let vcpu := vcpu_advance vcpu in
  (true, vcpu).

(** [static bool xen_leaf2(base_vcpu *vcpu)] *)
Definition xen_leaf2 (vcpu : xen_vcpu) : bool * xen_vcpu :=
  let vcpu := vcpu_set_rax 1 vcpu in
  let vcpu := vcpu_set_rbx hcall_page_msr vcpu in
  let vcpu := vcpu_set_rcx 0 vcpu in
  let vcpu := vcpu_set_rdx 0 vcpu in
  let vcpu := vcpu_advance vcpu in
  (true, vcpu).

(** [bool xen::xen_leaf4(base_vcpu *vcpu)]; the vcpu passed is the one the
    object drives. *)
Definition xen_leaf4 : M bool :=
  x ← get;
  let rax := 0 in
  let rax := Z.lor rax XEN_HVM_CPUID_X2APIC_VIRT in
  let rax := Z.lor rax XEN_HVM_CPUID_VCPU_ID_PRESENT in
  let rax := Z.lor rax XEN_HVM_CPUID_DOMID_PRESENT in
  modify (with_vcpu (vcpu_set_rax rax));;
  modify (with_vcpu (vcpu_set_rbx (vcpuid x)));;
  modify (with_vcpu (vcpu_set_rcx (domid x)));;
  modify (with_vcpu vcpu_advance);;
  mret true.

(** The body of the loop of [wrmsr_hcall_page]: the nine stores through
    [entry = buf.subspan(i * 32, 32)]; [None] when the subspan does not fit
    in the buffer. *)
Definition write_hcall_entry (buf : list Z) (i : nat) : option (list Z) :=
  if bool_decide (i * 32 + 32 ≤ length buf)%nat then
    let buf := <[(i * 32 + 0)%nat := 0xB8]> buf in
    let buf := <[(i * 32 + 1)%nat := Z.of_nat i]> buf in
    let buf := <[(i * 32 + 2)%nat := 0]> buf in
    let buf := <[(i * 32 + 3)%nat := 0]> buf in
    let buf := <[(i * 32 + 4)%nat := 0]> buf in
    let buf := <[(i * 32 + 5)%nat := 0x0F]> buf in
    let buf := <[(i * 32 + 6)%nat := 0x01]> buf in
    let buf := <[(i * 32 + 7)%nat := 0xC1]> buf in
    let buf := <[(i * 32 + 8)%nat := 0xC3]> buf in
    Some buf
  else None.

(** The loop over the values [idx] of [i], in order. *)
Fixpoint write_hcall_entries (idx : list nat) (buf : list Z)
  : option (list Z) :=
  match idx with
  | [] => Some buf
  | i :: idx => buf ← write_hcall_entry buf i; write_hcall_entries idx buf
  end.

(** [static bool wrmsr_hcall_page(base_vcpu *vcpu, info)], on the 0x1000
    bytes [buf] that [map_gpa_4k(info.val)] maps:
    [for (uint8_t i = 0; i < 55; i++)]. *)
Definition wrmsr_hcall_page (buf : list Z) : option (bool * list Z) :=
  buf ← write_hcall_entries (seq 0 55) buf; Some (true, buf).

(** The bytes of the stub for hypercall [i]:
    [mov eax, i; vmcall; ret]. *)
Definition hcall_stub (i : nat) : list Z :=
  [0xB8; Z.of_nat i; 0; 0; 0; 0x0F; 0x01; 0xC1; 0xC3].

Definition with_tsc_at_exit (t : Z) (x : xen) : xen :=
  mk_xen (m_vcpu x) (initdom x) (domid x) (vcpuid x) (apicid x) (acpiid x)
    (m_shinfo x) (m_user_vti x) (m_runstate x) (m_runstate_assist x)
    (m_pet_enabled x) (m_pet_hdlrs_added x) (m_pet_shift x) t (gmem x)
    (barriers x).

(** [void xen::steal_pet_ticks()] *)
Definition steal_pet_ticks : M unit :=
  x ← get;
  if m_tsc_at_exit x =? 0 then mret tt else
  let pet := preemption_timer (m_vcpu x) in
  kvti ← vcpu_time;
  let tsc := tsc_timestamp kvti in
  let stolen_tsc := u64 (tsc - m_tsc_at_exit x) in
  stolen_pet ← defined (shr64 stolen_tsc (m_pet_shift x));
  let pet := if pet <=? stolen_pet then 0 else pet - stolen_pet in
  modify (with_vcpu (vcpu_set_preemption_timer pet)).

(** [void xen::resume_update(bfobject *obj)]; [next] is the TSC value that
    [update_runstate] reads. *)
Definition resume_update (next : Z) : M unit :=
  update_runstate RUNSTATE_running next;;
  x ← get;
  if m_pet_enabled x then steal_pet_ticks else mret tt.

(** [bool xen::vmexit_save_tsc(base_vcpu *vcpu)]; [tsc] is the value
    [::x64::read_tsc::get()] returns. *)
Definition vmexit_save_tsc (tsc : Z) : M bool :=
  x ← get;
  (if m_pet_enabled x then modify (with_tsc_at_exit tsc) else mret tt);;
  mret true.

(** What the preemption timer is left with when [stolen] of its [pet]
    ticks are taken. *)
Definition pet_after_steal (pet stolen : Z) : Z :=
  if pet <=? stolen then 0 else pet - stolen.


(** The mirror holds exactly what the kernel copy of the time info holds. *)
Definition mirror_synced (x : xen) : Prop :=
  exists kvti, vcpu_time x = Ret kvti x /\ m_user_vti x = Some kvti.

(** The hypercall numbers [xen::hypercall] has a case for. *)
Definition hypercall_numbers : list Z :=
  [__HYPERVISOR_memory_op; __HYPERVISOR_xen_version; __HYPERVISOR_hvm_op;
   __HYPERVISOR_event_channel_op; __HYPERVISOR_grant_table_op;
   __HYPERVISOR_platform_op; __HYPERVISOR_console_io; __HYPERVISOR_sysctl;
   __HYPERVISOR_domctl; __HYPERVISOR_xsm_op; __HYPERVISOR_physdev_op;
   __HYPERVISOR_vcpu_op; __HYPERVISOR_vm_assist].

(** The sub-operations each handler has a case for. *)
Definition memory_ops : list Z :=
  [XENMEM_memory_map; XENMEM_add_to_physmap; XENMEM_decrease_reservation;
   XENMEM_get_sharing_freed_pages; XENMEM_get_sharing_shared_pages].

Definition xen_version_ops : list Z :=
  [XENVER_version; XENVER_extraversion; XENVER_compile_info;
   XENVER_capabilities; XENVER_changeset; XENVER_platform_parameters;
   XENVER_get_features; XENVER_pagesize; XENVER_guest_handle;
   XENVER_commandline; XENVER_build_id].

Definition event_channel_ops : list Z :=
  [EVTCHNOP_init_control; EVTCHNOP_set_priority; EVTCHNOP_alloc_unbound;
   EVTCHNOP_expand_array; EVTCHNOP_bind_virq; EVTCHNOP_send;
   EVTCHNOP_bind_interdomain; EVTCHNOP_close; EVTCHNOP_bind_vcpu].

Definition grant_table_ops : list Z :=
  [GNTTABOP_query_size; GNTTABOP_set_version].

Definition hvm_ops : list Z :=
  [HVMOP_set_param; HVMOP_get_param; HVMOP_pagetable_dying].

Definition vcpu_ops : list Z :=
  [VCPUOP_stop_periodic_timer; VCPUOP_stop_singleshot_timer;
   VCPUOP_set_singleshot_timer; VCPUOP_register_vcpu_time_memory_area;
   VCPUOP_register_runstate_memory_area].

(** The shared-info page with the time info of slot [i] replaced. *)
Definition set_time_slot (i : nat) (t : vcpu_time_info) (sh : shared_info)
  : shared_info :=
  sh_set_vcpu_info (<[i := t]> (vcpu_info sh)) sh.

(** The time info [kvti] once [update_runstate] has written the new
    payload (version odd when it was even), and once it has closed the
    version; [d] is the time elapsed and [next] the TSC read. *)
Definition time_written (next d : Z) (kvti : vcpu_time_info)
  : vcpu_time_info :=
  mk_vti (u32 (version kvti + 1)) next (u64 (system_time kvti + d))
    (tsc_to_system_mul kvti) (tsc_shift kvti) (flags kvti).

Definition time_closed (next d : Z) (kvti : vcpu_time_info)
  : vcpu_time_info :=
  mk_vti (u32 (version kvti + 2)) next (u64 (system_time kvti + d))
    (tsc_to_system_mul kvti) (tsc_shift kvti) (flags kvti).

(** The time [update_runstate] finds elapsed on the clock [kvti] when the
    TSC reads [next]. *)
Definition elapsed_ns (next : Z) (kvti : vcpu_time_info) : option Z :=
  tsc_to_ns (u64 (next - tsc_timestamp kvti)) (u64 (tsc_shift kvti))
    (u64 (tsc_to_system_mul kvti)).

(** The mirror [u] after an update that left the kernel copy at system
    time [now]. *)
Definition mirror_closed (next now : Z) (u : vcpu_time_info)
  : vcpu_time_info :=
  mk_vti (u32 (version u + 2)) next now (tsc_to_system_mul u) (tsc_shift u)
    (flags u).

(** ** More sample memories and objects *)

(** A flask op at 0x8000. *)
Definition gmem_flask : guest_memory :=
  mk_gmem (fun _ => None) (fun _ => None)
    (fun a => if a =? 0x8000 then Some (mk_flask_op FLASK_SID_TO_CONTEXT 7)
              else None)
    (fun _ => None) (fun _ => None) (fun _ => None) (fun _ => None)
    (fun _ => None) (fun _ => false) (fun _ => false) (fun _ _ => false).

Definition x_xsm : xen :=
  xen_new (vcpu_call __HYPERVISOR_xsm_op 0x8000 0 0) true gmem_flask.



(** A guest with 100 ticks left on an armed timer, which left the guest at
    TSC 40; its clock was last stamped at TSC 0. *)
Definition x_armed : xen :=
  mk_xen (mk_vcpu 0 0 0 0 0 0 0 0 100 true) false 1 0 0 0
    (Some shinfo_1000) None None false true true 5 40 gmem0 [].

(** A time area request at 0xA000 naming the mirror at 0xB000. *)
Definition gmem_mirror : guest_memory :=
  mk_gmem (fun _ => None) (fun _ => None) (fun _ => None) (fun _ => None)
    (fun a => if a =? 0xA000 then Some 0xB000 else None)
    (fun _ => None)
    (fun a => if a =? 0xB000 then Some (mk_vti 0 0 0 0 0 0) else None)
    (fun _ => None) (fun _ => false) (fun _ => false) (fun _ _ => false).

Definition x_register_mirror : xen :=
  mk_xen
    (vcpu_call __HYPERVISOR_vcpu_op VCPUOP_register_vcpu_time_memory_area 0
       0xA000)
    false 1 0 0 0 (Some shinfo_1000) None None false false false 5 0
    gmem_mirror [].

(** A guest in the running state since 1000, with the runstate update flag
    negotiated. *)
Definition x_assisted : xen :=
  mk_xen vcpu0 false 1 0 0 0 (Some shinfo_1000) (Some vti_1000)
    (Some (mk_runstate RUNSTATE_running 1000 (mk_times 1000 0 0 0)))
    true false false 5 0 gmem0 [].

(** * Properties *)

(** ** Reasoning about computations *)

Lemma bind_unfold {A B : Type} (m : M A) (f : A -> M B) (x : xen) :
  (m ≫= f) x =
  match m x with
  | Ret a x' => f a x'
  | Throw x' => Throw x'
  | Violation x' => Violation x'
  | Undefined => Undefined
  end.
Proof. reflexivity. Qed.

Lemma bind_Ret {A B : Type} (m : M A) (f : A -> M B) (x x' : xen) (a : A) :
  m x = Ret a x' -> (m ≫= f) x = f a x'.
Proof. intros H. rewrite bind_unfold, H. reflexivity. Qed.

Lemma bind_get {B : Type} (f : xen -> M B) (x : xen) :
  (get ≫= f) x = f x x.
Proof. reflexivity. Qed.

Lemma bind_modify {B : Type} (g : xen -> xen) (f : unit -> M B) (x : xen) :
  (modify g ≫= f) x = f tt (g x).
Proof. reflexivity. Qed.

Lemma bind_mret {A B : Type} (a : A) (f : A -> M B) (x : xen) :
  (mret a ≫= f) x = f a x.
Proof. reflexivity. Qed.

Lemma bind_defined {A B : Type} (o : option A) (a : A) (f : A -> M B)
    (x : xen) :
  o = Some a -> (defined o ≫= f) x = f a x.
Proof. intros ->. reflexivity. Qed.

Lemma bind_expects_true {B : Type} (f : unit -> M B) (x : xen) :
  (expects true ≫= f) x = f tt x.
Proof. reflexivity. Qed.

Lemma bind_expects_false {B : Type} (f : unit -> M B) (x : xen) :
  (expects false ≫= f) x = Violation x.
Proof. reflexivity. Qed.

(** ** CPUID leaf base+1 *)

(** C3. Leaf base+1 returns [true], advances the guest and zeroes [rbx],
    [rcx] and [rdx]; but [rax] is 0x00040D00, which is
    [(XEN_MAJOR << 16) | (XEN_MINOR << 8)] and not the word
    [(XEN_MAJOR << 16) | XEN_MINOR = 0x0004000D] of the Xen ABI. *)
Theorem xen_leaf1_rax (vcpu : xen_vcpu) :
  (xen_leaf1 vcpu).1 = true /\
  rax (xen_leaf1 vcpu).2 = 0x00040D00 /\
  rax (xen_leaf1 vcpu).2 =
    Z.lor (Z.shiftl XEN_MAJOR 16) (Z.shiftl XEN_MINOR 8) /\
  Z.lor (Z.shiftl XEN_MAJOR 16) XEN_MINOR = 0x0004000D /\
  rax (xen_leaf1 vcpu).2 <> Z.lor (Z.shiftl XEN_MAJOR 16) XEN_MINOR /\
  rbx (xen_leaf1 vcpu).2 = 0 /\
  rcx (xen_leaf1 vcpu).2 = 0 /\
  rdx (xen_leaf1 vcpu).2 = 0.
Proof.
  repeat split; try reflexivity.
  cbn. vm_compute. discriminate.
Qed.

(** ** The vcpu id check of vcpu-op *)

Lemma make_xen_ids_returns (c : Z) (x : xen) :
  exists c' x',
    make_xen_ids c x = Ret c' x' /\
    vcpuid x' = 0 /\ apicid x' = 0 /\ acpiid x' = 0 /\
    initdom x' = initdom x /\
    (if initdom x then domid x' = 0 /\ c' = c
     else domid x' = u32 (c + 1) /\ c' = u32 (c + 1)).
Proof.
  unfold make_xen_ids. rewrite bind_get.
  destruct (initdom x) eqn:Hd.
  - eexists _, _. split; [reflexivity|]. cbn. rewrite Hd. by repeat split.
  - eexists _, _. split; [reflexivity|]. cbn. rewrite Hd. by repeat split.
Qed.

Lemma handle_vcpu_op_foreign_id (x : xen) :
  rsi (m_vcpu x) <> vcpuid x -> handle_vcpu_op x = Violation x.
Proof.
  intros Hne. unfold handle_vcpu_op. rewrite bind_get.
  apply Z.eqb_neq in Hne. rewrite Hne. reflexivity.
Qed.

Lemma hypercall_vcpu_op (E : env) (x : xen) :
  rax (m_vcpu x) = __HYPERVISOR_vcpu_op -> hypercall E x = handle_vcpu_op x.
Proof.
  intros H. unfold hypercall. rewrite bind_get, H. reflexivity.
Qed.

(** C10. Every object leaves the identity allocator with [vcpuid = 0], and
    [handle_vcpu_op] checks [rsi == vcpuid] before anything else: when they
    differ the outcome is the failed assertion, with the object as it was
    (no register written, no sub-operation run), and the dispatcher passes
    that outcome on; so on an allocated object any nonzero [rsi] fails the
    assertion. *)
Theorem handle_vcpu_op_checks_vcpuid :
  (forall v d g c, exists c' x, xen_ctor v d g c = Ret c' x /\ vcpuid x = 0) /\
  (forall E x, rsi (m_vcpu x) <> vcpuid x ->
     handle_vcpu_op x = Violation x /\
     (rax (m_vcpu x) = __HYPERVISOR_vcpu_op -> hypercall E x = Violation x)) /\
  (forall v d g c c' x0 x,
     xen_ctor v d g c = Ret c' x0 -> vcpuid x = vcpuid x0 ->
     rsi (m_vcpu x) <> 0 -> handle_vcpu_op x = Violation x).
Proof.
  split; [|split].
  - intros v d g c. unfold xen_ctor.
    destruct (make_xen_ids_returns c (xen_new v d g)) as (c' & x' & H & Hv & _).
    eauto.
  - intros E x Hne. split; [by apply handle_vcpu_op_foreign_id|].
    intros Hop. rewrite hypercall_vcpu_op by done.
    by apply handle_vcpu_op_foreign_id.
  - intros v d g c c' x0 x Hc Hid Hne. apply handle_vcpu_op_foreign_id.
    unfold xen_ctor in Hc.
    destruct (make_xen_ids_returns c (xen_new v d g)) as (c1 & x1 & H & Hv & _).
    rewrite H in Hc. injection Hc as -> ->. congruence.
Qed.

(** ** Containment of exceptions in the dispatcher *)

Lemma try_catchall_contains (E : env) (body : M bool) (x x' : xen) :
  try_catchall E body x <> Throw x'.
Proof.
  unfold try_catchall. destruct (body x); try discriminate.
  destruct (contract_is_exception E); discriminate.
Qed.

Lemma try_catchall_throw (E : env) (body : M bool) (x x' : xen) :
  body x = Throw x' -> try_catchall E body x = Ret false x'.
Proof. intros H. unfold try_catchall. rewrite H. reflexivity. Qed.

(** The five handlers whose body is a [try] block turn every exception of
    their sub-handler into [false]. *)
Lemma wrapped_handlers_contain (E : env) (x x' : xen) :
  handle_memory_op E x <> Throw x' /\
  handle_xen_version E x <> Throw x' /\
  handle_event_channel_op E x <> Throw x' /\
  handle_grant_table_op E x <> Throw x' /\
  handle_physdev_op E x <> Throw x'.
Proof. repeat split; apply try_catchall_contains. Qed.

(** [handle_sysctl] and [handle_domctl] have no [try] block: a pointer that
    does not map, or a throwing [handle], leaves the dispatcher as an
    exception. *)
Lemma hypercall_sysctl_unmapped (E : env) (x : xen) :
  rax (m_vcpu x) = __HYPERVISOR_sysctl ->
  gm_sysctl (gmem x) (rdi (m_vcpu x)) = false ->
  hypercall E x = Throw x.
Proof.
  intros Hnr Hmap. unfold hypercall. rewrite bind_get, Hnr. cbn.
  unfold handle_sysctl. rewrite bind_get, bind_unfold.
  unfold map_opaque. rewrite Hmap. reflexivity.
Qed.

Lemma hypercall_sysctl_handle_throws (E : env) (x x' : xen) :
  rax (m_vcpu x) = __HYPERVISOR_sysctl ->
  gm_sysctl (gmem x) (rdi (m_vcpu x)) = true ->
  m_sysctl_handle E (rdi (m_vcpu x)) x = Throw x' ->
  hypercall E x = Throw x'.
Proof.
  intros Hnr Hmap Hthrow. unfold hypercall. rewrite bind_get, Hnr. cbn.
  unfold handle_sysctl. rewrite bind_get, bind_unfold.
  unfold map_opaque. rewrite Hmap, Hthrow. reflexivity.
Qed.

Lemma hypercall_domctl_unmapped (E : env) (x : xen) :
  rax (m_vcpu x) = __HYPERVISOR_domctl ->
  gm_domctl (gmem x) (rdi (m_vcpu x)) = false ->
  hypercall E x = Throw x.
Proof.
  intros Hnr Hmap. unfold hypercall. rewrite bind_get, Hnr. cbn.
  unfold handle_domctl. rewrite bind_get, bind_unfold.
  unfold map_opaque. rewrite Hmap. reflexivity.
Qed.

Lemma hypercall_console_io_unmapped (E : env) (x : xen) :
  rax (m_vcpu x) = __HYPERVISOR_console_io ->
  initdom x = true ->
  gm_chars (gmem x) (rdx (m_vcpu x)) (rsi (m_vcpu x)) = false ->
  hypercall E x = Throw x.
Proof.
  intros Hnr Hdom Hmap. unfold hypercall. rewrite bind_get, Hnr. cbn.
  unfold handle_console_io. rewrite bind_get, Hdom, bind_expects_true.
  rewrite bind_unfold. unfold map_opaque. rewrite Hmap. reflexivity.
Qed.

Lemma hypercall_platform_op_unmapped (E : env) (x : xen) :
  rax (m_vcpu x) = __HYPERVISOR_platform_op ->
  gm_platform_op (gmem x) (rdi (m_vcpu x)) = None ->
  hypercall E x = Throw x.
Proof.
  intros Hnr Hmap. unfold hypercall. rewrite bind_get, Hnr. cbn.
  unfold handle_platform_op. rewrite bind_get, bind_unfold.
  unfold map_arg. rewrite Hmap. reflexivity.
Qed.

(** C1. The dispatcher does not contain every exception. A sysctl from a
    guest whose argument pointer cannot be mapped makes [map_arg] throw in
    [handle_sysctl], which has no [try] block, and the exception leaves
    [hypercall]; the same fault under memory-op, whose handler has one,
    becomes [false]. *)
Theorem hypercall_sysctl_exception_escapes :
  hypercall env_ok x_sysctl_unmapped = Throw x_sysctl_unmapped /\
  hypercall env_throwing x_add_to_physmap = Ret false x_add_to_physmap.
Proof.
  split.
  - apply hypercall_sysctl_unmapped; reflexivity.
  - reflexivity.
Qed.

(** ** The domain checks of the administrative operations *)

Lemma handle_console_io_guest (E : env) (x : xen) :
  initdom x = false -> handle_console_io E x = Violation x.
Proof.
  intros Hdom. unfold handle_console_io.
  rewrite bind_get, Hdom. reflexivity.
Qed.

Lemma handle_xsm_op_guest (x : xen) :
  initdom x = false -> handle_xsm_op x = Violation x.
Proof.
  intros Hdom. unfold handle_xsm_op. rewrite bind_get, Hdom. reflexivity.
Qed.

Lemma handle_platform_op_version (x : xen) (xpf : xen_platform_op) :
  gm_platform_op (gmem x) (rdi (m_vcpu x)) = Some xpf ->
  interface_version xpf <> XENPF_INTERFACE_VERSION ->
  handle_platform_op x =
    Ret true (with_vcpu (vcpu_set_rax (u64 (- EACCES))) x).
Proof.
  intros Hmap Hver. unfold handle_platform_op. rewrite bind_get.
  rewrite bind_unfold. unfold map_arg at 1. rewrite Hmap.
  apply Z.eqb_neq in Hver. rewrite Hver. reflexivity.
Qed.

Lemma handle_platform_op_get_cpuinfo_guest (x : xen) (xpf : xen_platform_op) :
  initdom x = false ->
  gm_platform_op (gmem x) (rdi (m_vcpu x)) = Some xpf ->
  interface_version xpf = XENPF_INTERFACE_VERSION ->
  cmd xpf = XENPF_get_cpuinfo ->
  handle_platform_op x = Violation x.
Proof.
  intros Hdom Hmap Hver Hcmd. unfold handle_platform_op. rewrite bind_get.
  rewrite bind_unfold. unfold map_arg at 1. rewrite Hmap, Hver, Hcmd, Hdom.
  reflexivity.
Qed.

Lemma handle_hvm_op_get_param (E : env) (x : xen) :
  rdi (m_vcpu x) = HVMOP_get_param ->
  handle_hvm_op E x =
    if initdom x then Violation x
    else Ret true (with_vcpu (vcpu_set_rax (u64 (- ENOSYS))) x).
Proof.
  intros Hop. unfold handle_hvm_op. rewrite bind_get, Hop. cbn.
  destruct (initdom x); reflexivity.
Qed.

(** C2, as the claim has it, fails for [HVMOP_get_param]: called from a
    guest (non-initial) domain it passes its check, stores [-ENOSYS] in
    [rax] and returns [true]. *)
Lemma hvm_get_param_from_guest_returns :
  initdom (x_get_param false) = false /\
  rdi (m_vcpu (x_get_param false)) = HVMOP_get_param /\
  hypercall env_ok (x_get_param false) =
    Ret true (with_vcpu (vcpu_set_rax (u64 (- ENOSYS))) (x_get_param false)) /\
  hypercall env_ok (x_get_param false) <> Violation (x_get_param false).
Proof. repeat split; discriminate. Qed.

(** C2, amended. From a non-initial domain, console I/O and the XSM op fail
    their assertion on entry, and platform-op [XENPF_get_cpuinfo] fails it
    once its argument is mapped and carries the expected interface version
    (a wrong version is answered with [-EACCES] whatever the domain).
    [HVMOP_get_param] asserts the opposite: from a non-initial domain it
    answers [-ENOSYS] and returns [true], and it is from the initial domain
    that it fails its assertion. *)
Theorem admin_ops_domain_checks (E : env) (x : xen) :
  (initdom x = false ->
     handle_console_io E x = Violation x /\
     handle_xsm_op x = Violation x /\
     (forall xpf,
        gm_platform_op (gmem x) (rdi (m_vcpu x)) = Some xpf ->
        interface_version xpf = XENPF_INTERFACE_VERSION ->
        cmd xpf = XENPF_get_cpuinfo ->
        handle_platform_op x = Violation x) /\
     (rdi (m_vcpu x) = HVMOP_get_param ->
        handle_hvm_op E x =
          Ret true (with_vcpu (vcpu_set_rax (u64 (- ENOSYS))) x))) /\
  (initdom x = true -> rdi (m_vcpu x) = HVMOP_get_param ->
     handle_hvm_op E x = Violation x) /\
  (forall xpf,
     gm_platform_op (gmem x) (rdi (m_vcpu x)) = Some xpf ->
     interface_version xpf <> XENPF_INTERFACE_VERSION ->
     handle_platform_op x =
       Ret true (with_vcpu (vcpu_set_rax (u64 (- EACCES))) x)).
Proof.
  split; [|split].
  - intros Hdom. split; [|split; [|split]].
    + by apply handle_console_io_guest.
    + by apply handle_xsm_op_guest.
    + intros xpf. by apply handle_platform_op_get_cpuinfo_guest.
    + intros Hop. rewrite handle_hvm_op_get_param, Hdom; done.
  - intros Hdom Hop. rewrite handle_hvm_op_get_param, Hdom; done.
  - apply handle_platform_op_version.
Qed.

(** The checks at work: a guest's console I/O, XSM op and get-cpuinfo fail
    their assertions, and its [HVMOP_get_param] returns. *)
Lemma admin_ops_domain_checks_witness :
  handle_console_io env_ok x_get_cpuinfo = Violation x_get_cpuinfo /\
  handle_xsm_op x_get_cpuinfo = Violation x_get_cpuinfo /\
  handle_platform_op x_get_cpuinfo = Violation x_get_cpuinfo /\
  handle_hvm_op env_ok (x_get_param false) =
    Ret true (with_vcpu (vcpu_set_rax (u64 (- ENOSYS))) (x_get_param false)) /\
  handle_hvm_op env_ok (x_get_param true) = Violation (x_get_param true).
Proof.
  destruct (admin_ops_domain_checks env_ok x_get_cpuinfo) as [Hguest _].
  destruct (Hguest eq_refl) as (Hcon & Hxsm & Hpf & _).
  destruct (admin_ops_domain_checks env_ok (x_get_param false)) as [Hg _].
  destruct (Hg eq_refl) as (_ & _ & _ & Hget).
  destruct (admin_ops_domain_checks env_ok (x_get_param true)) as (_ & Hi & _).
  exact (conj Hcon (conj Hxsm (conj (Hpf _ eq_refl eq_refl eq_refl)
           (conj (Hget eq_refl) (Hi eq_refl eq_refl))))).
Defined.

(** A vcpu-op naming vcpu 1 on a freshly constructed guest object. *)
Lemma handle_vcpu_op_checks_vcpuid_witness :
  handle_vcpu_op
    (xen_new (vcpu_call __HYPERVISOR_vcpu_op VCPUOP_stop_periodic_timer 1 0)
       false gmem0) =
  Violation
    (xen_new (vcpu_call __HYPERVISOR_vcpu_op VCPUOP_stop_periodic_timer 1 0)
       false gmem0).
Proof.
  destruct handle_vcpu_op_checks_vcpuid as (_ & Hcheck & _).
  refine (proj1 (Hcheck env_ok _ _)). discriminate.
Defined.

(** ** The singleshot timer *)

Lemma program_timer_armed (pet : Z) (x : xen) :
  program_timer pet x = Ret 0 (armed pet x).
Proof. reflexivity. Qed.

Lemma shr64_defined (v n : Z) :
  0 <= n < 64 -> shr64 v n = Some (Z.shiftr v n).
Proof.
  intros [H0 H1]. unfold shr64.
  apply Z.leb_le in H0. apply Z.ltb_lt in H1. by rewrite H0, H1.
Qed.

Lemma shl64_defined (v n : Z) :
  0 <= n < 64 -> shl64 v n = Some (u64 (Z.shiftl v n)).
Proof.
  intros [H0 H1]. unfold shl64.
  apply Z.leb_le in H0. apply Z.ltb_lt in H1. by rewrite H0, H1.
Qed.

Lemma u64_range (v : Z) : 0 <= u64 v < 2 ^ 64.
Proof. unfold u64. apply Z.mod_pos_bound. lia. Qed.

Lemma u32_range (v : Z) : 0 <= u32 v < 2 ^ 32.
Proof. unfold u32. apply Z.mod_pos_bound. lia. Qed.

Lemma ns_to_tsc_defined (ns shft mult : Z) :
  0 <= shft < 64 -> mult <> 0 ->
  ns_to_tsc ns shft mult =
    Some (Z.shiftr (u64 (Z.shiftl ns 32) / mult) shft).
Proof.
  intros Hs Hm. unfold ns_to_tsc. rewrite shl64_defined by lia. cbn.
  unfold div64. apply Z.eqb_neq in Hm. rewrite Hm. cbn.
  by apply shr64_defined.
Qed.

(** C5. With the request mapped and the clock readable: a deadline below
    the system time with [VCPU_SSHOTTMR_future] set returns [-ETIME] and
    leaves the object as it was (nothing programmed, [m_pet_enabled]
    unchanged, so a disarmed timer stays disarmed); with the flag clear it
    programs zero ticks and arms; a deadline above the system time programs
    [tsc_to_pet (ns_to_tsc (deadline - system_time))], arms and returns 0,
    the conversion being defined when the multiplier is nonzero and the
    shift counts are below 64. *)
Theorem set_timer_deadline (x : xen) (sst : vcpu_set_singleshot_timer)
    (vti : vcpu_time_info) :
  gm_sshot (gmem x) (rdx (m_vcpu x)) = Some sst ->
  vcpu_time x = Ret vti x ->
  (timeout_abs_ns sst < system_time vti ->
   Z.land (ss_flags sst) VCPU_SSHOTTMR_future <> 0 ->
     set_timer x = Ret (- ETIME) x /\
     (m_pet_enabled x = false ->
      forall r x', set_timer x = Ret r x' -> m_pet_enabled x' = false)) /\
  (timeout_abs_ns sst < system_time vti ->
   Z.land (ss_flags sst) VCPU_SSHOTTMR_future = 0 ->
     set_timer x = Ret 0 (armed 0 x) /\
     preemption_timer (m_vcpu (armed 0 x)) = 0 /\
     m_pet_enabled (armed 0 x) = true) /\
  (system_time vti < timeout_abs_ns sst ->
   u64 (tsc_to_system_mul vti) <> 0 ->
   u64 (tsc_shift vti) < 64 ->
   0 <= m_pet_shift x < 64 ->
     exists tsc pet,
       ns_to_tsc (u64 (timeout_abs_ns sst - system_time vti))
         (u64 (tsc_shift vti)) (u64 (tsc_to_system_mul vti)) = Some tsc /\
       tsc_to_pet tsc (m_pet_shift x) = Some pet /\
       set_timer x = Ret 0 (armed pet x) /\
       preemption_timer (m_vcpu (armed pet x)) = pet /\
       preemption_timer_enabled (m_vcpu (armed pet x)) = true /\
       m_pet_enabled (armed pet x) = true).
Proof.
  intros Hmap Hvti.
  split; [|split].
  - intros Hpast Hflag.
    assert (Hret : set_timer x = Ret (- ETIME) x).
    { unfold set_timer. rewrite bind_get, bind_unfold. unfold map_arg at 1.
      rewrite Hmap, (bind_Ret _ _ _ _ _ Hvti).
      assert (Hle : (timeout_abs_ns sst <=? system_time vti) = true)
        by (apply Z.leb_le; lia).
      apply Z.eqb_neq in Hflag. rewrite Hle, Hflag. reflexivity. }
    split; [exact Hret|].
    intros Hoff r x' Hr. rewrite Hret in Hr. by injection Hr as _ <-.
  - intros Hpast Hflag. split; [|done].
    unfold set_timer. rewrite bind_get, bind_unfold. unfold map_arg at 1.
    rewrite Hmap, (bind_Ret _ _ _ _ _ Hvti).
    assert (Hle : (timeout_abs_ns sst <=? system_time vti) = true)
      by (apply Z.leb_le; lia).
    apply Z.eqb_eq in Hflag. rewrite Hle, Hflag. reflexivity.
  - intros Hfuture Hmul Hshift Hpet.
    pose proof (u64_range (tsc_shift vti)) as Hs.
    eexists _, _. split; [apply ns_to_tsc_defined; [lia|done]|].
    split; [by apply shr64_defined|].
    split; [|done].
    unfold set_timer. rewrite bind_get, bind_unfold. unfold map_arg at 1.
    rewrite Hmap, (bind_Ret _ _ _ _ _ Hvti).
    assert (Hle : (timeout_abs_ns sst <=? system_time vti) = false)
      by (apply Z.leb_gt; lia).
    rewrite Hle.
    erewrite bind_defined by (apply ns_to_tsc_defined; [lia|done]).
    erewrite bind_defined by (by apply shr64_defined).
    reflexivity.
Qed.

(** The three cases on a clock at 1000 ns with one tick per nanosecond and
    a preemption timer 32 times slower than the TSC. *)
Lemma set_timer_deadline_witness :
  set_timer (x_timer 0x1000) = Ret (- ETIME) (x_timer 0x1000) /\
  set_timer (x_timer 0x2000) = Ret 0 (armed 0 (x_timer 0x2000)) /\
  set_timer (x_timer 0x3000) = Ret 0 (armed 125 (x_timer 0x3000)).
Proof.
  pose proof (set_timer_deadline (x_timer 0x1000) (mk_sshot 500 1) vti_1000
                eq_refl eq_refl) as (H1 & _ & _).
  pose proof (set_timer_deadline (x_timer 0x2000) (mk_sshot 500 0) vti_1000
                eq_refl eq_refl) as (_ & H2 & _).
  pose proof (set_timer_deadline (x_timer 0x3000) (mk_sshot 5000 0) vti_1000
                eq_refl eq_refl) as (_ & _ & H3).
  split; [|split].
  - refine (proj1 (H1 _ _)); [reflexivity | discriminate].
  - refine (proj1 (H2 _ _)); reflexivity.
  - destruct H3 as (tsc & pet & Htsc & Hpet & Hret & _);
      [reflexivity | discriminate | reflexivity | split; [discriminate | reflexivity] |].
    injection Htsc as <-. injection Hpet as <-. exact Hret.
Defined.

(** ** The wallclock *)

Lemma do_div_ns (n : Z) :
  do_div n 1000000000 =
    Some (u64 n / 1000000000, u32 (u64 n mod 1000000000)).
Proof. reflexivity. Qed.

Lemma u32_inc_inc (v : Z) : u32 (u32 (v + 1) + 1) = u32 (v + 2).
Proof.
  unfold u32. rewrite Zplus_mod_idemp_l. f_equal. lia.
Qed.

Lemma u32_parity (v : Z) : Z.even (u32 v) = Z.even v.
Proof.
  unfold u32. rewrite (Z.div_mod v (2 ^ 32)) at 2 by lia.
  rewrite Z.even_add, Z.even_mul.
  replace (Z.even (2 ^ 32)) with true by reflexivity.
  cbn [orb]. by destruct (Z.even (v `mod` 2 ^ 32)).
Qed.

Lemma wallclock_delta_eq (time : xenpf_settime64) :
  u64 (u64 (u64 (s_to_ns (secs time) + nsecs time) - st_system_time time)) =
  wallclock_delta time.
Proof.
  unfold wallclock_delta, s_to_ns, u64.
  rewrite Z.mod_mod by lia.
  rewrite Zminus_mod_idemp_l, <- Z.add_sub_assoc, Zplus_mod_idemp_l.
  f_equal. lia.
Qed.

(** C8. [update_wallclock] increments [wc_version], executes a barrier,
    writes the payload, executes a barrier and increments [wc_version]
    again: at the first barrier the guest sees the old payload under
    version [v + 1], at the second the new payload under [v + 1], at the
    end the new payload under [v + 2] (32-bit arithmetic), so an even
    version is odd between the barriers and even again at the end. The
    payload is the quotient of [secs * 1e9 + nsecs - system_time] (64-bit
    unsigned) by 1e9, low half in [wc_sec] and high half in [wc_sec_hi],
    and its remainder in [wc_nsec]. *)
Theorem update_wallclock_seqlock (time : xenpf_settime64) (x : xen)
    (sh : shared_info) :
  m_shinfo x = Some sh ->
  let d := wallclock_delta time in
  let opened := sh_set_wc_version (u32 (wc_version sh + 1)) sh in
  let written :=
    sh_set_wc_nsec (d mod 1000000000)
      (sh_set_wc_sec_hi (d / 1000000000 / 2 ^ 32)
         (sh_set_wc_sec ((d / 1000000000) mod 2 ^ 32) opened)) in
  let closed := sh_set_wc_version (u32 (wc_version sh + 2)) written in
  update_wallclock time x =
    Ret tt
      (with_barriers
         (barriers x ++
          [mk_view (Some opened) (m_user_vti x) (m_runstate x);
           mk_view (Some written) (m_user_vti x) (m_runstate x)])
         (with_shinfo (Some closed) x)) /\
  wc_sec closed + 2 ^ 32 * wc_sec_hi closed = d / 1000000000 /\
  wc_nsec closed = d mod 1000000000 /\
  d = 1000000000 * (wc_sec closed + 2 ^ 32 * wc_sec_hi closed)
      + wc_nsec closed /\
  0 <= wc_nsec closed < 1000000000 /\
  0 <= wc_sec closed < 2 ^ 32 /\
  0 <= wc_sec_hi closed < 2 ^ 32 /\
  (wc_version sh + 2 < 2 ^ 32 -> 0 <= wc_version sh ->
     wc_version closed = wc_version sh + 2) /\
  (Z.even (wc_version sh) = true ->
     Z.odd (wc_version opened) = true /\
     Z.odd (wc_version written) = true /\
     Z.even (wc_version closed) = true).
Proof.
  intros Hsh d opened written closed.
  assert (Hd : 0 <= d < 2 ^ 64) by apply u64_range.
  assert (Hq : 0 <= d / 1000000000 < 2 ^ 64).
  { split; [apply Z.div_pos; lia|].
    apply Z.div_lt_upper_bound; lia. }
  assert (Hhi : 0 <= d / 1000000000 / 2 ^ 32 < 2 ^ 32).
  { split; [apply Z.div_pos; lia|].
    apply Z.div_lt_upper_bound; lia. }
  assert (Hr : 0 <= d mod 1000000000 < 1000000000)
    by (apply Z.mod_pos_bound; lia).
  split.
  { unfold update_wallclock.
    destruct x as [v dom d1 d2 d3 d4 shi uv rs ra pe ph ps te gm bs].
    cbn in Hsh. subst shi.
    rewrite do_div_ns, wallclock_delta_eq. fold d.
    unfold mbind, M_mbind, M_bind, mret, M_mret, upd_shinfo, wmb, modify,
      defined.
    cbn -[u64 u32 Z.shiftr Z.div Z.modulo Z.add Z.pow].
    rewrite u32_inc_inc.
    replace (u32 (d `div` 1000000000)) with ((d / 1000000000) mod 2 ^ 32)
      by reflexivity.
    replace (u32 (Z.shiftr (d `div` 1000000000) 32))
      with (d / 1000000000 / 2 ^ 32).
    2:{ rewrite Z.shiftr_div_pow2 by lia. unfold u32.
        rewrite Z.mod_small; [reflexivity | exact Hhi]. }
    replace (u32 (u32 (d `mod` 1000000000))) with (d mod 1000000000).
    2:{ assert (Hn : u32 (d mod 1000000000) = d mod 1000000000)
          by (unfold u32; apply Z.mod_small; lia).
        by rewrite !Hn. }
    rewrite <- app_assoc. reflexivity. }
  cbn [closed written opened wc_sec wc_sec_hi wc_nsec wc_version
       sh_set_wc_version sh_set_wc_sec sh_set_wc_sec_hi sh_set_wc_nsec].
  pose proof (Z.div_mod (d / 1000000000) (2 ^ 32)) as Hsplit.
  pose proof (Z.div_mod d 1000000000) as Hdiv.
  pose proof (Z.mod_pos_bound (d / 1000000000) (2 ^ 32)) as Hlo.
  split; [lia|]. split; [reflexivity|]. split; [lia|].
  split; [lia|]. split; [lia|]. split; [lia|]. split.
  - intros Hlt Hge. unfold u32. apply Z.mod_small. lia.
  - intros Heven.
    rewrite <- Z.negb_even, !u32_parity, !Z.even_add, Heven. by repeat split.
Qed.

(** 1700000000 s and 5 ns at system time 2000000007 over a wallclock at
    version 6: version 8, 1699999997 s and 999999998 ns. *)
Lemma update_wallclock_seqlock_witness :
  exists x',
    update_wallclock settime_sample x_wallclock = Ret tt x' /\
    wc_version <$> m_shinfo x' = Some 8 /\
    wc_sec <$> m_shinfo x' = Some 1699999997 /\
    wc_sec_hi <$> m_shinfo x' = Some 0 /\
    wc_nsec <$> m_shinfo x' = Some 999999998 /\
    (λ w, wc_version <$> view_shinfo w) <$> barriers x' = [Some 7; Some 7].
Proof.
  destruct (update_wallclock_seqlock settime_sample x_wallclock shinfo_1000
              eq_refl) as (Hret & _).
  eexists. split; [exact Hret|]. clear Hret. vm_compute.
  repeat split; reflexivity.
Defined.

(** ** What a computation leaves untouched *)

Lemma bind_Ret_inv {A B : Type} (m : M A) (f : A -> M B) (x x'' : xen)
    (b : B) :
  (m ≫= f) x = Ret b x'' ->
  exists a x', m x = Ret a x' /\ f a x' = Ret b x''.
Proof.
  rewrite bind_unfold. destruct (m x) as [a x'| | |]; try discriminate.
  intros H. eauto.
Qed.

#[local] Instance same_on_refl {T : Type} (p : xen -> T) :
  Reflexive (same_on p).
Proof. by intros x. Qed.

#[local] Instance same_on_trans {T : Type} (p : xen -> T) :
  Transitive (same_on p).
Proof. unfold same_on. intros x y z Hxy Hyz. congruence. Qed.

Lemma preserves_bind {A B : Type} (R : xen -> xen -> Prop) `{!Transitive R}
    (m : M A) (f : A -> M B) :
  preserves R m -> (forall a, preserves R (f a)) -> preserves R (m ≫= f).
Proof.
  intros Hm Hf x b x'' H.
  apply bind_Ret_inv in H as (a & x' & H1 & H2).
  transitivity x'; [by eapply Hm | by eapply Hf].
Qed.

Lemma preserves_mret {A : Type} (R : xen -> xen -> Prop) `{!Reflexive R}
    (a : A) :
  preserves R (mret a).
Proof. intros x a' x' [= _ <-]. reflexivity. Qed.

Lemma preserves_get (R : xen -> xen -> Prop) `{!Reflexive R} :
  preserves R get.
Proof. intros x a' x' [= _ <-]. reflexivity. Qed.

Lemma preserves_defined {A : Type} (R : xen -> xen -> Prop) `{!Reflexive R}
    (o : option A) :
  preserves R (defined o).
Proof.
  destruct o; [by apply preserves_mret|]. intros x a x' [=].
Qed.

Lemma preserves_vcpu_time (R : xen -> xen -> Prop) `{!Reflexive R} :
  preserves R vcpu_time.
Proof.
  intros x t x'. unfold vcpu_time.
  destruct (m_shinfo x) as [sh|]; [|discriminate].
  destruct (vcpu_info sh !! Z.to_nat (vcpuid x)); [|discriminate].
  intros [= _ <-]. reflexivity.
Qed.

Lemma preserves_modify (R : xen -> xen -> Prop) (g : xen -> xen) :
  (forall x, R x (g x)) -> preserves R (modify g).
Proof. intros Hg x a x' [= _ <-]. apply Hg. Qed.

Lemma preserves_upd_shinfo {T : Type} (p : xen -> T)
    (f : shared_info -> shared_info) :
  (forall s x, p (with_shinfo s x) = p x) ->
  preserves (same_on p) (upd_shinfo f).
Proof.
  intros Hp x a x'. unfold upd_shinfo.
  destruct (m_shinfo x); [|discriminate]. intros [= _ <-]. apply Hp.
Qed.

Lemma preserves_upd_user_vti {T : Type} (p : xen -> T)
    (f : vcpu_time_info -> vcpu_time_info) :
  (forall u x, p (with_user_vti u x) = p x) ->
  preserves (same_on p) (upd_user_vti f).
Proof.
  intros Hp x a x'. unfold upd_user_vti.
  destruct (m_user_vti x); [|discriminate]. intros [= _ <-]. apply Hp.
Qed.

Lemma preserves_wmb {T : Type} (p : xen -> T) :
  (forall l x, p (with_barriers l x) = p x) ->
  preserves (same_on p) wmb.
Proof. intros Hp. apply preserves_modify. intros x. apply Hp. Qed.

Lemma preserves_upd_vcpu_time {T : Type} (p : xen -> T)
    (f : vcpu_time_info -> vcpu_time_info) :
  (forall s x, p (with_shinfo s x) = p x) ->
  preserves (same_on p) (upd_vcpu_time f).
Proof.
  intros Hp. unfold upd_vcpu_time.
  apply preserves_bind; [apply _ | by apply preserves_vcpu_time |].
  intros t. apply preserves_bind; [apply _ | by apply preserves_get |].
  intros x. by apply preserves_upd_shinfo.
Qed.

(** Stepping through a sequence of primitive operations. *)
Ltac frame_steps :=
  repeat first
    [ apply preserves_bind; [apply _ | | intros ?]
    | apply preserves_mret; apply _
    | apply preserves_get; apply _
    | apply preserves_defined; apply _
    | apply preserves_vcpu_time; apply _
    | apply preserves_upd_vcpu_time; reflexivity
    | apply preserves_upd_user_vti; reflexivity
    | apply preserves_upd_shinfo; reflexivity
    | apply preserves_wmb; reflexivity ].

Lemma update_kernel_time_runstate (next : Z) :
  preserves (same_on m_runstate) (update_kernel_time next).
Proof. unfold update_kernel_time. frame_steps. Qed.

Lemma update_kernel_time_user_vti (next : Z) :
  preserves (same_on m_user_vti) (update_kernel_time next).
Proof. unfold update_kernel_time. frame_steps. Qed.

Lemma update_user_time_runstate (next : Z) :
  preserves (same_on m_runstate) (update_user_time next).
Proof. unfold update_user_time. frame_steps. Qed.

(** ** The runstate part of [update_runstate] *)

(** Without a user mirror, [update_runstate] returns before it reaches the
    runstate area, whatever is registered there. *)
Lemma update_runstate_without_mirror (new_state next : Z) (x x' : xen) :
  m_user_vti x = None ->
  update_runstate new_state next x = Ret tt x' ->
  m_runstate x' = m_runstate x.
Proof.
  intros Hnone. unfold update_runstate. rewrite bind_get.
  destruct (m_shinfo x) as [sh|] eqn:Hsh; cbn [negb bool_decide].
  2:{ rewrite bool_decide_eq_false_2 by (by intros [? ?]).
      cbn. by intros [= <-]. }
  rewrite bool_decide_eq_true_2 by eauto. cbn [negb].
  intros H. apply bind_Ret_inv in H as ([] & x1 & Hk & H).
  rewrite bind_get in H.
  pose proof (update_kernel_time_user_vti next _ _ _ Hk) as Hu.
  pose proof (update_kernel_time_runstate next _ _ _ Hk) as Hr.
  unfold same_on in Hu, Hr. rewrite Hu, Hnone in H.
  rewrite bool_decide_eq_false_2 in H by (by intros [? ?]).
  cbn in H. injection H as <-. exact Hr.
Qed.

(** C9. A guest that registered a runstate area but no user time-info
    mirror: [update_runstate(RUNSTATE_blocked)] advances the clock from
    1000 to 1050 and returns at [if (!m_user_vti)], so the runstate area
    still says "running since 1000" with 1000 ns accumulated; with a mirror
    registered the same call does update it. *)
Theorem update_runstate_needs_mirror :
  exists x1 x2 rs,
    handle_vcpu_op (x_register_runstate None) = Ret true x1 /\
    m_runstate x1 = Some rs /\
    m_user_vti x1 = None /\
    clock x1 = Some 1000 /\
    update_runstate RUNSTATE_blocked 50 x1 = Ret tt x2 /\
    clock x2 = Some 1050 /\
    m_runstate x2 = Some rs /\
    state rs = RUNSTATE_running /\
    state_entry_time rs = 1000 /\
    time_get (time rs) RUNSTATE_running = Some 1000 /\
    exists y1 y2 rs',
      handle_vcpu_op (x_register_runstate (Some vti_1000)) = Ret true y1 /\
      update_runstate RUNSTATE_blocked 50 y1 = Ret tt y2 /\
      m_runstate y2 = Some rs' /\
      state rs' = RUNSTATE_blocked /\
      state_entry_time rs' = 1050 /\
      time_get (time rs') RUNSTATE_running = Some 1050.
Proof.
  eexists _, _, _.
  split; [vm_compute; reflexivity|].
  split; [reflexivity|].
  split; [reflexivity|].
  split; [reflexivity|].
  split; [vm_compute; reflexivity|].
  split; [reflexivity|].
  split; [reflexivity|].
  split; [reflexivity|].
  split; [reflexivity|].
  split; [reflexivity|].
  eexists _, _, _.
  split; [vm_compute; reflexivity|].
  split; [vm_compute; reflexivity|].
  split; [reflexivity|].
  by repeat split.
Qed.

(** ** Runstate accounting *)

Lemma vcpu_time_state (x x' : xen) (t : vcpu_time_info) :
  vcpu_time x = Ret t x' -> x' = x.
Proof.
  unfold vcpu_time. destruct (m_shinfo x) as [sh|]; [|discriminate].
  destruct (vcpu_info sh !! Z.to_nat (vcpuid x)); [|discriminate].
  by intros [= _ <-].
Qed.

Lemma time_get_Some (t : runstate_times) (i acc : Z) :
  time_get t i = Some acc ->
  forall v, time_sum (time_set t i v) = time_sum t - acc + v.
Proof.
  unfold time_get, time_set, time_sum.
  destruct i as [|[[p|p|]|[p|p|]|]|p]; try discriminate;
    try (destruct p; discriminate);
    intros [= <-] v; cbn; lia.
Qed.

Lemma u64_congruent (z : Z) : exists k, u64 z = z + 2 ^ 63 * k.
Proof.
  exists (- 2 * (z / 2 ^ 64)). unfold u64.
  pose proof (Z.div_mod z (2 ^ 64)). lia.
Qed.

Lemma marker_cleared (now : Z) :
  Z.land (Z.lor XEN_RUNSTATE_UPDATE now) (u64 (Z.lnot XEN_RUNSTATE_UPDATE)) =
  now mod 2 ^ 63.
Proof.
  replace (u64 (Z.lnot XEN_RUNSTATE_UPDATE)) with (Z.ones 63) by reflexivity.
  rewrite Z.land_lor_distr_l.
  replace (Z.land XEN_RUNSTATE_UPDATE (Z.ones 63)) with 0 by reflexivity.
  rewrite Z.lor_0_l. apply Z.land_ones. lia.
Qed.

(** The entry time [update_runstate_area] leaves behind when the clock
    shows [now]. *)
Lemma entry_time_congruent (assist : bool) (now : Z) :
  exists k,
    (if assist
     then Z.land (Z.lor XEN_RUNSTATE_UPDATE now)
            (u64 (Z.lnot XEN_RUNSTATE_UPDATE))
     else now) = now + 2 ^ 63 * k.
Proof.
  destruct assist.
  - rewrite marker_cleared. exists (- (now / 2 ^ 63)).
    pose proof (Z.div_mod now (2 ^ 63)). lia.
  - exists 0. lia.
Qed.

Lemma update_runstate_area_result (new_state : Z) (x x' : xen) :
  update_runstate_area new_state x = Ret tt x' ->
  exists rs kvti acc,
    m_runstate x = Some rs /\
    vcpu_time x = Ret kvti x /\
    time_get (time rs) (state rs) = Some acc /\
    m_runstate x' =
      Some (mk_runstate new_state
              (if m_runstate_assist x
               then Z.land (Z.lor XEN_RUNSTATE_UPDATE (system_time kvti))
                      (u64 (Z.lnot XEN_RUNSTATE_UPDATE))
               else system_time kvti)
              (time_set (time rs) (state rs)
                 (u64 (acc + u64 (system_time kvti - state_entry_time rs))))).
Proof.
  unfold update_runstate_area. rewrite bind_get.
  destruct (m_runstate x) as [rs|] eqn:Hrs; [|discriminate].
  cbn [defined]. rewrite bind_mret, bind_unfold.
  destruct (vcpu_time x) as [kvti x0| | |] eqn:Hv; try discriminate.
  pose proof (vcpu_time_state _ _ _ Hv) as ->.
  destruct (time_get (time rs) (state rs)) as [acc|] eqn:Hacc; [|discriminate].
  cbn [defined]. rewrite bind_mret.
  intros H. exists rs, kvti, acc. repeat split; try done.
  revert H.
  unfold mbind, M_mbind, M_bind, upd_runstate, wmb, modify.
  rewrite Hrs. destruct (m_runstate_assist x); cbn; by intros [= <-].
Qed.

Lemma update_runstate_area_balanced (c new_state : Z) (x x' : xen)
    (rs : vcpu_runstate_info) :
  m_runstate x = Some rs -> runstate_balanced c rs ->
  update_runstate_area new_state x = Ret tt x' ->
  exists rs', m_runstate x' = Some rs' /\ runstate_balanced c rs'.
Proof.
  intros Hrs Hbal H.
  apply update_runstate_area_result in H
    as (rs0 & kvti & acc & Hrs0 & _ & Hacc & ->).
  rewrite Hrs in Hrs0. injection Hrs0 as <-.
  eexists. split; [reflexivity|].
  unfold runstate_balanced in *. cbn [time state_entry_time].
  rewrite (time_get_Some _ _ _ Hacc).
  destruct (entry_time_congruent (m_runstate_assist x) (system_time kvti))
    as [k1 ->].
  destruct (u64_congruent (system_time kvti - state_entry_time rs))
    as [k2 ->].
  destruct (u64_congruent
              (acc + (system_time kvti - state_entry_time rs + 2 ^ 63 * k2)))
    as [k3 ->].
  apply Z.mod_divide in Hbal as [q Hq]; [|lia].
  apply Z.mod_divide; [lia|]. exists (q + k2 + k3 - k1). lia.
Qed.

(** One call keeps the balance: either it returns early and leaves the
    area alone, or it moves the elapsed time into the accumulator of the
    state left and restarts the entry time. *)
Lemma update_runstate_balanced (c new_state next : Z) (x x' : xen)
    (rs : vcpu_runstate_info) :
  m_runstate x = Some rs -> runstate_balanced c rs ->
  update_runstate new_state next x = Ret tt x' ->
  exists rs', m_runstate x' = Some rs' /\ runstate_balanced c rs'.
Proof.
  intros Hrs Hbal. unfold update_runstate. rewrite bind_get.
  destruct (bool_decide (is_Some (m_shinfo x))); cbn [negb].
  2:{ intros [= <-]. eauto. }
  intros H. apply bind_Ret_inv in H as ([] & x1 & Hk & H).
  apply update_kernel_time_runstate in Hk. unfold same_on in Hk.
  rewrite bind_get in H.
  destruct (bool_decide (is_Some (m_user_vti x1))); cbn [negb] in H.
  2:{ injection H as <-. rewrite Hk. eauto. }
  apply bind_Ret_inv in H as ([] & x2 & Hu & H).
  apply update_user_time_runstate in Hu. unfold same_on in Hu.
  rewrite bind_get in H.
  destruct (bool_decide (is_Some (m_runstate x2))); cbn [negb] in H.
  2:{ injection H as <-. rewrite Hu, Hk. eauto. }
  eapply update_runstate_area_balanced; [|exact Hbal|exact H]. congruence.
Qed.

Lemma run_updates_balanced (c : Z) (calls : list (Z * Z)) (x x' : xen)
    (rs : vcpu_runstate_info) :
  m_runstate x = Some rs -> runstate_balanced c rs ->
  run_updates calls x = Ret tt x' ->
  exists rs', m_runstate x' = Some rs' /\ runstate_balanced c rs'.
Proof.
  revert x rs. induction calls as [|[new_state next] calls IH];
    intros x rs Hrs Hbal H.
  - injection H as <-. eauto.
  - cbn [run_updates] in H. apply bind_Ret_inv in H as ([] & x1 & H1 & H).
    destruct (update_runstate_balanced _ _ _ _ _ _ Hrs Hbal H1)
      as (rs1 & Hrs1 & Hbal1).
    by eapply IH.
Qed.

Lemma register_runstate_result (x x1 : xen) (a : Z)
    (rs0 : vcpu_runstate_info) :
  rdi (m_vcpu x) = VCPUOP_register_runstate_memory_area ->
  gm_runstate_area (gmem x) (rdx (m_vcpu x)) = Some a ->
  gm_runstate (gmem x) a = Some rs0 ->
  handle_vcpu_op x = Ret true x1 ->
  exists kvti,
    vcpu_time x = Ret kvti x /\
    m_runstate x1 =
      Some (mk_runstate RUNSTATE_running (system_time kvti)
              (time_set (time rs0) RUNSTATE_running (system_time kvti))).
Proof.
  intros Hop Harea Hrs. unfold handle_vcpu_op. rewrite bind_get.
  destruct (rsi (m_vcpu x) =? vcpuid x); [|discriminate].
  rewrite bind_expects_true, Hop.
  change (VCPUOP_register_runstate_memory_area =? VCPUOP_stop_periodic_timer)
    with false.
  change (VCPUOP_register_runstate_memory_area =? VCPUOP_stop_singleshot_timer)
    with false.
  change (VCPUOP_register_runstate_memory_area =? VCPUOP_set_singleshot_timer)
    with false.
  change (VCPUOP_register_runstate_memory_area
          =? VCPUOP_register_vcpu_time_memory_area) with false.
  change (VCPUOP_register_runstate_memory_area
          =? VCPUOP_register_runstate_memory_area) with true.
  cbv iota.
  unfold map_arg, mbind, M_mbind, M_bind, upd_runstate, modify, set_rax,
    mret, M_mret, vcpu_time.
  rewrite Harea, Hrs.
  destruct x as [v dom d1 d2 d3 d4 shi uv rs ra pe ph ps te gm bs].
  cbn [m_runstate with_runstate m_shinfo vcpuid].
  destruct shi as [sh|]; [|discriminate].
  destruct (vcpu_info sh !! Z.to_nat d2) as [kvti|]; [|discriminate].
  cbn. intros [= <-]. exists kvti. split; reflexivity.
Qed.

Lemma register_runstate_balanced (kvti_time : Z) (rs0 : vcpu_runstate_info) :
  runstate_balanced (idle_times rs0)
    (mk_runstate RUNSTATE_running kvti_time
       (time_set (time rs0) RUNSTATE_running kvti_time)).
Proof.
  unfold runstate_balanced, idle_times, time_sum. cbn.
  replace (_ - _ - _) with 0 by lia. reflexivity.
Qed.

(** *** [update_runstate] returns *)

Lemma vcpu_time_ext (x x' : xen) (kvti : vcpu_time_info) :
  m_shinfo x' = m_shinfo x -> vcpuid x' = vcpuid x ->
  vcpu_time x = Ret kvti x -> vcpu_time x' = Ret kvti x'.
Proof.
  unfold vcpu_time. intros -> ->.
  destruct (m_shinfo x) as [sh|]; [|discriminate].
  destruct (vcpu_info sh !! Z.to_nat (vcpuid x)); [|discriminate].
  by intros [= ->].
Qed.

Lemma upd_vcpu_time_Ret (f : vcpu_time_info -> vcpu_time_info) (x : xen)
    (kvti : vcpu_time_info) :
  vcpu_time x = Ret kvti x ->
  exists x', upd_vcpu_time f x = Ret tt x' /\ vcpu_time x' = Ret (f kvti) x'.
Proof.
  intros Hv. unfold upd_vcpu_time.
  rewrite (bind_Ret _ _ _ _ _ Hv), bind_get.
  unfold vcpu_time in Hv. unfold upd_shinfo, vcpu_time.
  destruct (m_shinfo x) as [sh|] eqn:Hsh; [|discriminate].
  destruct (vcpu_info sh !! Z.to_nat (vcpuid x)) as [t|] eqn:Ht;
    [|discriminate].
  injection Hv as ->. eexists. split; [reflexivity|].
  cbn [m_shinfo with_shinfo vcpuid vcpu_info sh_set_vcpu_info].
  rewrite list_lookup_insert_eq by (by eapply lookup_lt_Some).
  reflexivity.
Qed.

Lemma wmb_Ret (x : xen) (kvti : vcpu_time_info) :
  vcpu_time x = Ret kvti x ->
  exists x', wmb x = Ret tt x' /\ vcpu_time x' = Ret kvti x'.
Proof.
  intros Hv. eexists. split; [reflexivity|].
  by apply (vcpu_time_ext x).
Qed.

Lemma tsc_to_ns_defined (ticks shft mult : Z) :
  0 <= shft < 64 -> exists d, tsc_to_ns ticks shft mult = Some d.
Proof.
  intros Hs. unfold tsc_to_ns. rewrite shl64_defined by done.
  cbn [mbind option_bind]. rewrite shr64_defined by lia. eauto.
Qed.

Lemma update_kernel_time_returns (next : Z) (x : xen) :
  clock_ok x -> exists x', update_kernel_time next x = Ret tt x' /\ clock_ok x'.
Proof.
  intros (kvti & Hv & Hs). unfold update_kernel_time.
  rewrite (bind_Ret _ _ _ _ _ Hv).
  destruct (upd_vcpu_time_Ret vti_version_inc _ _ Hv) as (x1 & E1 & H1).
  rewrite (bind_Ret _ _ _ _ _ E1).
  destruct (wmb_Ret _ _ H1) as (x2 & E2 & H2).
  rewrite (bind_Ret _ _ _ _ _ E2).
  destruct (tsc_to_ns_defined (u64 (next - tsc_timestamp kvti))
              (u64 (tsc_shift kvti)) (u64 (tsc_to_system_mul kvti)))
    as (d & Hd); [pose proof (u64_range (tsc_shift kvti)); lia|].
  rewrite (bind_defined _ _ _ _ Hd).
  destruct (upd_vcpu_time_Ret
              (fun t => vti_set_system_time (u64 (system_time t + d)) t)
              _ _ H2) as (x3 & E3 & H3).
  rewrite (bind_Ret _ _ _ _ _ E3).
  destruct (upd_vcpu_time_Ret (vti_set_tsc_timestamp next) _ _ H3)
    as (x4 & E4 & H4).
  rewrite (bind_Ret _ _ _ _ _ E4).
  destruct (wmb_Ret _ _ H4) as (x5 & E5 & H5).
  rewrite (bind_Ret _ _ _ _ _ E5).
  destruct (upd_vcpu_time_Ret vti_version_inc _ _ H5) as (x6 & E6 & H6).
  exists x6. split; [exact E6|]. eexists. split; [exact H6|]. exact Hs.
Qed.

Lemma update_user_time_returns (next : Z) (x : xen) :
  is_Some (m_user_vti x) -> clock_ok x ->
  exists x', update_user_time next x = Ret tt x' /\ clock_ok x'.
Proof.
  intros [u Hu] (kvti & Hv & Hs). unfold update_user_time.
  unfold vcpu_time in Hv.
  destruct (m_shinfo x) as [sh|] eqn:Hsh; [|discriminate].
  destruct (vcpu_info sh !! Z.to_nat (vcpuid x)) as [t|] eqn:Ht;
    [|discriminate].
  injection Hv as ->.
  unfold mbind, M_mbind, M_bind, upd_user_vti, wmb, modify, vcpu_time.
  rewrite Hu. cbn. rewrite Hsh, Ht.
  eexists. split; [reflexivity|].
  exists kvti. split; [|exact Hs].
  unfold vcpu_time. cbn. by rewrite Hsh, Ht.
Qed.

Lemma time_get_defined (t : runstate_times) (i : Z) :
  0 <= i <= 3 -> exists acc, time_get t i = Some acc.
Proof.
  intros Hi.
  assert (i = 0 \/ i = 1 \/ i = 2 \/ i = 3) as [->|[->|[->| ->]]] by lia;
    cbn; eauto.
Qed.

Lemma update_runstate_area_returns (new_state : Z) (x : xen) :
  is_Some (m_runstate x) -> runstate_ok x -> clock_ok x ->
  exists x' rs',
    update_runstate_area new_state x = Ret tt x' /\
    m_runstate x' = Some rs' /\ state rs' = new_state /\ clock_ok x'.
Proof.
  intros [rs Hrs] Hok (kvti & Hv & Hs). unfold update_runstate_area.
  rewrite bind_get, Hrs. cbn [defined]. rewrite bind_mret.
  rewrite (bind_Ret _ _ _ _ _ Hv).
  destruct (time_get_defined (time rs) (state rs)) as [acc Hacc]; [by apply Hok|].
  rewrite (bind_defined _ _ _ _ Hacc).
  unfold mbind, M_mbind, M_bind, upd_runstate, wmb, modify.
  rewrite Hrs. destruct (m_runstate_assist x); cbn.
  all: eexists _, _; split; [reflexivity|]; split; [reflexivity|];
    split; [reflexivity|]; exists kvti; split; [|exact Hs];
    by apply (vcpu_time_ext x).
Qed.

(** With a readable clock and a valid recorded state, a call returns, the
    clock stays readable and the recorded state valid. *)
Lemma update_runstate_returns (new_state next : Z) (x : xen) :
  0 <= new_state <= 3 -> clock_ok x -> runstate_ok x ->
  exists x',
    update_runstate new_state next x = Ret tt x' /\
    clock_ok x' /\ runstate_ok x'.
Proof.
  intros Hns Hclock Hrun. unfold update_runstate. rewrite bind_get.
  destruct (bool_decide (is_Some (m_shinfo x))); cbn [negb]; [|by eauto].
  destruct (update_kernel_time_returns next x Hclock) as (x1 & Hk & Hc1).
  rewrite (bind_Ret _ _ _ _ _ Hk), bind_get.
  pose proof (update_kernel_time_runstate next _ _ _ Hk) as Hr1.
  unfold same_on in Hr1.
  assert (Hrun1 : runstate_ok x1) by (unfold runstate_ok; by rewrite Hr1).
  destruct (bool_decide_reflect (is_Some (m_user_vti x1))) as [Hu|Hu];
    cbn [negb]; [|by eauto].
  destruct (update_user_time_returns next x1 Hu Hc1) as (x2 & Hut & Hc2).
  rewrite (bind_Ret _ _ _ _ _ Hut), bind_get.
  pose proof (update_user_time_runstate next _ _ _ Hut) as Hr2.
  unfold same_on in Hr2.
  assert (Hrun2 : runstate_ok x2) by (unfold runstate_ok; by rewrite Hr2).
  destruct (bool_decide_reflect (is_Some (m_runstate x2))) as [Hrs|Hrs];
    cbn [negb]; [|by eauto].
  destruct (update_runstate_area_returns new_state x2 Hrs Hrun2 Hc2)
    as (x3 & rs' & Ha & Hrs' & Hst & Hc3).
  exists x3. split; [exact Ha|]. split; [exact Hc3|].
  intros rs. rewrite Hrs'. intros [= <-]. by rewrite Hst.
Qed.

Lemma run_updates_returns (calls : list (Z * Z)) (x : xen) :
  Forall (λ call, 0 <= call.1 <= 3) calls -> clock_ok x -> runstate_ok x ->
  exists x', run_updates calls x = Ret tt x'.
Proof.
  intros Hcalls. revert x.
  induction Hcalls as [|[new_state next] calls Hns _ IH]; intros x Hc Hr.
  - by exists x.
  - destruct (update_runstate_returns new_state next x Hns Hc Hr)
      as (x1 & H1 & Hc1 & Hr1).
    cbn [run_updates]. rewrite (bind_Ret _ _ _ _ _ H1). by apply IH.
Qed.

Lemma register_runstate_returns (x : xen) (a : Z)
    (rs0 : vcpu_runstate_info) :
  rdi (m_vcpu x) = VCPUOP_register_runstate_memory_area ->
  gm_runstate_area (gmem x) (rdx (m_vcpu x)) = Some a ->
  gm_runstate (gmem x) a = Some rs0 ->
  rsi (m_vcpu x) = vcpuid x -> clock_ok x ->
  exists x1, handle_vcpu_op x = Ret true x1 /\ clock_ok x1 /\ runstate_ok x1.
Proof.
  intros Hop Harea Hrs Hid (kvti & Hv & Hs). unfold handle_vcpu_op.
  rewrite bind_get, Hid, Z.eqb_refl, bind_expects_true, Hop.
  change (VCPUOP_register_runstate_memory_area =? VCPUOP_stop_periodic_timer)
    with false.
  change (VCPUOP_register_runstate_memory_area =? VCPUOP_stop_singleshot_timer)
    with false.
  change (VCPUOP_register_runstate_memory_area =? VCPUOP_set_singleshot_timer)
    with false.
  change (VCPUOP_register_runstate_memory_area
          =? VCPUOP_register_vcpu_time_memory_area) with false.
  change (VCPUOP_register_runstate_memory_area
          =? VCPUOP_register_runstate_memory_area) with true.
  cbv iota.
  unfold vcpu_time in Hv.
  destruct (m_shinfo x) as [sh|] eqn:Hsh; [|discriminate].
  destruct (vcpu_info sh !! Z.to_nat (vcpuid x)) as [t|] eqn:Ht;
    [|discriminate].
  injection Hv as ->.
  unfold map_arg, mbind, M_mbind, M_bind, upd_runstate, modify, set_rax,
    mret, M_mret, vcpu_time.
  rewrite Harea, Hrs. cbn. rewrite Hsh, Ht. cbn.
  eexists. split; [reflexivity|]. split.
  - exists kvti. split; [|exact Hs]. unfold vcpu_time. cbn.
    by rewrite Hsh, Ht.
  - intros rs. cbn. intros [= <-]. cbn. unfold RUNSTATE_running. lia.
Qed.

(** C6, as the claim has it, fails. A guest registers a zeroed runstate
    area when the clock shows 1000 ns and blocks 50 ns later: the area then
    accounts for 1050 ns, the whole system time, and not for the 50 ns
    elapsed since registration, because registration seeds
    [time[RUNSTATE_running]] with the system time. *)
Lemma runstate_accounts_for_time_before_registration :
  exists x1 x2 rs,
    handle_vcpu_op (x_register_runstate (Some vti_1000)) = Ret true x1 /\
    clock x1 = Some 1000 /\
    update_runstate RUNSTATE_blocked 50 x1 = Ret tt x2 /\
    clock x2 = Some 1050 /\
    m_runstate x2 = Some rs /\
    accounted rs 1050 = 1050 /\
    accounted rs 1050 <> 1050 - 1000.
Proof.
  eexists _, _, _.
  split; [vm_compute; reflexivity|].
  split; [reflexivity|].
  split; [vm_compute; reflexivity|].
  split; [reflexivity|].
  split; [reflexivity|].
  split; [reflexivity|].
  vm_compute. discriminate.
Qed.

(** C6, amended. From the registration of a runstate area on, and after
    any sequence of [update_runstate] calls that return (the guest leaving
    the area alone in between), the four accumulators plus the time spent
    in the current state equal the system time [now] itself, which counts
    from the clock's zero and not from the registration, plus what the
    runnable, blocked and offline accumulators held in the guest's area
    when it was registered; the arithmetic being that of the code, the
    equality holds modulo 2^63 (64-bit wrap-around, and the update marker
    in bit 63 of the entry time), and exactly when both sides are below
    2^63. The registration and the calls do return when the request names
    this vcpu, the clock is readable and every call passes one of the four
    runstates. *)
Theorem runstate_accounting (x : xen) (a : Z) (rs0 : vcpu_runstate_info)
    (calls : list (Z * Z)) :
  rdi (m_vcpu x) = VCPUOP_register_runstate_memory_area ->
  gm_runstate_area (gmem x) (rdx (m_vcpu x)) = Some a ->
  gm_runstate (gmem x) a = Some rs0 ->
  (forall x1 x2,
     handle_vcpu_op x = Ret true x1 ->
     run_updates calls x1 = Ret tt x2 ->
     exists rs,
       m_runstate x2 = Some rs /\
       forall now,
         accounted rs now mod 2 ^ 63 = (now + idle_times rs0) mod 2 ^ 63 /\
         (0 <= accounted rs now < 2 ^ 63 ->
          0 <= now + idle_times rs0 < 2 ^ 63 ->
          accounted rs now = now + idle_times rs0)) /\
  (rsi (m_vcpu x) = vcpuid x -> clock_ok x ->
   Forall (λ call, 0 <= call.1 <= 3) calls ->
   exists x1 x2,
     handle_vcpu_op x = Ret true x1 /\ run_updates calls x1 = Ret tt x2).
Proof.
  intros Hop Harea Hrs0. split.
  - intros x1 x2 Hreg Hrun.
    destruct (register_runstate_result _ _ _ _ Hop Harea Hrs0 Hreg)
      as (kvti & _ & Hrs1).
    destruct (run_updates_balanced _ _ _ _ _ Hrs1
                (register_runstate_balanced _ _) Hrun) as (rs & Hrs & Hbal).
    exists rs. split; [exact Hrs|]. intros now.
    assert (Hcong : accounted rs now mod 2 ^ 63
                    = (now + idle_times rs0) mod 2 ^ 63).
    { unfold runstate_balanced in Hbal. unfold accounted.
      apply Z.mod_divide in Hbal as [q Hq]; [|lia].
      replace (time_sum (time rs) + (now - state_entry_time rs))
        with (now + idle_times rs0 + q * 2 ^ 63) by lia.
      apply Z.mod_add. lia. }
    split; [exact Hcong|].
    intros Hl Hr. rewrite !Z.mod_small in Hcong by done. exact Hcong.
  - intros Hid Hclock Hcalls.
    destruct (register_runstate_returns _ _ _ Hop Harea Hrs0 Hid Hclock)
      as (x1 & Hreg & Hc1 & Hr1).
    destruct (run_updates_returns calls x1 Hcalls Hc1 Hr1) as (x2 & Hrun).
    eauto.
Qed.

(** The guest of the example blocks at TSC 50 and runs again at TSC 80:
    1050 ns running, 30 ns blocked, running since 1080. *)
Lemma runstate_accounting_witness :
  exists rs,
    m_runstate x_updated = Some rs /\
    clock x_updated = Some 1080 /\
    accounted rs 1080 = 1080 /\
    time_get (time rs) RUNSTATE_running = Some 1050 /\
    time_get (time rs) RUNSTATE_blocked = Some 30.
Proof.
  assert (Hreg : handle_vcpu_op (x_register_runstate (Some vti_1000))
                 = Ret true x_registered) by (vm_compute; reflexivity).
  assert (Hrun : run_updates calls_sample x_registered = Ret tt x_updated)
    by (vm_compute; reflexivity).
  assert (Hupd : m_runstate x_updated
                 = Some (mk_runstate 0 1080 (mk_times 1050 0 30 0)))
    by (vm_compute; reflexivity).
  destruct (runstate_accounting (x_register_runstate (Some vti_1000))
              0x7000 (mk_runstate 0 0 (mk_times 0 0 0 0)) calls_sample
              eq_refl eq_refl eq_refl) as [Hpartial _].
  destruct (Hpartial x_registered x_updated Hreg Hrun) as (rs & Hrs & Hacc).
  exists rs. split; [exact Hrs|].
  rewrite Hupd in Hrs. injection Hrs as <-.
  split; [vm_compute; reflexivity|].
  split; [|split; reflexivity].
  assert (Hl : 0 <= accounted (mk_runstate 0 1080 (mk_times 1050 0 30 0)) 1080
               < 2 ^ 63) by (vm_compute; split; [discriminate | reflexivity]).
  assert (Hr : 0 <= 1080 + idle_times (mk_runstate 0 0 (mk_times 0 0 0 0))
               < 2 ^ 63) by (vm_compute; split; [discriminate | reflexivity]).
  exact (proj2 (Hacc 1080) Hl Hr).
Defined.

(** ** The round trip through nanoseconds *)

(** C7, as the claim has it, fails: [ticks << shft] and the multiplication
    wrap around. 2^63 ticks at shift 1 become 0 ns and come back as 0
    ticks, which no truncation accounts for. *)
Lemma roundtrip_overflows : ~ roundtrip_within_truncation.
Proof.
  intros H. destruct (H (2 ^ 63) 1 1) as (r & Hr & Hb); [lia | lia | lia |].
  vm_compute in Hr. injection Hr as <-.
  vm_compute in Hb. by apply Hb.
Qed.

Lemma tsc_to_ns_exact (ticks shft mult : Z) :
  0 <= ticks -> 0 <= shft < 32 -> 0 < mult ->
  ticks * 2 ^ shft * mult < 2 ^ 64 ->
  tsc_to_ns ticks shft mult = Some (ticks * 2 ^ shft * mult / 2 ^ 32).
Proof.
  intros Ht Hs Hm Hov.
  assert (Hp : 0 < 2 ^ shft) by (apply Z.pow_pos_nonneg; lia).
  assert (HT : 0 <= ticks * 2 ^ shft < 2 ^ 64) by nia.
  unfold tsc_to_ns. rewrite shl64_defined by lia.
  cbn [mbind option_bind]. rewrite shr64_defined by lia.
  rewrite Z.shiftl_mul_pow2 by lia.
  replace (u64 (ticks * 2 ^ shft)) with (ticks * 2 ^ shft)
    by (unfold u64; by rewrite Z.mod_small).
  replace (u64 (ticks * 2 ^ shft * mult)) with (ticks * 2 ^ shft * mult)
    by (unfold u64; rewrite Z.mod_small; [done | nia]).
  by rewrite Z.shiftr_div_pow2 by lia.
Qed.

Lemma ns_to_tsc_exact (ns shft mult : Z) :
  0 <= ns < 2 ^ 32 -> 0 <= shft < 32 -> 0 < mult ->
  ns_to_tsc ns shft mult = Some (ns * 2 ^ 32 / mult / 2 ^ shft).
Proof.
  intros Hn Hs Hm. rewrite ns_to_tsc_defined by lia.
  rewrite Z.shiftl_mul_pow2 by lia.
  unfold u64. rewrite Z.mod_small by lia.
  by rewrite Z.shiftr_div_pow2 by lia.
Qed.

(** C7, amended. When [(ticks << shft) * mult] does not overflow 64 bits,
    the round trip is defined, never exceeds [ticks], and falls short of it
    by at most [2^32 / (mult * 2^shft) + 1]: what [>> 32] drops of the
    product, seen through [/ mult] and [>> shft]. *)
Theorem roundtrip_no_overflow (ticks shft mult : Z) :
  0 <= ticks -> 0 <= shft < 32 -> 0 < mult ->
  ticks * 2 ^ shft * mult < 2 ^ 64 ->
  exists ns r,
    tsc_to_ns ticks shft mult = Some ns /\
    ns_to_tsc ns shft mult = Some r /\
    roundtrip ticks shft mult = Some r /\
    0 <= r <= ticks /\
    (ticks - r - 1) * (mult * 2 ^ shft) < 2 ^ 32 /\
    ticks - r <= truncation_bound shft mult.
Proof.
  intros Ht Hs Hm Hov.
  assert (Hp : 0 < 2 ^ shft) by (apply Z.pow_pos_nonneg; lia).
  set (T := ticks * 2 ^ shft) in *.
  set (ns := T * mult / 2 ^ 32).
  set (D := ns * 2 ^ 32 / mult).
  set (r := D / 2 ^ shft).
  assert (HT : 0 <= T) by (unfold T; nia).
  assert (HP : 0 <= T * mult) by nia.
  assert (Hns : 0 <= ns < 2 ^ 32).
  { unfold ns. split; [apply Z.div_pos; lia|].
    apply Z.div_lt_upper_bound; lia. }
  assert (HQ : T * mult - 2 ^ 32 < ns * 2 ^ 32 <= T * mult).
  { unfold ns. pose proof (Z.div_mod (T * mult) (2 ^ 32)).
    pose proof (Z.mod_pos_bound (T * mult) (2 ^ 32)). lia. }
  assert (HD : D * mult <= ns * 2 ^ 32 < D * mult + mult).
  { unfold D. pose proof (Z.div_mod (ns * 2 ^ 32) mult).
    pose proof (Z.mod_pos_bound (ns * 2 ^ 32) mult). lia. }
  assert (Hr : r * 2 ^ shft <= D < r * 2 ^ shft + 2 ^ shft).
  { unfold r. pose proof (Z.div_mod D (2 ^ shft)).
    pose proof (Z.mod_pos_bound D (2 ^ shft)). lia. }
  assert (HD0 : 0 <= D) by (unfold D; apply Z.div_pos; lia).
  assert (Hr0 : 0 <= r) by (unfold r; apply Z.div_pos; lia).
  assert (HDT : D <= T) by nia.
  assert (Hrt : r <= ticks) by (unfold T in HDT; nia).
  assert (Hlow : (ticks - r - 1) * (mult * 2 ^ shft) < 2 ^ 32).
  { assert ((ticks - r - 1) * 2 ^ shft <= T - D - 1) by (unfold T; lia).
    assert ((ticks - r - 1) * 2 ^ shft * mult <= (T - D - 1) * mult)
      by (apply Z.mul_le_mono_nonneg_r; lia).
    lia. }
  exists ns, r.
  assert (H1 : tsc_to_ns ticks shft mult = Some ns)
    by (by apply tsc_to_ns_exact).
  assert (H2 : ns_to_tsc ns shft mult = Some r)
    by (by apply ns_to_tsc_exact).
  split; [exact H1|]. split; [exact H2|].
  split; [unfold roundtrip; by rewrite H1|].
  split; [lia|]. split; [exact Hlow|].
  unfold truncation_bound.
  destruct (Z.le_gt_cases (ticks - r - 1) 0) as [Hle|Hgt].
  - assert (0 <= 2 ^ 32 / (mult * 2 ^ shft)) by (apply Z.div_pos; nia). lia.
  - assert (ticks - r - 1 <= 2 ^ 32 / (mult * 2 ^ shft))
      by (apply Z.div_le_lower_bound; nia).
    lia.
Qed.

(** 1000 ticks at one nanosecond per tick come back as 1000 ticks. *)
Lemma roundtrip_no_overflow_witness :
  roundtrip 1000 1 (2 ^ 31) = Some 1000.
Proof.
  destruct (roundtrip_no_overflow 1000 1 (2 ^ 31))
    as (ns & r & Hns & Hr & Hrt & _); [lia | lia | lia | lia |].
  assert (Hv : roundtrip 1000 1 (2 ^ 31) = Some 1000)
    by (vm_compute; reflexivity).
  assert (Hr1000 : r = 1000) by congruence.
  rewrite Hr1000 in Hrt. exact Hrt.
Defined.

(** ** Identity allocation *)

Lemma xen_ctor_returns (v : xen_vcpu) (d : bool) (g : guest_memory) (c : Z) :
  exists x,
    xen_ctor v d g c = Ret (if d then c else u32 (c + 1)) x /\
    initdom x = d /\ vcpuid x = 0 /\ apicid x = 0 /\ acpiid x = 0 /\
    domid x = (if d then 0 else u32 (c + 1)).
Proof.
  unfold xen_ctor.
  destruct (make_xen_ids_returns c (xen_new v d g))
    as (c' & x & H & Hv & Ha & Hc & Hi & Hd).
  change (initdom (xen_new v d g)) with d in Hi, Hd. exists x.
  destruct d; destruct Hd as [Hd ->]; by repeat split.
Qed.

Lemma first_domids_from (c : Z) (n : nat) :
  (λ k : nat, c + Z.of_nat k) <$> seq 1 (S n) =
  (c + 1) :: ((λ k : nat, c + 1 + Z.of_nat k) <$> seq 1 n).
Proof.
  change (seq 1 (S n)) with (1%nat :: seq 2 n).
  rewrite fmap_cons. f_equal.
  rewrite <- fmap_S_seq, <- list_fmap_compose.
  apply list_fmap_ext. intros i k _. cbn. lia.
Qed.

(** Below the wrap-around of the counter, the guests get consecutive ids. *)
Lemma construct_all_below_wrap (v : xen_vcpu) (g : guest_memory)
    (doms : list bool) (c : Z) :
  0 <= c ->
  c + Z.of_nat (length (filter (λ d : bool, d = false) doms)) < 2 ^ 32 ->
  exists xs,
    construct_all v g doms c = Some xs /\
    initdom <$> xs = doms /\
    Forall (λ x, vcpuid x = 0 /\ apicid x = 0 /\ acpiid x = 0 /\
                 (initdom x = true -> domid x = 0)) xs /\
    guest_domids xs =
      (λ k : nat, c + Z.of_nat k)
        <$> seq 1 (length (filter (λ d : bool, d = false) doms)).
Proof.
  revert c. induction doms as [|d ds IH]; intros c Hc Hlt.
  - exists []. by repeat split.
  - destruct (xen_ctor_returns v d g c) as (x & Hx & Hi & Hv & Ha & Hp & Hd).
    cbn [construct_all]. rewrite Hx. destruct d.
    + rewrite filter_cons_False in Hlt |- * by done.
      destruct (IH c Hc Hlt) as (xs & -> & Hdoms & Hall & Hids).
      exists (x :: xs). cbn [mbind option_bind].
      split; [reflexivity|].
      split; [cbn; by rewrite Hi, Hdoms|].
      split; [constructor; [by repeat split | exact Hall]|].
      unfold guest_domids in *.
      rewrite filter_cons_False by (by rewrite Hi). exact Hids.
    + rewrite filter_cons_True in Hlt |- * by done.
      cbn [length] in Hlt |- *.
      assert (Hu : u32 (c + 1) = c + 1)
        by (unfold u32; apply Z.mod_small; lia).
      rewrite Hu in *.
      destruct (IH (c + 1)) as (xs & -> & Hdoms & Hall & Hids); [lia | lia |].
      exists (x :: xs). cbn [mbind option_bind].
      split; [reflexivity|].
      split; [cbn; by rewrite Hi, Hdoms|].
      split; [constructor; [repeat split; try done; by rewrite Hi | exact Hall]|].
      unfold guest_domids in *.
      rewrite filter_cons_True by (by rewrite Hi).
      cbn [fmap list_fmap]. rewrite first_domids_from, Hd. f_equal.
      exact Hids.
Qed.

Lemma guest_counter_step_eq (v : xen_vcpu) (g : guest_memory) (c : Z) :
  guest_counter_step v g c = u32 (c + 1).
Proof.
  unfold guest_counter_step.
  destruct (xen_ctor_returns v false g c) as (x & -> & _). reflexivity.
Qed.

(** The counter after [n] guest constructions, wrap-around included. *)
Lemma counter_after_eq (v : xen_vcpu) (g : guest_memory) (n : N) :
  counter_after v g n = u32 (Z.of_N n).
Proof.
  unfold counter_after. induction n as [|n IH] using N.peano_ind.
  - reflexivity.
  - rewrite N.iter_succ, IH, guest_counter_step_eq, N2Z.inj_succ.
    unfold u32. rewrite Zplus_mod_idemp_l. f_equal; lia.
Qed.

(** [counter_after] is the counter [construct_all] threads: the guest at
    position [i] of a sequence of guests is constructed from it. *)
Lemma construct_all_counter (v : xen_vcpu) (g : guest_memory) (n i : nat)
    (c : Z) (xs : list xen) (x : xen) :
  construct_all v g (replicate n false) c = Some xs ->
  xs !! i = Some x ->
  exists c',
    xen_ctor v false g (N.iter (N.of_nat i) (guest_counter_step v g) c)
      = Ret c' x.
Proof.
  revert i c xs. induction n as [|n IH]; intros i c xs Hxs Hi.
  - injection Hxs as <-. by rewrite lookup_nil in Hi.
  - cbn [replicate construct_all] in Hxs.
    destruct (xen_ctor v false g c) as [c1 x0| | |] eqn:Hc; try discriminate.
    destruct (construct_all v g (replicate n false) c1) as [xs'|] eqn:Hxs';
      [|discriminate].
    injection Hxs as <-. destruct i as [|i].
    + injection Hi as <-. eauto.
    + rewrite Nat2N.inj_succ, N.iter_succ_r.
      replace (guest_counter_step v g c) with c1
        by (unfold guest_counter_step; by rewrite Hc).
      by eapply IH.
Qed.

(** C4, as the claim has it, fails for long sequences: [xen_domid] is a
    [uint32_t], so after 2^32 - 1 guest constructions it holds 2^32 - 1 and
    the next construction, the 2^32-th, wraps it around: that guest gets
    the domain id 0, the id of the initial domain, where the claim says
    2^32. *)
Lemma make_xen_ids_wraps :
  counter_after vcpu0 gmem0 4294967295 = 4294967295 /\
  exists x,
    xen_ctor vcpu0 false gmem0 (counter_after vcpu0 gmem0 4294967295)
      = Ret 0 x /\
    initdom x = false /\
    domid x = 0 /\
    domid x <> 4294967296.
Proof.
  rewrite counter_after_eq.
  replace (u32 (Z.of_N 4294967295)) with 4294967295 by reflexivity.
  split; [reflexivity|].
  destruct (xen_ctor_returns vcpu0 false gmem0 4294967295)
    as (x & Hx & Hi & _ & _ & _ & Hd).
  replace (u32 (4294967295 + 1)) with 0 in Hx, Hd by reflexivity.
  exists x. repeat split; try done. by rewrite Hd.
Qed.

(** C4, amended. The initial domain gets [{0, 0, 0, 0}]. In any sequence
    of constructions with fewer than 2^32 objects of non-initial domains,
    every construction returns (the postcondition
    [vcpuid < XEN_LEGACY_MAX_VCPUS] holds), every object has
    [vcpuid = apicid = acpiid = 0], and the non-initial ones get the domain
    ids 1, 2, ..., N in order, without repeats. *)
Theorem make_xen_ids_sequence (v : xen_vcpu) (g : guest_memory)
    (doms : list bool) :
  let N := length (filter (λ d : bool, d = false) doms) in
  Z.of_nat N < 2 ^ 32 ->
  exists xs,
    construct_all v g doms 0 = Some xs /\
    initdom <$> xs = doms /\
    Forall (λ x, vcpuid x = 0 /\ apicid x = 0 /\ acpiid x = 0 /\
                 vcpuid x < XEN_LEGACY_MAX_VCPUS /\
                 (initdom x = true -> domid x = 0)) xs /\
    guest_domids xs = first_domids N /\
    NoDup (guest_domids xs).
Proof.
  intros N HN.
  destruct (construct_all_below_wrap v g doms 0) as (xs & Hxs & Hdoms & Hall & Hids);
    [lia | fold N; lia |].
  exists xs. split; [exact Hxs|]. split; [exact Hdoms|].
  assert (Hfirst : guest_domids xs = first_domids N).
  { rewrite Hids. unfold first_domids. fold N.
    apply list_fmap_ext. intros i k _. lia. }
  split; [|split; [exact Hfirst|]].
  - eapply Forall_impl; [exact Hall|].
    intros x (Hv & Ha & Hc & Hd). rewrite Hv. by repeat split.
  - rewrite Hfirst. unfold first_domids.
    apply NoDup_fmap_2; [apply Nat2Z.inj' | apply NoDup_seq].
Qed.

(** A guest, the initial domain and two more guests: ids 1, 0, 2, 3. *)
Lemma make_xen_ids_sequence_witness :
  exists xs,
    construct_all vcpu0 gmem0 [false; true; false; false] 0 = Some xs /\
    domid <$> xs = [1; 0; 2; 3] /\
    guest_domids xs = [1; 2; 3].
Proof.
  destruct (make_xen_ids_sequence vcpu0 gmem0 [false; true; false; false])
    as (xs & Hxs & _ & _ & Hids & _); [vm_compute; reflexivity|].
  exists xs. split; [exact Hxs|]. split; [|exact Hids].
  assert (Hv : construct_all vcpu0 gmem0 [false; true; false; false] 0
               = Some xs) by exact Hxs.
  vm_compute in Hv. injection Hv as <-. reflexivity.
Defined.

(** * Further properties of the file *)

(** ** Small helpers *)

(** X1: [valid_cb_via] accepts exactly the values whose top byte is
    [HVM_PARAM_CALLBACK_TYPE_VECTOR] and whose low byte, the vector, is at
    least 0x20; its test [vector > 0xFF] never fires. *)
Theorem valid_cb_via_spec (via : Z) :
  valid_cb_via via = true <->
  (via / 2 ^ 56) mod 256 = HVM_PARAM_CALLBACK_TYPE_VECTOR /\
  0x20 <= via mod 256.
Proof.
  unfold valid_cb_via.
  replace HVM_PARAM_CALLBACK_IRQ_TYPE_MASK with (Z.shiftl (Z.ones 8) 56)
    by reflexivity.
  rewrite Z.shiftr_land, Z.shiftr_shiftl_l by lia.
  replace (56 - 56) with 0 by lia. rewrite Z.shiftl_0_r.
  rewrite Z.land_ones, Z.shiftr_div_pow2 by lia.
  replace 0xFF with (Z.ones 8) by reflexivity. rewrite Z.land_ones by lia.
  change (2 ^ 8) with 256.
  pose proof (Z.mod_pos_bound via 256).
  destruct (Z.eqb_spec ((via / 2 ^ 56) mod 256) HVM_PARAM_CALLBACK_TYPE_VECTOR)
    as [Ht|Ht]; cbn [negb].
  - destruct (Z.ltb_spec (via mod 256) 32) as [Hv|Hv]; cbn [orb].
    + split; [discriminate | lia].
    + destruct (Z.ltb_spec (Z.ones 8) (via mod 256)) as [Hw|Hw].
      * change (Z.ones 8) with 255 in Hw. lia.
      * split; [by split | done].
  - split; [discriminate | tauto].
Qed.

Lemma valid_cb_via_spec_witness :
  valid_cb_via 0x0200000000000030 = true /\
  valid_cb_via 0x020000000000001F = false.
Proof.
  split.
  - apply (proj2 (valid_cb_via_spec 0x0200000000000030)).
    split; [reflexivity | discriminate].
  - destruct (valid_cb_via 0x020000000000001F) eqn:Hv; [|reflexivity].
    apply (proj1 (valid_cb_via_spec 0x020000000000001F)) in Hv.
    destruct Hv as [_ Hv]. exfalso. revert Hv. vm_compute. intros H.
    by apply H.
Defined.

(** X2: [do_div] with a divisor that fits 32 bits is exact division with
    remainder on the 64-bit dividend; a divisor that is a multiple of 2^32
    is narrowed to zero, and the division is undefined. *)
Theorem do_div_exact (n base : Z) :
  0 <= n < 2 ^ 64 ->
  (0 < base < 2 ^ 32 ->
     do_div n base = Some (n / base, n mod base) /\
     n = base * (n / base) + n mod base /\
     0 <= n mod base < base) /\
  (base mod 2 ^ 32 = 0 -> do_div n base = None).
Proof.
  intros Hn. split.
  - intros Hb. unfold do_div.
    assert (Hu : u32 base = base) by (unfold u32; apply Z.mod_small; lia).
    assert (Hn64 : u64 n = n) by (unfold u64; by apply Z.mod_small).
    rewrite Hu, Hn64.
    pose proof (Z.mod_pos_bound n base) as Hr.
    destruct (Z.eqb_spec base 0) as [?|_]; [lia|].
    split; [|split; [apply Z.div_mod; lia | lia]].
    do 2 f_equal. unfold u32. apply Z.mod_small. lia.
  - intros Hb. unfold do_div, u32. by rewrite Hb.
Qed.

Lemma do_div_exact_witness :
  do_div 1699999997999999998 1000000000 = Some (1699999997, 999999998) /\
  do_div 5 (2 ^ 32) = None.
Proof.
  destruct (do_div_exact 1699999997999999998 1000000000) as [He _]; [lia|].
  destruct (do_div_exact 5 (2 ^ 32)) as [_ Hz]; [lia|].
  split; [exact (proj1 (He ltac:(lia))) | exact (Hz eq_refl)].
Defined.

(** ** Unrecognised operations *)

(** Deciding the tests of a chain of cases against a value that is none of
    the labels. *)
Ltac not_a_label :=
  rewrite !not_elem_of_cons; repeat split;
  try (let Hc := fresh in intros Hc; vm_compute in Hc; discriminate Hc);
  apply not_elem_of_nil.

Ltac none_of_the_cases H :=
  repeat match goal with
         | |- context [?a =? ?b] =>
             destruct (Z.eqb_spec a b) as [Heq|_];
             [exfalso; apply H; rewrite Heq;
              repeat first [apply list_elem_of_here
                           | apply list_elem_of_further]|]
         end.

(** X3: a hypercall whose number has no case in [xen::hypercall] returns
    [false] and leaves the object as it was, whatever the collaborators. *)
Theorem hypercall_unknown_number (E : env) (x : xen) :
  rax (m_vcpu x) ∉ hypercall_numbers -> hypercall E x = Ret false x.
Proof.
  intros Hnot. unfold hypercall. rewrite bind_get.
  unfold hypercall_numbers in Hnot. none_of_the_cases Hnot. reflexivity.
Qed.

Lemma hypercall_unknown_number_witness :
  hypercall env_throwing (xen_new (vcpu_call 29 0 0 0) false gmem0) =
  Ret false (xen_new (vcpu_call 29 0 0 0) false gmem0).
Proof.
  apply hypercall_unknown_number. unfold hypercall_numbers. not_a_label.
Defined.

(** X4: a sub-operation that the handler has no case for returns [false]
    without calling any collaborator and without touching the object, in
    the memory, version, event-channel, grant-table, physdev and HVM
    handlers; in the vcpu handler too, once the vcpu id check has passed. *)
Theorem handlers_unknown_sub_operation (E : env) (x : xen) :
  let op := rdi (m_vcpu x) in
  (op ∉ memory_ops -> handle_memory_op E x = Ret false x) /\
  (op ∉ xen_version_ops -> handle_xen_version E x = Ret false x) /\
  (op ∉ event_channel_ops -> handle_event_channel_op E x = Ret false x) /\
  (op ∉ grant_table_ops -> handle_grant_table_op E x = Ret false x) /\
  (op <> PHYSDEVOP_pci_device_add -> handle_physdev_op E x = Ret false x) /\
  (op ∉ hvm_ops -> handle_hvm_op E x = Ret false x) /\
  (op ∉ vcpu_ops -> rsi (m_vcpu x) = vcpuid x ->
     handle_vcpu_op x = Ret false x).
Proof.
  intros op. repeat split.
  - intros Hnot. unfold handle_memory_op, try_catchall. rewrite bind_get.
    fold op. unfold memory_ops in Hnot. none_of_the_cases Hnot. reflexivity.
  - intros Hnot. unfold handle_xen_version, try_catchall. rewrite bind_get.
    fold op. unfold xen_version_ops in Hnot. none_of_the_cases Hnot.
    reflexivity.
  - intros Hnot. unfold handle_event_channel_op, try_catchall.
    rewrite bind_get. fold op. unfold event_channel_ops in Hnot.
    none_of_the_cases Hnot. reflexivity.
  - intros Hnot. unfold handle_grant_table_op, try_catchall.
    rewrite bind_get. fold op. unfold grant_table_ops in Hnot.
    none_of_the_cases Hnot. reflexivity.
  - intros Hnot. unfold handle_physdev_op, try_catchall. rewrite bind_get.
    fold op. apply Z.eqb_neq in Hnot. rewrite Hnot. reflexivity.
  - intros Hnot. unfold handle_hvm_op. rewrite bind_get.
    fold op. unfold hvm_ops in Hnot. none_of_the_cases Hnot. reflexivity.
  - intros Hnot Hid. unfold handle_vcpu_op.
    rewrite bind_get, Hid, Z.eqb_refl, bind_expects_true.
    fold op. unfold vcpu_ops in Hnot. none_of_the_cases Hnot. reflexivity.
Qed.

Lemma handlers_unknown_sub_operation_witness :
  handle_memory_op env_throwing
    (xen_new (vcpu_call __HYPERVISOR_memory_op 1000 0 0) false gmem0) =
  Ret false (xen_new (vcpu_call __HYPERVISOR_memory_op 1000 0 0) false gmem0)
  /\
  handle_vcpu_op
    (xen_new (vcpu_call __HYPERVISOR_vcpu_op 1000 0 0) false gmem0) =
  Ret false (xen_new (vcpu_call __HYPERVISOR_vcpu_op 1000 0 0) false gmem0).
Proof.
  destruct (handlers_unknown_sub_operation env_throwing
              (xen_new (vcpu_call __HYPERVISOR_memory_op 1000 0 0) false gmem0))
    as (Hmem & _).
  destruct (handlers_unknown_sub_operation env_throwing
              (xen_new (vcpu_call __HYPERVISOR_vcpu_op 1000 0 0) false gmem0))
    as (_ & _ & _ & _ & _ & _ & Hvcpu).
  split.
  - apply Hmem. unfold memory_ops. not_a_label.
  - apply Hvcpu; [unfold vcpu_ops; not_a_label | reflexivity].
Defined.

(** ** HVM, XSM and platform operations *)

(** X5: [HVMOP_set_param]. An argument that does not map gives [false]; an
    index other than [HVM_PARAM_CALLBACK_IRQ] gives [false]; a callback
    value that [valid_cb_via] rejects is answered with [-EINVAL] and the
    event channel is not told; a valid one is passed on as its low byte
    and answered with 0, and an exception of the event channel becomes
    [false]. No exception leaves the handler. *)
Theorem handle_hvm_op_set_param (E : env) (x : xen) :
  rdi (m_vcpu x) = HVMOP_set_param ->
  (gm_hvm_param (gmem x) (rsi (m_vcpu x)) = None ->
     handle_hvm_op E x = Ret false x) /\
  (forall arg,
     gm_hvm_param (gmem x) (rsi (m_vcpu x)) = Some arg ->
     (hp_index arg <> HVM_PARAM_CALLBACK_IRQ ->
        handle_hvm_op E x = Ret false x) /\
     (hp_index arg = HVM_PARAM_CALLBACK_IRQ ->
      valid_cb_via (hp_value arg) = false ->
        handle_hvm_op E x =
          Ret true (with_vcpu (vcpu_set_rax (u64 (- EINVAL))) x)) /\
     (hp_index arg = HVM_PARAM_CALLBACK_IRQ ->
      valid_cb_via (hp_value arg) = true ->
        (forall x',
           evtchn_set_callback_via E (hp_value arg mod 256) x = Ret tt x' ->
           handle_hvm_op E x = Ret true (with_vcpu (vcpu_set_rax 0) x')) /\
        (forall x',
           evtchn_set_callback_via E (hp_value arg mod 256) x = Throw x' ->
           handle_hvm_op E x = Ret false x'))) /\
  (forall x', handle_hvm_op E x <> Throw x').
Proof.
  intros Hop.
  assert (Hbody : handle_hvm_op E x =
            try_catchall E (
              arg ← map_arg gm_hvm_param (rsi (m_vcpu x));
              if hp_index arg =? HVM_PARAM_CALLBACK_IRQ then
                (if valid_cb_via (hp_value arg) then
                   evtchn_set_callback_via E (Z.land (hp_value arg) 0xFF);;
                   set_rax 0
                 else set_rax (u64 (- EINVAL)));;
                mret true
              else mret false) x).
  { unfold handle_hvm_op. rewrite bind_get, Hop. reflexivity. }
  rewrite Hbody. split; [|split].
  - intros Hmap. unfold try_catchall. rewrite bind_unfold.
    unfold map_arg. by rewrite Hmap.
  - intros arg Hmap.
    assert (Hlow : Z.land (hp_value arg) 0xFF = hp_value arg mod 256).
    { replace 0xFF with (Z.ones 8) by reflexivity.
      by rewrite Z.land_ones by lia. }
    unfold try_catchall. rewrite bind_unfold. unfold map_arg.
    rewrite Hmap. split; [|split].
    + intros Hidx. apply Z.eqb_neq in Hidx. by rewrite Hidx.
    + intros Hidx Hbad. rewrite Hidx, Hbad. reflexivity.
    + intros Hidx Hgood. rewrite Hidx, Z.eqb_refl, Hgood, Hlow.
      cbv beta iota.
      split; intros x' Hcb; rewrite !bind_unfold, Hcb; reflexivity.
  - intros x'. apply try_catchall_contains.
Qed.

Lemma handle_hvm_op_set_param_witness :
  handle_hvm_op env_throwing
    (xen_new (vcpu_call __HYPERVISOR_hvm_op HVMOP_set_param 0x9000 0)
       false gmem0) =
  Ret false
    (xen_new (vcpu_call __HYPERVISOR_hvm_op HVMOP_set_param 0x9000 0)
       false gmem0).
Proof.
  destruct (handle_hvm_op_set_param env_throwing
              (xen_new (vcpu_call __HYPERVISOR_hvm_op HVMOP_set_param 0x9000 0)
                 false gmem0) eq_refl) as (Hunmapped & _).
  exact (Hunmapped eq_refl).
Defined.

(** X6: the XSM op, called by the initial domain with a mapped argument, is
    answered with [-EACCES] and [true] whatever interface version and
    command the argument carries, and changes nothing but [rax]. *)
Theorem handle_xsm_op_denies (x : xen) (flop : xen_flask_op) :
  initdom x = true ->
  gm_flask_op (gmem x) (rdi (m_vcpu x)) = Some flop ->
  handle_xsm_op x = Ret true (with_vcpu (vcpu_set_rax (u64 (- EACCES))) x) /\
  u64 (- EACCES) = 2 ^ 64 - 13.
Proof.
  intros Hdom Hmap. split; [|reflexivity]. unfold handle_xsm_op.
  rewrite bind_get, Hdom, bind_expects_true, bind_unfold.
  unfold map_arg. rewrite Hmap.
  by destruct (negb (fl_interface_version flop =? XEN_FLASK_INTERFACE_VERSION)).
Qed.

Lemma handle_xsm_op_denies_witness :
  handle_xsm_op x_xsm = Ret true (with_vcpu (vcpu_set_rax (2 ^ 64 - 13)) x_xsm).
Proof.
  exact (proj1 (handle_xsm_op_denies x_xsm
                  (mk_flask_op FLASK_SID_TO_CONTEXT 7) eq_refl eq_refl)).
Defined.






(** ** More on the singleshot timer *)

(** X9: the deadline that equals the system time counts as past: with
    [VCPU_SSHOTTMR_future] the request fails with [-ETIME] and changes
    nothing, without it the timer is armed with zero ticks. *)
Theorem set_timer_deadline_now (x : xen) (sst : vcpu_set_singleshot_timer)
    (vti : vcpu_time_info) :
  gm_sshot (gmem x) (rdx (m_vcpu x)) = Some sst ->
  vcpu_time x = Ret vti x ->
  timeout_abs_ns sst = system_time vti ->
  (Z.land (ss_flags sst) VCPU_SSHOTTMR_future <> 0 ->
     set_timer x = Ret (- ETIME) x) /\
  (Z.land (ss_flags sst) VCPU_SSHOTTMR_future = 0 ->
     set_timer x = Ret 0 (armed 0 x)).
Proof.
  intros Hmap Hvti Hnow.
  assert (Hbody : set_timer x =
            (if negb (Z.land (ss_flags sst) VCPU_SSHOTTMR_future =? 0)
             then mret (- ETIME) else program_timer 0) x).
  { unfold set_timer. rewrite bind_get, bind_unfold. unfold map_arg at 1.
    rewrite Hmap, (bind_Ret _ _ _ _ _ Hvti), Hnow, Z.leb_refl.
    reflexivity. }
  rewrite Hbody. split; intros Hflag.
  - apply Z.eqb_neq in Hflag. by rewrite Hflag.
  - rewrite Hflag. reflexivity.
Qed.

Lemma set_timer_deadline_now_witness :
  set_timer
    (with_shinfo (Some (mk_shinfo [mk_vti 0 0 500 (2 ^ 31) 1 0] 0 0 0 0))
       (x_timer 0x1000)) =
  Ret (- ETIME)
    (with_shinfo (Some (mk_shinfo [mk_vti 0 0 500 (2 ^ 31) 1 0] 0 0 0 0))
       (x_timer 0x1000)).
Proof.
  refine (proj1 (set_timer_deadline_now
                   (with_shinfo
                      (Some (mk_shinfo [mk_vti 0 0 500 (2 ^ 31) 1 0] 0 0 0 0))
                      (x_timer 0x1000))
                   (mk_sshot 500 1) (mk_vti 0 0 500 (2 ^ 31) 1 0)
                   eq_refl eq_refl eq_refl) _).
  discriminate.
Defined.

(** X10: [VCPUOP_set_singleshot_timer] returns [true] whenever [set_timer]
    returns, also when it refuses the deadline: the status, [-ETIME]
    included, goes to [rax] as a 64-bit value, the handlers count as
    installed from then on, and the timer is as [set_timer] left it. An
    exception of [set_timer] (a request that does not map) leaves the
    handler. *)
Theorem handle_vcpu_op_set_singleshot (x : xen) :
  rsi (m_vcpu x) = vcpuid x ->
  rdi (m_vcpu x) = VCPUOP_set_singleshot_timer ->
  (forall r x1, set_timer x = Ret r x1 ->
     exists x',
       handle_vcpu_op x = Ret true x' /\
       rax (m_vcpu x') = u64 r /\
       m_pet_hdlrs_added x' = true /\
       m_pet_enabled x' = m_pet_enabled x1 /\
       preemption_timer (m_vcpu x') = preemption_timer (m_vcpu x1) /\
       preemption_timer_enabled (m_vcpu x')
         = preemption_timer_enabled (m_vcpu x1)) /\
  (forall x1, set_timer x = Throw x1 -> handle_vcpu_op x = Throw x1) /\
  u64 (- ETIME) = 2 ^ 64 - 62.
Proof.
  intros Hid Hop.
  assert (Hbody : handle_vcpu_op x =
            (r ← set_timer;
             set_rax (u64 r);;
             x' ← get;
             (if negb (m_pet_hdlrs_added x')
              then modify (with_pet_hdlrs_added true) else mret tt);;
             mret true) x).
  { unfold handle_vcpu_op.
    rewrite bind_get, Hid, Z.eqb_refl, bind_expects_true, Hop.
    reflexivity. }
  rewrite Hbody. split; [|split; [|reflexivity]].
  - intros r x1 Hset. rewrite (bind_Ret _ _ _ _ _ Hset).
    unfold set_rax. rewrite bind_modify, bind_get.
    change (m_pet_hdlrs_added (with_vcpu (vcpu_set_rax (u64 r)) x1))
      with (m_pet_hdlrs_added x1).
    destruct (m_pet_hdlrs_added x1) eqn:Hadded; cbn [negb].
    + eexists. split; [reflexivity|]. by repeat split.
    + eexists. split; [reflexivity|]. by repeat split.
  - intros x1 Hthrow. by rewrite bind_unfold, Hthrow.
Qed.

Lemma handle_vcpu_op_set_singleshot_witness :
  exists x',
    handle_vcpu_op (x_timer 0x1000) = Ret true x' /\
    rax (m_vcpu x') = 2 ^ 64 - 62 /\
    m_pet_hdlrs_added x' = true /\
    m_pet_enabled x' = false.
Proof.
  destruct (handle_vcpu_op_set_singleshot (x_timer 0x1000) eq_refl eq_refl)
    as (Hret & _ & _).
  destruct (Hret (- ETIME) (x_timer 0x1000)) as (x' & H & Hrax & Hh & He & _).
  { vm_compute. reflexivity. }
  exists x'. split; [exact H|]. split; [exact Hrax|]. split; [exact Hh|].
  exact He.
Defined.

(** X11: [VCPUOP_stop_singleshot_timer] returns [true] with 0 in [rax] and
    leaves the timer disarmed, in the object and in the hardware, whatever
    it was before; the tick count stays in place, and a second stop changes
    nothing more. *)
Theorem handle_vcpu_op_stop_singleshot (x : xen) :
  rsi (m_vcpu x) = vcpuid x ->
  rdi (m_vcpu x) = VCPUOP_stop_singleshot_timer ->
  exists x',
    handle_vcpu_op x = Ret true x' /\
    rax (m_vcpu x') = 0 /\
    m_pet_enabled x' = false /\
    preemption_timer_enabled (m_vcpu x') = false /\
    preemption_timer (m_vcpu x') = preemption_timer (m_vcpu x) /\
    handle_vcpu_op x' = Ret true x'.
Proof.
  intros Hid Hop.
  assert (Hstop : forall y, rsi (m_vcpu y) = vcpuid y ->
            rdi (m_vcpu y) = VCPUOP_stop_singleshot_timer ->
            handle_vcpu_op y =
              Ret true
                (with_vcpu (vcpu_set_rax 0)
                   (with_pet_enabled false
                      (with_vcpu (vcpu_enable_preemption_timer false) y)))).
  { intros y Hy Hoy. unfold handle_vcpu_op.
    rewrite bind_get, Hy, Z.eqb_refl, bind_expects_true, Hoy.
    reflexivity. }
  eexists. split; [by apply Hstop|]. repeat split.
  rewrite Hstop by done. reflexivity.
Qed.

Lemma handle_vcpu_op_stop_singleshot_witness :
  exists x',
    handle_vcpu_op
      (with_vcpu (fun _ => vcpu_call __HYPERVISOR_vcpu_op
                             VCPUOP_stop_singleshot_timer 0 0)
         (armed 125 (x_timer 0x3000))) = Ret true x' /\
    m_pet_enabled x' = false.
Proof.
  destruct (handle_vcpu_op_stop_singleshot
              (with_vcpu (fun _ => vcpu_call __HYPERVISOR_vcpu_op
                                     VCPUOP_stop_singleshot_timer 0 0)
                 (armed 125 (x_timer 0x3000))) eq_refl eq_refl)
    as (x' & H & _ & He & _).
  exists x'. by split.
Defined.

(** X12: [steal_pet_ticks] does nothing while no exit TSC is recorded.
    Otherwise it takes from the preemption timer the ticks elapsed between
    the exit and the last clock stamp,
    [(tsc_timestamp - m_tsc_at_exit) >> m_pet_shift], stopping at zero: the
    timer never grows and never wraps below zero. *)
Theorem steal_pet_ticks_saturates (x : xen) :
  (m_tsc_at_exit x = 0 -> steal_pet_ticks x = Ret tt x) /\
  (forall kvti,
     m_tsc_at_exit x <> 0 ->
     vcpu_time x = Ret kvti x ->
     0 <= m_pet_shift x < 64 ->
     let pet := preemption_timer (m_vcpu x) in
     let stolen :=
       u64 (tsc_timestamp kvti - m_tsc_at_exit x) / 2 ^ m_pet_shift x in
     steal_pet_ticks x =
       Ret tt
         (with_vcpu (vcpu_set_preemption_timer (pet_after_steal pet stolen))
            x) /\
     0 <= stolen /\
     (0 <= pet ->
        0 <= pet_after_steal pet stolen <= pet /\
        pet_after_steal pet stolen = Z.max 0 (pet - stolen))).
Proof.
  split.
  - intros Hz. unfold steal_pet_ticks. by rewrite bind_get, Hz.
  - intros kvti Hnz Hv Hs pet stolen.
    assert (Hst : 0 <= stolen).
    { unfold stolen. apply Z.div_pos; [apply u64_range|].
      apply Z.pow_pos_nonneg; lia. }
    split; [|split; [exact Hst|]].
    + unfold steal_pet_ticks. rewrite bind_get.
      apply Z.eqb_neq in Hnz. rewrite Hnz.
      rewrite (bind_Ret _ _ _ _ _ Hv).
      erewrite bind_defined by (by apply shr64_defined).
      rewrite Z.shiftr_div_pow2 by lia. reflexivity.
    + intros Hp. unfold pet_after_steal.
      destruct (Z.leb_spec pet stolen); lia.
Qed.

Lemma steal_pet_ticks_saturates_witness :
  steal_pet_ticks
    (with_shinfo (Some (mk_shinfo [mk_vti 2 200 1200 (2 ^ 31) 1 0] 0 0 0 0))
       x_armed) =
  Ret tt
    (with_vcpu (vcpu_set_preemption_timer 95)
       (with_shinfo (Some (mk_shinfo [mk_vti 2 200 1200 (2 ^ 31) 1 0] 0 0 0 0))
          x_armed)).
Proof.
  destruct (steal_pet_ticks_saturates
              (with_shinfo
                 (Some (mk_shinfo [mk_vti 2 200 1200 (2 ^ 31) 1 0] 0 0 0 0))
                 x_armed)) as [_ Hsteal].
  destruct (Hsteal (mk_vti 2 200 1200 (2 ^ 31) 1 0)) as (Hret & _).
  - discriminate.
  - reflexivity.
  - split; [discriminate | reflexivity].
  - exact Hret.
Defined.

(** ** The time info under [update_runstate] *)

Lemma upd_vcpu_time_explicit (f : vcpu_time_info -> vcpu_time_info)
    (x : xen) (sh : shared_info) (kvti : vcpu_time_info) :
  m_shinfo x = Some sh ->
  vcpu_info sh !! Z.to_nat (vcpuid x) = Some kvti ->
  upd_vcpu_time f x =
    Ret tt (with_shinfo (Some (set_time_slot (Z.to_nat (vcpuid x)) (f kvti) sh))
              x).
Proof.
  intros Hsh Hk. unfold upd_vcpu_time, vcpu_time, upd_shinfo.
  rewrite bind_unfold, Hsh, Hk, bind_get, Hsh. reflexivity.
Qed.

Lemma set_time_slot_lookup (i : nat) (t kvti : vcpu_time_info)
    (sh : shared_info) :
  vcpu_info sh !! i = Some kvti ->
  vcpu_info (set_time_slot i t sh) !! i = Some t.
Proof.
  intros Hk. cbn. apply list_lookup_insert_eq. by eapply lookup_lt_Some.
Qed.

Lemma set_time_slot_twice (i : nat) (t t' : vcpu_time_info)
    (sh : shared_info) :
  set_time_slot i t' (set_time_slot i t sh) = set_time_slot i t' sh.
Proof.
  unfold set_time_slot, sh_set_vcpu_info. cbn.
  by rewrite list_insert_insert_eq.
Qed.

Lemma bind_wmb {B : Type} (f : unit -> M B) (x : xen) :
  (wmb ≫= f) x =
  f tt (with_barriers
          (barriers x ++ [mk_view (m_shinfo x) (m_user_vti x) (m_runstate x)])
          x).
Proof. reflexivity. Qed.

(** The kernel part of [update_runstate], in full. *)
Lemma update_kernel_time_explicit (next : Z) (x : xen) (sh : shared_info)
    (kvti : vcpu_time_info) :
  let i := Z.to_nat (vcpuid x) in
  m_shinfo x = Some sh ->
  vcpu_info sh !! i = Some kvti ->
  update_kernel_time next x =
    match elapsed_ns next kvti with
    | Some d =>
        Ret tt
          (with_barriers
             (barriers x ++
              [mk_view (Some (set_time_slot i (vti_version_inc kvti) sh))
                 (m_user_vti x) (m_runstate x);
               mk_view (Some (set_time_slot i (time_written next d kvti) sh))
                 (m_user_vti x) (m_runstate x)])
             (with_shinfo (Some (set_time_slot i (time_closed next d kvti) sh))
                x))
    | None => Undefined
    end.
Proof.
  intros i Hsh Hk. unfold update_kernel_time, elapsed_ns.
  assert (Hv : vcpu_time x = Ret kvti x)
    by (unfold vcpu_time; fold i; by rewrite Hsh, Hk).
  rewrite (bind_Ret _ _ _ _ _ Hv). cbv beta zeta.
  rewrite (bind_Ret _ _ _ _ _ (upd_vcpu_time_explicit _ x sh kvti Hsh Hk)).
  fold i. cbv beta. rewrite bind_wmb.
  destruct (tsc_to_ns _ _ _) as [d|]; [|reflexivity].
  cbn [defined]. rewrite bind_mret.
  set (x2 := with_barriers _ _).
  pose proof (set_time_slot_lookup i (vti_version_inc kvti) kvti sh Hk) as Hk2.
  rewrite (bind_Ret _ _ _ _ _
             (upd_vcpu_time_explicit _ x2 _ _ eq_refl Hk2)).
  change (Z.to_nat (vcpuid x2)) with i. rewrite set_time_slot_twice.
  cbv beta. set (x3 := with_shinfo _ x2).
  pose proof (set_time_slot_lookup i
                (vti_set_system_time
                   (u64 (system_time (vti_version_inc kvti) + d))
                   (vti_version_inc kvti)) kvti sh Hk) as Hk3.
  rewrite (bind_Ret _ _ _ _ _
             (upd_vcpu_time_explicit (vti_set_tsc_timestamp next) x3 _ _
                eq_refl Hk3)).
  change (Z.to_nat (vcpuid x3)) with i. rewrite set_time_slot_twice.
  cbv beta. set (x4 := with_shinfo _ x3).
  rewrite bind_wmb.
  set (x5 := with_barriers _ x4).
  pose proof (set_time_slot_lookup i
                (vti_set_tsc_timestamp next
                   (vti_set_system_time
                      (u64 (system_time (vti_version_inc kvti) + d))
                      (vti_version_inc kvti))) kvti sh Hk) as Hk5.
  rewrite (upd_vcpu_time_explicit vti_version_inc x5 _ _ eq_refl Hk5).
  change (Z.to_nat (vcpuid x5)) with i. rewrite set_time_slot_twice.
  unfold x5, x4, x3, x2.
  change (system_time (vti_version_inc kvti)) with (system_time kvti).
  change (vti_set_tsc_timestamp next
            (vti_set_system_time (u64 (system_time kvti + d))
               (vti_version_inc kvti)))
    with (time_written next d kvti).
  replace (vti_version_inc (time_written next d kvti))
    with (time_closed next d kvti)
    by (unfold vti_version_inc, vti_set_version, time_written, time_closed;
        cbn [version tsc_timestamp system_time tsc_to_system_mul tsc_shift
             flags]; by rewrite u32_inc_inc).
  cbn [barriers with_barriers with_shinfo m_shinfo m_user_vti m_runstate].
  rewrite <- app_assoc. reflexivity.
Qed.

Lemma upd_user_vti_explicit (f : vcpu_time_info -> vcpu_time_info) (x : xen)
    (u : vcpu_time_info) :
  m_user_vti x = Some u ->
  upd_user_vti f x = Ret tt (with_user_vti (Some (f u)) x).
Proof. intros Hu. unfold upd_user_vti. by rewrite Hu. Qed.

Lemma upd_runstate_explicit (f : vcpu_runstate_info -> vcpu_runstate_info)
    (x : xen) (rs : vcpu_runstate_info) :
  m_runstate x = Some rs ->
  upd_runstate f x = Ret tt (with_runstate (Some (f rs)) x).
Proof. intros Hrs. unfold upd_runstate. by rewrite Hrs. Qed.

(** The mirror part of [update_runstate], in full. *)
Lemma update_user_time_explicit (next : Z) (x : xen)
    (u kvti : vcpu_time_info) :
  m_user_vti x = Some u ->
  vcpu_time x = Ret kvti x ->
  update_user_time next x =
    Ret tt
      (with_barriers
         (barriers x ++
          [mk_view (m_shinfo x) (Some (vti_version_inc u)) (m_runstate x);
           mk_view (m_shinfo x)
             (Some (mk_vti (u32 (version u + 1)) next (system_time kvti)
                      (tsc_to_system_mul u) (tsc_shift u) (flags u)))
             (m_runstate x)])
         (with_user_vti (Some (mirror_closed next (system_time kvti) u)) x)).
Proof.
  intros Hu Hv. unfold update_user_time.
  rewrite (bind_Ret _ _ _ _ _ (upd_user_vti_explicit _ x u Hu)).
  cbv beta. rewrite bind_wmb. set (x2 := with_barriers _ _).
  assert (Hv2 : vcpu_time x2 = Ret kvti x2)
    by (by apply (vcpu_time_ext x)).
  rewrite (bind_Ret _ _ _ _ _ Hv2). cbv beta.
  rewrite (bind_Ret _ _ _ _ _
             (upd_user_vti_explicit _ x2 (vti_version_inc u) eq_refl)).
  cbv beta. set (x3 := with_user_vti _ x2).
  rewrite (bind_Ret _ _ _ _ _
             (upd_user_vti_explicit (vti_set_tsc_timestamp next) x3 _ eq_refl)).
  cbv beta. set (x4 := with_user_vti _ x3).
  rewrite bind_wmb. set (x5 := with_barriers _ x4).
  rewrite (upd_user_vti_explicit vti_version_inc x5 _ eq_refl).
  unfold x5, x4, x3, x2.
  replace (vti_version_inc
             (vti_set_tsc_timestamp next
                (vti_set_system_time (system_time kvti) (vti_version_inc u))))
    with (mirror_closed next (system_time kvti) u)
    by (unfold vti_version_inc, vti_set_version, mirror_closed;
        cbn [version tsc_timestamp system_time tsc_to_system_mul tsc_shift
             flags vti_set_tsc_timestamp vti_set_system_time];
        by rewrite u32_inc_inc).
  cbn [barriers with_barriers with_user_vti m_shinfo m_user_vti m_runstate].
  rewrite <- app_assoc. reflexivity.
Qed.

(** The runstate part of [update_runstate], in full. *)
Lemma update_runstate_area_explicit (new_state : Z) (x : xen)
    (rs : vcpu_runstate_info) (kvti : vcpu_time_info) (acc : Z) :
  m_runstate x = Some rs ->
  vcpu_time x = Ret kvti x ->
  time_get (time rs) (state rs) = Some acc ->
  let now := system_time kvti in
  let times :=
    time_set (time rs) (state rs)
      (u64 (acc + u64 (now - state_entry_time rs))) in
  update_runstate_area new_state x =
    Ret tt
      (if m_runstate_assist x then
         with_barriers
           (barriers x ++
            [mk_view (m_shinfo x) (m_user_vti x)
               (Some (mk_runstate new_state XEN_RUNSTATE_UPDATE times));
             mk_view (m_shinfo x) (m_user_vti x)
               (Some (mk_runstate new_state (Z.lor XEN_RUNSTATE_UPDATE now)
                        times));
             mk_view (m_shinfo x) (m_user_vti x)
               (Some (mk_runstate new_state (now mod 2 ^ 63) times))])
           (with_runstate
              (Some (mk_runstate new_state (now mod 2 ^ 63) times)) x)
       else with_runstate (Some (mk_runstate new_state now times)) x).
Proof.
  intros Hrs Hv Hacc now times. unfold update_runstate_area.
  rewrite bind_get, Hrs. cbn [defined]. rewrite bind_mret.
  rewrite (bind_Ret _ _ _ _ _ Hv). cbv beta zeta.
  rewrite (bind_defined _ _ _ _ Hacc).
  rewrite (bind_Ret _ _ _ _ _ (upd_runstate_explicit _ x rs Hrs)). cbv beta.
  set (x1 := with_runstate _ x).
  rewrite (bind_Ret _ _ _ _ _ (upd_runstate_explicit _ x1 _ eq_refl)).
  cbv beta. set (x2 := with_runstate _ x1).
  destruct (m_runstate_assist x).
  - rewrite (bind_Ret _ _ _ _ _ (upd_runstate_explicit _ x2 _ eq_refl)).
    cbv beta. set (x3 := with_runstate _ x2). rewrite bind_wmb.
    set (x4 := with_barriers _ x3).
    rewrite (bind_Ret _ _ _ _ _ (upd_runstate_explicit _ x4 _ eq_refl)).
    cbv beta. set (x5 := with_runstate _ x4). rewrite bind_wmb.
    set (x6 := with_barriers _ x5).
    rewrite (bind_Ret _ _ _ _ _ (upd_runstate_explicit _ x6 _ eq_refl)).
    cbv beta. set (x7 := with_runstate _ x6).
    unfold wmb, modify. f_equal.
    unfold x7, x6, x5, x4, x3, x2, x1.
    cbn [barriers with_barriers with_runstate m_shinfo m_user_vti m_runstate
         rs_set_state_entry_time rs_set_state rs_set_time state
         state_entry_time time].
    fold now. fold times. rewrite marker_cleared, <- !app_assoc. reflexivity.
  - rewrite (upd_runstate_explicit _ x2 _ eq_refl). reflexivity.
Qed.

Lemma vcpu_time_lookup (x : xen) (sh : shared_info) (kvti : vcpu_time_info) :
  m_shinfo x = Some sh ->
  vcpu_info sh !! Z.to_nat (vcpuid x) = Some kvti ->
  vcpu_time x = Ret kvti x.
Proof. intros Hsh Hk. unfold vcpu_time. by rewrite Hsh, Hk. Qed.

Lemma vcpu_time_lookup_inv (x : xen) (kvti : vcpu_time_info) :
  vcpu_time x = Ret kvti x ->
  exists sh,
    m_shinfo x = Some sh /\ vcpu_info sh !! Z.to_nat (vcpuid x) = Some kvti.
Proof.
  unfold vcpu_time. destruct (m_shinfo x) as [sh|]; [|discriminate].
  destruct (vcpu_info sh !! Z.to_nat (vcpuid x)) as [t|] eqn:Ht;
    [|discriminate].
  intros [= ->]. eauto.
Qed.

(** What one [update_runstate] that returns does outside the runstate
    area. *)
Lemma update_runstate_effect (new_state next : Z) (x x' : xen)
    (sh : shared_info) (kvti : vcpu_time_info) :
  let i := Z.to_nat (vcpuid x) in
  m_shinfo x = Some sh ->
  vcpu_info sh !! i = Some kvti ->
  update_runstate new_state next x = Ret tt x' ->
  exists d rest,
    elapsed_ns next kvti = Some d /\
    m_shinfo x' = Some (set_time_slot i (time_closed next d kvti) sh) /\
    barriers x' =
      barriers x ++
      mk_view (Some (set_time_slot i (vti_version_inc kvti) sh))
        (m_user_vti x) (m_runstate x)
      :: mk_view (Some (set_time_slot i (time_written next d kvti) sh))
           (m_user_vti x) (m_runstate x)
      :: rest /\
    m_user_vti x' =
      mirror_closed next (u64 (system_time kvti + d)) <$> m_user_vti x /\
    m_vcpu x' = m_vcpu x /\ vcpuid x' = vcpuid x /\
    m_pet_enabled x' = m_pet_enabled x /\
    m_tsc_at_exit x' = m_tsc_at_exit x /\
    m_pet_shift x' = m_pet_shift x /\
    m_runstate_assist x' = m_runstate_assist x.
Proof.
  intros i Hsh Hk. unfold update_runstate. rewrite bind_get, Hsh.
  rewrite bool_decide_eq_true_2 by eauto. cbn [negb].
  rewrite bind_unfold, (update_kernel_time_explicit next x sh kvti Hsh Hk).
  fold i. destruct (elapsed_ns next kvti) as [d|]; [|discriminate].
  set (x1 := with_barriers _ _). rewrite bind_get.
  change (m_user_vti x1) with (m_user_vti x).
  pose proof (set_time_slot_lookup i (time_closed next d kvti) kvti sh Hk)
    as Hk1.
  assert (Hv1 : vcpu_time x1 = Ret (time_closed next d kvti) x1).
  { exact (vcpu_time_lookup x1 _ _ eq_refl Hk1). }
  destruct (m_user_vti x) as [u|] eqn:Hu.
  2:{ rewrite bool_decide_eq_false_2 by (by intros [? ?]). cbn [negb].
      intros [= <-]. exists d, []. by repeat split. }
  rewrite bool_decide_eq_true_2 by eauto. cbn [negb].
  rewrite bind_unfold,
    (update_user_time_explicit next x1 u _ Hu Hv1).
  set (x2 := with_barriers _ _). rewrite bind_get.
  change (m_runstate x2) with (m_runstate x).
  assert (Hv2 : vcpu_time x2 = Ret (time_closed next d kvti) x2)
    by (by apply (vcpu_time_ext x1)).
  destruct (m_runstate x) as [rs|] eqn:Hrs.
  2:{ rewrite bool_decide_eq_false_2 by (by intros [? ?]). cbn [negb].
      intros [= <-]. exists d. eexists.
      split; [reflexivity|]. split; [reflexivity|].
      split; [|by repeat split].
      unfold x2, x1. cbn [barriers with_barriers with_user_vti with_shinfo].
      rewrite <- app_assoc. reflexivity. }
  rewrite bool_decide_eq_true_2 by eauto. cbn [negb].
  intros Harea.
  destruct (update_runstate_area_result _ _ _ Harea)
    as (rs' & kv' & acc & Hrs' & _ & Hacc & _).
  change (m_runstate x2) with (m_runstate x) in Hrs'.
  rewrite Hrs in Hrs'. injection Hrs' as <-.
  rewrite (update_runstate_area_explicit new_state x2 rs _ acc Hrs Hv2 Hacc)
    in Harea.
  injection Harea as <-. exists d.
  change (m_runstate_assist x2) with (m_runstate_assist x).
  destruct (m_runstate_assist x) eqn:Hassist.
  - eexists. split; [reflexivity|]. split; [reflexivity|].
    split; [|by repeat split].
    unfold x2, x1.
    cbn [barriers with_barriers with_user_vti with_shinfo with_runstate].
    rewrite <- !app_assoc. reflexivity.
  - eexists. split; [reflexivity|]. split; [reflexivity|].
    split; [|by repeat split].
    unfold x2, x1.
    cbn [barriers with_barriers with_user_vti with_shinfo with_runstate].
    rewrite <- !app_assoc. reflexivity.
Qed.



(** ** The user mirror *)

Lemma update_runstate_synced (new_state next : Z) (x x' : xen) :
  mirror_synced x ->
  update_runstate new_state next x = Ret tt x' ->
  mirror_synced x'.
Proof.
  intros (kvti & Hv & Hu) Hret.
  destruct (vcpu_time_lookup_inv _ _ Hv) as (sh & Hsh & Hk).
  destruct (update_runstate_effect _ _ _ _ _ _ Hsh Hk Hret)
    as (d & rest & _ & Hsh' & _ & Hu' & _ & Hid & _).
  exists (time_closed next d kvti). split.
  - apply (vcpu_time_lookup x' _ _ Hsh'). rewrite Hid.
    by eapply set_time_slot_lookup.
  - rewrite Hu', Hu. reflexivity.
Qed.

Lemma run_updates_synced (calls : list (Z * Z)) (x x' : xen) :
  mirror_synced x -> run_updates calls x = Ret tt x' -> mirror_synced x'.
Proof.
  revert x. induction calls as [|[new_state next] calls IH]; intros x Hs H.
  - by injection H as <-.
  - cbn [run_updates] in H. apply bind_Ret_inv in H as ([] & x1 & H1 & H).
    eapply IH; [|exact H]. by eapply update_runstate_synced.
Qed.

Lemma register_mirror_synced (x x1 : xen) :
  rdi (m_vcpu x) = VCPUOP_register_vcpu_time_memory_area ->
  handle_vcpu_op x = Ret true x1 ->
  mirror_synced x1 /\ rax (m_vcpu x1) = 0 /\ m_shinfo x1 = m_shinfo x.
Proof.
  intros Hop. unfold handle_vcpu_op. rewrite bind_get.
  destruct (rsi (m_vcpu x) =? vcpuid x); [|discriminate].
  rewrite bind_expects_true, Hop.
  change (VCPUOP_register_vcpu_time_memory_area =? VCPUOP_stop_periodic_timer)
    with false.
  change (VCPUOP_register_vcpu_time_memory_area
          =? VCPUOP_stop_singleshot_timer) with false.
  change (VCPUOP_register_vcpu_time_memory_area
          =? VCPUOP_set_singleshot_timer) with false.
  change (VCPUOP_register_vcpu_time_memory_area
          =? VCPUOP_register_vcpu_time_memory_area) with true.
  cbv iota.
  destruct (bool_decide (is_Some (m_shinfo x))); [|discriminate].
  rewrite bind_expects_true, bind_unfold. unfold map_arg at 1.
  destruct (gm_time_area (gmem x) (rdx (m_vcpu x))) as [a|]; [|discriminate].
  rewrite bind_unfold. unfold map_arg at 1.
  destruct (gm_vti (gmem x) a) as [u0|]; [|discriminate].
  rewrite bind_modify. set (x0 := with_user_vti _ x).
  rewrite bind_unfold.
  destruct (vcpu_time x0) as [kvti y| | |] eqn:Hv; try discriminate.
  pose proof (vcpu_time_state _ _ _ Hv) as ->.
  rewrite (bind_Ret _ _ _ _ _ (upd_user_vti_explicit _ x0 u0 eq_refl)).
  intros [= <-]. split; [|by split].
  exists kvti. split; [|reflexivity].
  by apply (vcpu_time_ext x0).
Qed.

(** X14: the user mirror. [VCPUOP_register_vcpu_time_memory_area] copies the
    kernel time info into the mirror, and every [update_runstate] that
    returns leaves the mirror equal, field by field, version included, to
    the kernel time info it has just advanced. *)
Theorem mirror_tracks_kernel_time (x x1 x2 : xen) (calls : list (Z * Z)) :
  rdi (m_vcpu x) = VCPUOP_register_vcpu_time_memory_area ->
  handle_vcpu_op x = Ret true x1 ->
  run_updates calls x1 = Ret tt x2 ->
  mirror_synced x1 /\ mirror_synced x2.
Proof.
  intros Hop Hreg Hrun.
  destruct (register_mirror_synced _ _ Hop Hreg) as (Hs & _).
  split; [exact Hs|]. by eapply run_updates_synced.
Qed.

Lemma mirror_tracks_kernel_time_witness :
  exists x2,
    (handle_vcpu_op ≫= λ _, run_updates calls_sample) x_register_mirror
      = Ret tt x2 /\
    m_user_vti x2 = Some (mk_vti 4 80 1080 (2 ^ 31) 1 0) /\
    mirror_synced x2.
Proof.
  set (x1 := match handle_vcpu_op x_register_mirror with
             | Ret _ y => y | _ => x_register_mirror end).
  set (x2 := match run_updates calls_sample x1 with
             | Ret _ y => y | _ => x1 end).
  assert (Hreg : handle_vcpu_op x_register_mirror = Ret true x1)
    by (vm_compute; reflexivity).
  assert (Hrun : run_updates calls_sample x1 = Ret tt x2)
    by (vm_compute; reflexivity).
  destruct (mirror_tracks_kernel_time x_register_mirror x1 x2 calls_sample
              eq_refl Hreg Hrun) as [_ Hsync].
  exists x2. split; [by rewrite (bind_Ret _ _ _ _ _ Hreg)|].
  split; [|exact Hsync]. clear. vm_compute. reflexivity.
Defined.

(** ** Ticks stolen across an exit *)

Lemma vmexit_save_tsc_explicit (x : xen) (e : Z) :
  vmexit_save_tsc e x
  = Ret true (if m_pet_enabled x then with_tsc_at_exit e x else x).
Proof.
  unfold vmexit_save_tsc. rewrite bind_get.
  by destruct (m_pet_enabled x).
Qed.

Lemma update_runstate_slot (new_state next : Z) (x x' : xen)
    (sh : shared_info) :
  m_shinfo x = Some sh ->
  update_runstate new_state next x = Ret tt x' ->
  is_Some (vcpu_info sh !! Z.to_nat (vcpuid x)).
Proof.
  intros Hsh. destruct (vcpu_info sh !! Z.to_nat (vcpuid x)) eqn:Hk; [eauto|].
  unfold update_runstate. rewrite bind_get, Hsh.
  rewrite bool_decide_eq_true_2 by eauto. cbn [negb].
  rewrite bind_unfold. unfold update_kernel_time.
  rewrite bind_unfold. unfold vcpu_time. by rewrite Hsh, Hk.
Qed.

Lemma steal_pet_ticks_explicit (x : xen) (kvti : vcpu_time_info) :
  m_tsc_at_exit x <> 0 ->
  vcpu_time x = Ret kvti x ->
  0 <= m_pet_shift x < 64 ->
  steal_pet_ticks x =
    Ret tt
      (with_vcpu
         (vcpu_set_preemption_timer
            (pet_after_steal (preemption_timer (m_vcpu x))
               (u64 (tsc_timestamp kvti - m_tsc_at_exit x)
                / 2 ^ m_pet_shift x)))
         x).
Proof.
  intros Hnz Hv Hs. unfold steal_pet_ticks. rewrite bind_get.
  apply Z.eqb_neq in Hnz. rewrite Hnz.
  rewrite (bind_Ret _ _ _ _ _ Hv).
  erewrite bind_defined by (by apply shr64_defined).
  rewrite Z.shiftr_div_pow2 by lia. reflexivity.
Qed.

(** X15: an exit at TSC [e] followed by a resume at TSC [n]. With the timer
    armed, the resume takes from the preemption timer the ticks that
    passed outside the guest, [(n - e) >> m_pet_shift], stopping at zero;
    with the timer disarmed, neither the exit TSC nor the preemption timer
    changes. *)
Theorem resume_update_steals (x x' : xen) (e n : Z) :
  0 <= m_pet_shift x < 64 ->
  (vmexit_save_tsc e ≫= λ _, resume_update n) x = Ret tt x' ->
  is_Some (m_shinfo x) ->
  (m_pet_enabled x = true -> e <> 0 ->
     preemption_timer (m_vcpu x') =
       pet_after_steal (preemption_timer (m_vcpu x))
         (u64 (n - e) / 2 ^ m_pet_shift x) /\
     m_tsc_at_exit x' = e) /\
  (m_pet_enabled x = false ->
     preemption_timer (m_vcpu x') = preemption_timer (m_vcpu x) /\
     m_tsc_at_exit x' = m_tsc_at_exit x).
Proof.
  intros Hshift Hret [sh Hsh].
  rewrite (bind_Ret _ _ _ _ _ (vmexit_save_tsc_explicit x e)) in Hret.
  cbv beta in Hret. unfold resume_update in Hret.
  apply bind_Ret_inv in Hret as ([] & x1 & Hupd & Hret).
  rewrite bind_get in Hret. split.
  - intros Harmed He. rewrite Harmed in Hupd.
    set (x0 := with_tsc_at_exit e x) in *.
    destruct (update_runstate_slot _ _ x0 _ sh Hsh Hupd) as [kvti Hk].
    destruct (update_runstate_effect _ _ x0 _ sh kvti Hsh Hk Hupd)
      as (d & rest & _ & Hsh1 & _ & _ & Hvc & Hid & Hen & Hex & Hps & _).
    change (m_pet_enabled x0) with (m_pet_enabled x) in Hen.
    rewrite Hen, Harmed in Hret.
    assert (Hv1 : vcpu_time x1 = Ret (time_closed n d kvti) x1).
    { apply (vcpu_time_lookup x1 _ _ Hsh1). rewrite Hid.
      by eapply set_time_slot_lookup. }
    rewrite (steal_pet_ticks_explicit x1 (time_closed n d kvti)) in Hret;
      [| rewrite Hex; exact He | exact Hv1 | by rewrite Hps].
    injection Hret as <-.
    cbn [m_vcpu with_vcpu preemption_timer vcpu_set_preemption_timer
         m_tsc_at_exit tsc_timestamp time_closed].
    rewrite Hvc, Hex, Hps. by split.
  - intros Hoff. rewrite Hoff in Hupd.
    destruct (update_runstate_slot _ _ x _ sh Hsh Hupd) as [kvti Hk].
    destruct (update_runstate_effect _ _ _ _ sh kvti Hsh Hk Hupd)
      as (d & rest & _ & _ & _ & _ & Hvc & _ & Hen & Hex & _).
    rewrite Hen, Hoff in Hret. injection Hret as <-.
    by rewrite Hvc, Hex.
Qed.

Lemma resume_update_steals_witness :
  exists x',
    (vmexit_save_tsc 40 ≫= λ _, resume_update 200) x_armed = Ret tt x' /\
    preemption_timer (m_vcpu x') = 95.
Proof.
  set (x' := match (vmexit_save_tsc 40 ≫= λ _, resume_update 200) x_armed
             with Ret _ y => y | _ => x_armed end).
  assert (Hret : (vmexit_save_tsc 40 ≫= λ _, resume_update 200) x_armed
                 = Ret tt x') by (vm_compute; reflexivity).
  destruct (resume_update_steals x_armed x' 40 200) as [Hsteal _].
  - split; [discriminate | reflexivity].
  - exact Hret.
  - by eexists.
  - exists x'. split; [exact Hret|].
    destruct (Hsteal eq_refl) as [Hpet _]; [discriminate|].
    rewrite Hpet. clear. vm_compute. reflexivity.
Defined.

(** ** The runstate area under the update flag *)

(** [update_runstate] on an object with the shared-info page, the mirror
    and the runstate area all mapped. *)
Lemma update_runstate_full_effect (new_state next : Z) (x x' : xen)
    (sh : shared_info) (kvti u : vcpu_time_info) (rs : vcpu_runstate_info) :
  let i := Z.to_nat (vcpuid x) in
  m_shinfo x = Some sh ->
  vcpu_info sh !! i = Some kvti ->
  m_user_vti x = Some u ->
  m_runstate x = Some rs ->
  update_runstate new_state next x = Ret tt x' ->
  exists d acc,
    elapsed_ns next kvti = Some d /\
    time_get (time rs) (state rs) = Some acc /\
    let now := u64 (system_time kvti + d) in
    let times :=
      time_set (time rs) (state rs)
        (u64 (acc + u64 (now - state_entry_time rs))) in
    let sh' := Some (set_time_slot i (time_closed next d kvti) sh) in
    let u' := Some (mirror_closed next now u) in
    m_shinfo x' = sh' /\ m_user_vti x' = u' /\
    if m_runstate_assist x then
      m_runstate x' = Some (mk_runstate new_state (now mod 2 ^ 63) times) /\
      exists pre,
        barriers x' =
          pre ++
          [mk_view sh' u'
             (Some (mk_runstate new_state XEN_RUNSTATE_UPDATE times));
           mk_view sh' u'
             (Some (mk_runstate new_state (Z.lor XEN_RUNSTATE_UPDATE now)
                      times));
           mk_view sh' u'
             (Some (mk_runstate new_state (now mod 2 ^ 63) times))]
    else
      m_runstate x' = Some (mk_runstate new_state now times).
Proof.
  intros i Hsh Hk Hu Hrs. unfold update_runstate. rewrite bind_get, Hsh.
  rewrite bool_decide_eq_true_2 by eauto. cbn [negb].
  rewrite bind_unfold, (update_kernel_time_explicit next x sh kvti Hsh Hk).
  fold i. destruct (elapsed_ns next kvti) as [d|]; [|discriminate].
  set (x1 := with_barriers _ _). rewrite bind_get.
  change (m_user_vti x1) with (m_user_vti x).
  pose proof (set_time_slot_lookup i (time_closed next d kvti) kvti sh Hk)
    as Hk1.
  assert (Hv1 : vcpu_time x1 = Ret (time_closed next d kvti) x1).
  { exact (vcpu_time_lookup x1 _ _ eq_refl Hk1). }
  rewrite Hu, bool_decide_eq_true_2 by eauto. cbn [negb].
  assert (Hu1 : m_user_vti x1 = Some u) by exact Hu.
  rewrite bind_unfold, (update_user_time_explicit next x1 u _ Hu1 Hv1).
  set (x2 := with_barriers _ _). rewrite bind_get.
  change (m_runstate x2) with (m_runstate x).
  assert (Hv2 : vcpu_time x2 = Ret (time_closed next d kvti) x2)
    by (by apply (vcpu_time_ext x1)).
  rewrite Hrs, bool_decide_eq_true_2 by eauto. cbn [negb].
  intros Harea.
  destruct (update_runstate_area_result _ _ _ Harea)
    as (rs' & kv' & acc & Hrs' & _ & Hacc & _).
  change (m_runstate x2) with (m_runstate x) in Hrs'.
  rewrite Hrs in Hrs'. injection Hrs' as <-.
  assert (Hrs2 : m_runstate x2 = Some rs) by exact Hrs.
  rewrite (update_runstate_area_explicit new_state x2 rs _ acc Hrs2 Hv2 Hacc)
    in Harea.
  injection Harea as <-. exists d, acc.
  split; [reflexivity|]. split; [exact Hacc|].
  change (m_runstate_assist x2) with (m_runstate_assist x).
  destruct (m_runstate_assist x).
  - split; [reflexivity|]. split; [reflexivity|]. split; [reflexivity|].
    eexists. reflexivity.
  - by repeat split.
Qed.

Lemma marker_raised (now : Z) :
  Z.testbit (Z.lor XEN_RUNSTATE_UPDATE now) 63 = true /\
  Z.lor XEN_RUNSTATE_UPDATE now mod 2 ^ 63 = now mod 2 ^ 63.
Proof.
  split.
  - rewrite Z.lor_spec. unfold XEN_RUNSTATE_UPDATE.
    by rewrite Z.pow2_bits_true by lia.
  - rewrite <- !Z.land_ones by lia. rewrite Z.land_lor_distr_l.
    replace (Z.land XEN_RUNSTATE_UPDATE (Z.ones 63)) with 0 by reflexivity.
    apply Z.lor_0_l.
Qed.

(** X16: the runstate area when the guest has negotiated the update flag.
    An [update_runstate] that returns ends with three barriers. At each of
    them the guest already sees the new state and the new accumulated
    time, together with the closed time info and mirror. The entry time is
    the marker [XEN_RUNSTATE_UPDATE] alone at the first, the marker with
    the clock's low 63 bits at the second and the clock's low 63 bits
    without the marker at the third, which is also what the area holds in
    the end. *)
Theorem update_runstate_assist_marker (new_state next : Z) (x x' : xen)
    (u : vcpu_time_info) (rs : vcpu_runstate_info) :
  m_runstate_assist x = true ->
  is_Some (m_shinfo x) ->
  m_user_vti x = Some u ->
  m_runstate x = Some rs ->
  update_runstate new_state next x = Ret tt x' ->
  exists now acc pre e2,
    clock x' = Some now /\
    time_get (time rs) (state rs) = Some acc /\
    let times :=
      time_set (time rs) (state rs)
        (u64 (acc + u64 (now - state_entry_time rs))) in
    let shown e :=
      mk_view (m_shinfo x') (m_user_vti x')
        (Some (mk_runstate new_state e times)) in
    barriers x' =
      pre ++ [shown XEN_RUNSTATE_UPDATE; shown e2; shown (now mod 2 ^ 63)] /\
    Z.testbit e2 63 = true /\ e2 mod 2 ^ 63 = now mod 2 ^ 63 /\
    m_runstate x' = Some (mk_runstate new_state (now mod 2 ^ 63) times) /\
    0 <= now mod 2 ^ 63 < 2 ^ 63.
Proof.
  intros Hassist [sh Hsh] Hu Hrs Hret.
  destruct (update_runstate_slot _ _ _ _ sh Hsh Hret) as [kvti Hk].
  destruct (update_runstate_full_effect _ _ _ _ sh kvti u rs Hsh Hk Hu Hrs
              Hret) as (d & acc & Hd & Hacc & Hsh' & Hu' & Harea).
  rewrite Hassist in Harea. destruct Harea as (Hrs' & pre & Hbar).
  exists (u64 (system_time kvti + d)), acc, pre,
    (Z.lor XEN_RUNSTATE_UPDATE (u64 (system_time kvti + d))).
  split.
  { unfold clock. rewrite Hsh'. cbn [mbind option_bind].
    pose proof (update_runstate_effect _ _ _ _ sh kvti Hsh Hk Hret)
      as (_ & _ & _ & _ & _ & _ & _ & Hid & _).
    rewrite Hid.
    by rewrite (set_time_slot_lookup _ (time_closed next d kvti) kvti sh Hk). }
  split; [exact Hacc|]. cbv zeta. rewrite Hsh', Hu'.
  split; [exact Hbar|].
  destruct (marker_raised (u64 (system_time kvti + d))) as [Hbit Hlow].
  split; [exact Hbit|]. split; [exact Hlow|]. split; [exact Hrs'|].
  apply Z.mod_pos_bound. lia.
Qed.

Lemma update_runstate_assist_marker_witness :
  exists x',
    update_runstate RUNSTATE_blocked 50 x_assisted = Ret tt x' /\
    (fun w => state_entry_time <$> view_runstate w) <$> barriers x'
      = [Some 1000; Some 1000; Some 1000; Some 1000;
         Some (2 ^ 63); Some (2 ^ 63 + 1050); Some 1050] /\
    m_runstate x'
      = Some (mk_runstate RUNSTATE_blocked 1050 (mk_times 1050 0 0 0)).
Proof.
  set (x' := match update_runstate RUNSTATE_blocked 50 x_assisted with
             | Ret _ y => y | _ => x_assisted end).
  assert (Hrun : update_runstate RUNSTATE_blocked 50 x_assisted = Ret tt x')
    by (vm_compute; reflexivity).
  assert (Hsh : is_Some (m_shinfo x_assisted)) by (by eexists).
  pose proof (update_runstate_assist_marker RUNSTATE_blocked 50 x_assisted x'
                vti_1000
                (mk_runstate RUNSTATE_running 1000 (mk_times 1000 0 0 0))
                eq_refl Hsh eq_refl eq_refl Hrun) as Hmarker.
  exists x'. split; [exact Hrun|]. clear. vm_compute. by split.
Defined.

(** ** The hypercall page *)

Lemma write_hcall_entry_lookup (buf buf' : list Z) (i j : nat) :
  write_hcall_entry buf i = Some buf' ->
  length buf' = length buf /\
  buf' !! j =
    if bool_decide (i * 32 <= j < i * 32 + 9)%nat
    then hcall_stub i !! (j - i * 32)%nat
    else buf !! j.
Proof.
  unfold write_hcall_entry. case_bool_decide as Hfit; [|discriminate].
  intros [= <-]. split; [by rewrite !length_insert|].
  case_bool_decide as Hin.
  - assert (Hj : exists k, (k < 9)%nat /\ j = (i * 32 + k)%nat)
      by (exists (j - i * 32)%nat; lia).
    destruct Hj as (k & Hk & ->).
    replace (i * 32 + k - i * 32)%nat with k by lia.
    do 9 (destruct k as [|k];
          [ repeat (rewrite list_lookup_insert_ne by lia);
            rewrite list_lookup_insert_eq by (rewrite ?length_insert; lia);
            reflexivity |]).
    lia.
  - by repeat (rewrite list_lookup_insert_ne by lia).
Qed.

Lemma write_hcall_entries_effect (idx : list nat) (buf : list Z) :
  (forall i, i ∈ idx -> (i * 32 + 32 <= length buf)%nat) ->
  exists buf',
    write_hcall_entries idx buf = Some buf' /\
    length buf' = length buf /\
    (forall j, (forall i, i ∈ idx -> ~ (i * 32 <= j < i * 32 + 9)%nat) ->
       buf' !! j = buf !! j) /\
    (forall i k, i ∈ idx -> (k < 9)%nat ->
       buf' !! (i * 32 + k)%nat = hcall_stub i !! k) /\
    (forall i k, (k < 9)%nat ->
       buf !! (i * 32 + k)%nat = hcall_stub i !! k ->
       buf' !! (i * 32 + k)%nat = hcall_stub i !! k).
Proof.
  revert buf. induction idx as [|i0 idx IH]; intros buf Hfit.
  - exists buf. split; [reflexivity|]. split; [reflexivity|].
    split; [done|]. split; [|done]. intros i k Hi. by inversion Hi.
  - cbn [write_hcall_entries].
    destruct (write_hcall_entry buf i0) as [buf1|] eqn:H1.
    2:{ exfalso. revert H1. unfold write_hcall_entry.
        rewrite bool_decide_eq_true_2; [done|].
        apply Hfit, list_elem_of_here. }
    pose proof (fun j => write_hcall_entry_lookup buf buf1 i0 j H1) as Hlk.
    assert (Hlen1 : length buf1 = length buf) by apply (Hlk 0%nat).
    destruct (IH buf1) as (buf' & Hrun & Hlen & Hout & Hin & Hkeep).
    { intros i Hi. rewrite Hlen1. by apply Hfit, list_elem_of_further. }
    exists buf'. cbn [mbind option_bind]. split; [exact Hrun|].
    split; [congruence|]. split; [|split].
    + intros j Hj. rewrite Hout.
      * rewrite (proj2 (Hlk j)), bool_decide_eq_false_2; [done|].
        apply Hj, list_elem_of_here.
      * intros i Hi. by apply Hj, list_elem_of_further.
    + intros i k Hi Hk. inversion Hi as [|? ? ? Hi']; subst.
      * apply Hkeep; [exact Hk|].
        rewrite (proj2 (Hlk _)), bool_decide_eq_true_2 by lia.
        f_equal. lia.
      * by apply Hin.
    + intros i k Hk Hold. apply Hkeep; [exact Hk|].
      rewrite (proj2 (Hlk _)). case_bool_decide as Hrange; [|exact Hold].
      assert (i = i0) by lia. subst i0. f_equal. lia.
Qed.

(** X17: the hypercall page. Written on a page of 0x1000 bytes,
    [wrmsr_hcall_page] returns [true]; for each [i] below 55 the nine
    bytes at offset [32 * i] are the stub [mov eax, i; vmcall; ret]; every
    other byte of the page, the 23 bytes after each stub and everything
    from offset [32 * 55] on, is left as the guest had it. *)
Theorem wrmsr_hcall_page_stubs (buf : list Z) :
  length buf = 4096%nat ->
  exists buf',
    wrmsr_hcall_page buf = Some (true, buf') /\
    length buf' = 4096%nat /\
    (forall i k, (i < 55)%nat -> (k < 9)%nat ->
       buf' !! (32 * i + k)%nat = hcall_stub i !! k) /\
    (forall j, (32 * 55 <= j)%nat \/ (9 <= j mod 32)%nat ->
       buf' !! j = buf !! j).
Proof.
  intros Hlen.
  destruct (write_hcall_entries_effect (seq 0 55) buf)
    as (buf' & Hrun & Hlen' & Hout & Hin & _).
  { intros i Hi. apply elem_of_seq in Hi. lia. }
  exists buf'. unfold wrmsr_hcall_page. rewrite Hrun.
  split; [reflexivity|]. split; [congruence|]. split.
  - intros i k Hi Hk. replace (32 * i + k)%nat with (i * 32 + k)%nat by lia.
    apply Hin; [|exact Hk]. apply elem_of_seq. lia.
  - intros j Hj. apply Hout. intros i Hi Hrange. apply elem_of_seq in Hi.
    destruct Hj as [Hj|Hj]; [lia|].
    assert (j mod 32 = j - i * 32)%nat; [|lia].
    symmetry. apply (Nat.mod_unique j 32 i); lia.
Qed.

Lemma wrmsr_hcall_page_stubs_witness :
  exists buf',
    wrmsr_hcall_page (replicate 4096 0xCC) = Some (true, buf') /\
    take 12 (drop (32 * 54) buf')
      = [0xB8; 54; 0; 0; 0; 0x0F; 0x01; 0xC1; 0xC3; 0xCC; 0xCC; 0xCC] /\
    buf' !! (32 * 55)%nat = Some 0xCC.
Proof.
  destruct (wrmsr_hcall_page_stubs (replicate 4096 0xCC))
    as (buf' & Hrun & _ & _ & _); [apply length_replicate|].
  exists buf'. split; [exact Hrun|].
  revert Hrun. vm_compute. intros [= <-]. by split.
Defined.
